(** * Style Finder: the match-and-synthesize pipeline

    A shallow embedding of [src/config.py], [src/models/llm_service.py]
    (class [OllamaService]), [src/app.py] (class [StyleFinderApp]) and
    the scripts [src/test_ollama.py] and [src/setup_ollama.py], with a
    model of the similarity matcher on binary64 numbers, followed by the
    properties of the pipeline and of the scripts.

    Conventions of the embedding.
    - A Python [str] is a [string]; one [ascii] stands for one character
      (code points below 256).
    - A Python [float] is a binary64 [float] of the kernel.
    - A pandas [Series] is a finite map from labels to cells, a [DataFrame]
      a list of columns with a list of rows; a row of a frame is the list
      of its labels and cells, where a label may repeat.
    - Code that prints, logs, touches the file system or calls a
      collaborator runs in a state-and-exception monad over [world];
      [try ... except] is [try_except].
    - The scripts run in a monad of their own over the list of the
      actions taken; the host answers by the number of the request or
      of the command. *)

From Stdlib Require Import ZArith Floats DecimalString Ascii.
From stdpp Require Import strings gmap list.

#[local] Open Scope Z_scope.

(** ** Python strings *)

Module PyStr.

(** The line feed of the f-string templates. *)
Definition nl : string := String "010"%char "".

Definition startswith (p s : string) : bool := Stdlib.Strings.String.prefix p s.

(** [needle in hay]. *)
Fixpoint contains (needle hay : string) : bool :=
  startswith needle hay ||
  match hay with
  | EmptyString => false
  | String _ rest => contains needle rest
  end.

(** [str.isspace] on the characters below 256: TAB, LF, VT, FF, CR, the
    four separators FS, GS, RS, US, the space, NEL and the no-break space. *)
Definition isspace (c : ascii) : bool :=
  let n := nat_of_ascii c in
  ((9 <=? n) && (n <=? 13) || (28 <=? n) && (n <=? 32) ||
   (n =? 133) || (n =? 160))%nat.

Fixpoint lstrip (s : string) : string :=
  match s with
  | EmptyString => EmptyString
  | String c rest => if isspace c then lstrip rest else s
  end.

Fixpoint rstrip (s : string) : string :=
  match s with
  | EmptyString => EmptyString
  | String c rest =>
      match rstrip rest with
      | EmptyString => if isspace c then EmptyString else String c EmptyString
      | r => String c r
      end
  end.

(** [s.strip()]. *)
Definition strip (s : string) : string := rstrip (lstrip s).

(** [len(s)]. *)
Definition len (s : string) : nat := Stdlib.Strings.String.length s.

(** [sep.join(items)]. *)
Definition join (sep : string) (items : list string) : string :=
  Stdlib.Strings.String.concat sep items.

(** [str(n)] for an [int]. *)
Definition of_int (z : Z) : string := NilZero.string_of_int (Z.to_int z).
Definition of_nat (n : nat) : string := of_int (Z.of_nat n).

(** Truthiness of a [str]. *)
Definition truthy (s : string) : bool :=
  match s with EmptyString => false | _ => true end.

(** [t] occurs in [s] as a block of consecutive characters. *)
Definition Occurs (t s : string) : Prop := ∃ a b, s = a +:+ t +:+ b.

End PyStr.

(** ** Python floats *)

Module PyFloat.

Definition sign_str (s : bool) : string := if s then "-" else "".

(** Nearest integer to [num / den], ties to even ([den > 0]). *)
Definition round_half_even (num den : Z) : Z :=
  let q := num / den in
  let r := num mod den in
  match 2 * r ?= den with
  | Lt => q
  | Gt => q + 1
  | Eq => if Z.even q then q else q + 1
  end.

(** The number of hundredths nearest to [m * 2^e]. *)
Definition hundredths (m : positive) (e : Z) : Z :=
  if 0 <=? e then Z.pos m * 2 ^ e * 100
  else round_half_even (Z.pos m * 100) (2 ^ (- e)).

Definition two_digits (n : Z) : string :=
  PyStr.of_int (n / 10) +:+ PyStr.of_int (n mod 10).

(** [f"{x:.2f}"]: the decimal with two fractional digits nearest to the
    exact value of [x], ties to even; the sign is kept when the digits
    round to zero. *)
Definition format_2f (x : float) : string :=
  match Prim2SF x with
  | S754_nan => "nan"
  | S754_infinity s => sign_str s +:+ "inf"
  | S754_zero s => sign_str s +:+ "0.00"
  | S754_finite s m e =>
      let h := hundredths m e in
      sign_str s +:+ PyStr.of_int (h / 100) +:+ "." +:+ two_digits (h mod 100)
  end.

(** [x >= y]. *)
Definition ge (x y : float) : bool := PrimFloat.leb y x.

End PyFloat.

(** ** pandas values *)

(** A cell of a text column: a [str], the float [nan], or [None].  The
    text columns are the ones the pipeline reads ('Item Name', 'Brand',
    'Price', 'Category', 'Image URL'). *)
Inductive cell : Type :=
  | Text (s : string)
  | Nan
  | PyNone.

#[global] Instance cell_eq_dec : EqDecision cell.
Proof. solve_decision. Defined.

(** [f"{v}"]. *)
Definition py_str (v : cell) : string :=
  match v with
  | Text s => s
  | Nan => "nan"
  | PyNone => "None"
  end.

(** [pd.notna(v)]. *)
Definition notna (v : cell) : bool :=
  match v with
  | Text _ => true
  | Nan | PyNone => false
  end.

(** A [Series] whose labels are distinct, as the matched row is taken to
    be: labels to cells. *)
Abbreviation Series := (gmap string cell).

(** [row.get(key, default)]. *)
Definition get (row : Series) (key : string) (default : cell) : cell :=
  match row !! key with
  | Some v => v
  | None => default
  end.

(** [key in row]. *)
Definition has (row : Series) (key : string) : bool :=
  match row !! key with
  | Some _ => true
  | None => false
  end.

(** A [DataFrame] with cells of type [C]. *)
Record DataFrame (C : Type) : Type := mkDataFrame {
  columns : list string;
  rows : list (list C)
}.
Arguments mkDataFrame {C}.
Arguments columns {C}.
Arguments rows {C}.

(** [df.empty]: no row or no column. *)
Definition empty {C} (df : DataFrame C) : bool :=
  match columns df, rows df with
  | [], _ | _, [] => true
  | _, _ => false
  end.

(** The Series of one row of a frame: the cells of the row under the
    column labels of the frame, in order. A label that the frame repeats
    is there once for each of its columns. *)
Abbreviation Row := (list (string * cell)).

(** [df.iterrows()] of a frame with the default index: the position of
    each row with its Series. *)
Definition iterrows (df : DataFrame cell) : list (nat * Row) :=
  imap (λ k r, (k, zip (columns df) r)) (rows df).

(** The cells of a row under one label, in order. *)
Definition cells_at (item : Row) (label : string) : list cell :=
  (filter (λ p : string * cell, p.1 = label) item).*2.

(** What [item[label]] and [item.get(label)] give for a label of the
    row: the cell, when the label occurs once; the Series of its cells,
    when it repeats. *)
Inductive entry : Type :=
  | One (v : cell)
  | Many (vs : list cell).

Definition entry_at (item : Row) (label : string) : option entry :=
  match cells_at item label with
  | [] => None
  | [v] => Some (One v)
  | vs => Some (Many vs)
  end.

(** [str(e)] of the [ValueError] that the truth test of a Series of more
    than one element raises. *)
Definition ambiguous_truth : string :=
  "The truth value of a Series is ambiguous. Use a.empty, a.bool(), a.item(), a.any() or a.all().".

(** [pd.DataFrame([record])] for a record given as its (key, value) pairs. *)
Definition frame_of_record {C} (record : list (string * C)) : DataFrame C :=
  {| columns := map fst record; rows := [map snd record] |}.

(** [pd.DataFrame({label: values, ...})] for columns of one length: row
    [i] takes the [i]-th value of every column. *)
Definition frame_of_columns {C} (cols : list (string * list C)) : DataFrame C :=
  let height := match cols with [] => 0%nat | (_, c) :: _ => length c end in
  {| columns := map fst cols;
     rows := omap (λ i, mapM (λ c : string * list C, snd c !! i) cols)
               (seq 0 height) |}.

(** An embedding: a one-dimensional array of floats. *)
Abbreviation vector := (list float).

(** ** Effects *)

Inductive level : Type := INFO | WARNING | ERROR.

(** Calls that leave the process. *)
Inductive call : Type :=
  | CallEncode (image_path : string)
  | CallFindMatch
  | CallGetItems (image_url : cell)
  | CallProcessResponse (text : string)
  | CallPost (url prompt : string)
  | CallGet (url : string)
  | CallUnlink (path : string)
  | CallReadPickle (path : string).

Inductive event : Type :=
  | Printed (line : string)
  | Traceback (e : string)
  | Logged (lvl : level) (message : string)
  | Called (c : call).

#[global] Instance level_eq_dec : EqDecision level.
Proof. solve_decision. Defined.
#[global] Instance call_eq_dec : EqDecision call.
Proof. solve_decision. Defined.
#[global] Instance event_eq_dec : EqDecision event.
Proof. solve_decision. Defined.

(** What a run can observe and change: the paths that exist, the paths
    whose removal the system refuses, the random source with the number of
    samples drawn so far, and the events so far, oldest first. *)
Record world : Type := mkWorld {
  files : gset string;
  locked : gset string;
  entropy : nat → float;
  drawn : nat;
  trace : list event
}.

(** Outcome of a computation: a value or a raised exception [e], kept as
    [str(e)]. *)
Inductive result (A : Type) : Type :=
  | Ok (a : A)
  | Raise (e : string).
Arguments Ok {A} a.
Arguments Raise {A} e.

#[global] Instance result_ret : MRet result := λ A a, Ok a.

#[global] Instance result_bind : MBind result := λ A B k r,
  match r with
  | Ok a => k a
  | Raise e => Raise e
  end.

Definition M (A : Type) : Type := world → result A * world.

#[global] Instance M_ret : MRet M := λ A a w, (Ok a, w).

#[global] Instance M_bind : MBind M := λ A B k m w,
  match m w with
  | (Ok a, w') => k a w'
  | (Raise e, w') => (Raise e, w')
  end.

Definition raise {A} (e : string) : M A := λ w, (Raise e, w).

(** [try: body except Exception as e: handler(e)]. *)
Definition try_except {A} (body : M A) (handler : string → M A) : M A :=
  λ w, match body w with
       | (Ok a, w') => (Ok a, w')
       | (Raise e, w') => handler e w'
       end.

Definition emit (e : event) : M unit :=
  λ w, (Ok tt, {| files := files w; locked := locked w; entropy := entropy w;
                  drawn := drawn w; trace := trace w ++ [e] |}).

Definition print (line : string) : M unit := emit (Printed line).
Definition logger (lvl : level) (message : string) : M unit :=
  emit (Logged lvl message).

(** A call to a collaborator whose outcome is [r]: the call is recorded,
    then the outcome is returned or raised. *)
Definition invoke {A} (c : call) (r : result A) : M A :=
  λ w, (r, snd (emit (Called c) w)).

(** [os.path.exists(path)]. *)
Definition path_exists (path : string) : M bool :=
  λ w, (Ok (bool_decide (path ∈ files w)), w).

(** [os.unlink(path)]: removes an existing path the system lets go, raises
    otherwise. *)
Definition unlink (path : string) : M unit :=
  λ w,
    let w' := snd (emit (Called (CallUnlink path)) w) in
    if bool_decide (path ∈ files w) then
      if bool_decide (path ∈ locked w) then
        (Raise ("[Errno 13] Permission denied: '" +:+ path +:+ "'"), w')
      else
        (Ok tt, {| files := files w' ∖ {[path]}; locked := locked w';
                   entropy := entropy w'; drawn := drawn w';
                   trace := trace w' |})
    else
      (Raise ("[Errno 2] No such file or directory: '" +:+ path +:+ "'"), w').

(** [np.random.random(n)]: the next [n] samples of the random source. *)
Definition np_random (n : nat) : M vector :=
  λ w, (Ok (map (entropy w) (seq (drawn w) n)),
        {| files := files w; locked := locked w; entropy := entropy w;
           drawn := (drawn w + n)%nat; trace := trace w |}).

(** The calls among the events, oldest first. *)
Definition calls_of (t : list event) : list call :=
  omap (λ e, match e with Called c => Some c | _ => None end) t.

(** Two worlds that differ at most in the paths the system refuses to
    remove, and two worlds with the same events. *)
Definition same_but_locks (w1 w2 : world) : Prop :=
  files w1 = files w2 ∧ entropy w1 = entropy w2 ∧ drawn w1 = drawn w2 ∧
  trace w1 = trace w2.

Definition same_trace (w1 w2 : world) : Prop := trace w1 = trace w2.

(** [m] gives the same outcome from worlds related by [R], and leaves
    them related by [R']. *)
Definition agree {A} (R R' : world → world → Prop) (m : M A) : Prop :=
  ∀ w1 w2, R w1 w2 →
    fst (m w1) = fst (m w2) ∧ R' (snd (m w1)) (snd (m w2)).

(** The world [w] with [l] as the paths the system refuses to remove. *)
Definition with_locked (l : gset string) (w : world) : world :=
  {| files := files w; locked := l; entropy := entropy w; drawn := drawn w;
     trace := trace w |}.

(** [m] leaves the file system as it finds it. *)
Definition keeps_files {A} (m : M A) : Prop :=
  ∀ w, files (snd (m w)) = files w ∧ locked (snd (m w)) = locked w.

(** From [w] to [w'] nothing changed in the file system, except that
    [path] may have been removed. *)
Definition removes_at_most (path : string) (w w' : world) : Prop :=
  locked w' = locked w ∧
  (files w' = files w ∨ files w' = files w ∖ {[path]}).

(** [m] removes at most [path]. *)
Definition stays_within {A} (path : string) (m : M A) : Prop :=
  ∀ w, removes_at_most path w (snd (m w)).

(** [m1] and [m2] give the same outcome from worlds related by [R], and
    leave them related by [R']. *)
Definition agree2 {A} (R R' : world → world → Prop) (m1 m2 : M A) : Prop :=
  ∀ w1 w2, R w1 w2 →
    fst (m1 w1) = fst (m2 w2) ∧ R' (snd (m1 w1)) (snd (m2 w2)).

(** Any two worlds. *)
Definition any_worlds (w1 w2 : world) : Prop := True.

(** ** config.py *)

Module config.

Definition OLLAMA_MODEL_NAME : string := "llama3.2:3b".
Definition OLLAMA_BASE_URL : string := "http://localhost:11434".

Definition IMAGE_SIZE : Z * Z := (224, 224).

(** [0.485, 0.456, 0.406] and [0.229, 0.224, 0.225] as binary64. *)
Definition NORMALIZATION_MEAN : list float :=
  [0x1.f0a3d70a3d70ap-2; 0x1.d2f1a9fbe76c9p-2; 0x1.9fbe76c8b4396p-2]%float.
Definition NORMALIZATION_STD : list float :=
  [0x1.d4fdf3b645a1dp-3; 0x1.cac083126e979p-3; 0x1.ccccccccccccdp-3]%float.

(** The binary64 value Python reads for the literal 0.8. *)
Definition SIMILARITY_THRESHOLD : float := 0x1.999999999999ap-1.

Definition DEFAULT_ALTERNATIVES_COUNT : Z := 5.

End config.

(** ** models/llm_service.py *)

Module llm_service.

(** The JSON body of [POST /api/generate]. *)
Record payload : Type := mkPayload {
  model : string;
  prompt : string;
  stream : bool;
  temperature_opt : float;
  top_p_opt : float;
  num_predict : Z;
  images : option (list string)
}.

(** A [requests.Response]: [json] is what [response.json()] gives when
    it is called. *)
Record response (B : Type) : Type := mkResponse {
  status_code : Z;
  text : string;
  json : result B
}.
Arguments mkResponse {B}.
Arguments status_code {B}.
Arguments text {B}.
Arguments json {B}.

(** The keys read from the reply of [/api/generate]; [None] is an
    absent key. *)
Record generate_body : Type := mkBody {
  body_response : option string;
  body_done : option bool
}.

(** The reply of [/api/tags]: the "models" key, each model with its
    "name" key. *)
Definition tags_body : Type := option (list (option string)).

Record OllamaService : Type := mkService {
  model_name : string;
  base_url : string;
  temperature : float;
  top_p : float;
  max_tokens : Z
}.

Definition related_header : string := "## Related Items Found".

Section Listing.

(** [str] of the Series that row [k] gives under a label that repeats,
    as pandas prints it: [series_str k label cells]. *)
Variable series_str : nat → string → list cell → string.

(** Lines 135-141: the bullet of one related item. Under a label that
    repeats, [pd.notna] gives a Series, whose truth test raises. *)
Definition item_info (k : nat) (item : Row) : result string :=
  let info :=
    "* " +:+
    match entry_at item "Item Name" with
    | Some (One v) => py_str v
    | Some (Many vs) => series_str k "Item Name" vs
    | None => "Unknown Item"
    end in
  info ←
    match entry_at item "Price" with
    | Some (One v) =>
        if notna v then Ok (info +:+ " - Price: " +:+ py_str v) else Ok info
    | Some (Many _) => Raise ambiguous_truth
    | None => Ok info
    end;
  info ←
    match entry_at item "Brand" with
    | Some (One v) =>
        if notna v then Ok (info +:+ " - Brand: " +:+ py_str v) else Ok info
    | Some (Many _) => Raise ambiguous_truth
    | None => Ok info
    end;
  info ←
    match entry_at item "Image URL" with
    | Some (One v) =>
        if notna v then Ok (info +:+ " - [View Image](" +:+ py_str v +:+ ")")
        else Ok info
    | Some (Many _) => Raise ambiguous_truth
    | None => Ok info
    end;
  Ok info.

(** Lines 133-142: the loop appends one bullet per row, and stops at the
    first row that raises. *)
Definition items_list (all_items : DataFrame cell) : result (list string) :=
  fold_left
    (λ acc row,
       items_list ← acc;
       info ← item_info row.1 row.2;
       Ok (items_list ++ [info]))
    (iterrows all_items) (Ok []).

End Listing.

(** Lines 148-153. *)
Definition match_quality (similarity_score threshold : float) : string :=
  if PyFloat.ge similarity_score threshold then "excellent match"
  else "similar item".

Definition confidence (similarity_score threshold : float) : string :=
  if PyFloat.ge similarity_score threshold then "high confidence"
  else "moderate confidence".

(** Lines 156-175. *)
Definition fashion_prompt (match_quality confidence : string)
    (similarity_score : float) (matched_row : Series)
    (items_text : string) : string :=
  PyStr.join PyStr.nl [
    "You are a fashion expert analyzing a user's uploaded image. ";
    "";
    "The user's image has been matched with " +:+ match_quality +:+ " in our database with " +:+ confidence +:+ " (similarity score: " +:+ PyFloat.format_2f similarity_score +:+ ").";
    "";
    "MATCHED ITEM DETAILS:";
    "- Item Name: " +:+ py_str (get matched_row "Item Name" (Text "Unknown"));
    "- Brand: " +:+ py_str (get matched_row "Brand" (Text "Unknown"));
    "- Price: " +:+ py_str (get matched_row "Price" (Text "Unknown"));
    "- Category: " +:+ py_str (get matched_row "Category" (Text "Unknown"));
    "";
    "RELATED ITEMS IN DATABASE:";
    items_text;
    "";
    "Please provide a detailed fashion analysis including:";
    "1. Description of the main item in the user's image";
    "2. Style analysis (colors, patterns, fit, occasion)";
    "3. Fashion recommendations and styling tips";
    "4. Similar alternatives from our database";
    "";
    "Keep the response informative, engaging, and fashion-focused. Use markdown formatting for better readability."
  ].

(** Lines 183-196. *)
Definition fallback_response (match_quality : string)
    (similarity_score : float) (matched_row : Series)
    (items_text : string) : string :=
  PyStr.join PyStr.nl [
    "## Fashion Analysis Results";
    "";
    "Based on your image, I've identified a " +:+ match_quality +:+ " in our database:";
    "";
    "**Matched Item:** " +:+ py_str (get matched_row "Item Name" (Text "Unknown"));
    "**Brand:** " +:+ py_str (get matched_row "Brand" (Text "Unknown"));
    "**Price:** " +:+ py_str (get matched_row "Price" (Text "Unknown"));
    "**Similarity Score:** " +:+ PyFloat.format_2f similarity_score;
    "";
    related_header;
    "";
    items_text;
    "";
    "*Note: The AI analysis was incomplete, but here are the items we found in our database that match your image.*"
  ].

(** Line 181: [not response or len(response.strip()) < 100]. *)
Definition too_short (response : string) : bool :=
  negb (PyStr.truthy response) || (PyStr.len (PyStr.strip response) <? 100)%nat.

(** Line 199. *)
Definition lacks_related_items (response : string) : bool :=
  negb (PyStr.contains "RELATED ITEMS" response) &&
  negb (PyStr.contains "Related Items" response).

(** Line 200. *)
Definition with_related_items (response items_text : string) : string :=
  response +:+ PyStr.nl +:+ PyStr.nl +:+ related_header +:+ PyStr.nl +:+
  PyStr.nl +:+ items_text.

(** Lines 76-89: the request body. *)
Definition payload_of (self : OllamaService) (prompt : string)
    (image_base64 : option string) : payload :=
  {| model := model_name self;
     prompt := prompt;
     stream := false;
     temperature_opt := temperature self;
     top_p_opt := top_p self;
     num_predict := max_tokens self;
     images := match image_base64 with
               | Some b => if PyStr.truthy b then Some [b] else None
               | None => None
               end |}.

Section Service.

(** The HTTP layer: [requests.post(url, json=payload, timeout=60)] and
    [requests.get(url, timeout=5)], each returning a response or
    raising; Python's [repr] of a list of [str], used in one log line;
    and the text of a Series, used by the listing. *)
Variable requests_post : string → payload → result (response generate_body).
Variable requests_get : string → result (response tags_body).
Variable repr_names : list string → string.
Variable series_str : nat → string → list cell → string.

(** Lines 43-59. *)
Definition _test_connection (self : OllamaService) : M unit :=
  try_except
    (resp ← invoke (CallGet (base_url self +:+ "/api/tags"))
              (requests_get (base_url self +:+ "/api/tags"));
     if status_code resp =? 200 then
       logger INFO ("Successfully connected to Ollama at " +:+ base_url self);;
       body ← (λ w, (json resp, w));
       let models := default [] body in
       let model_names := map (default "") models in
       if bool_decide (model_name self ∈ model_names) then
         logger INFO ("Model " +:+ model_name self +:+ " is available")
       else
         logger WARNING ("Model " +:+ model_name self +:+
                         " not found. Available models: " +:+
                         repr_names model_names)
     else
       logger ERROR ("Failed to connect to Ollama: " +:+
                     PyStr.of_int (status_code resp)))
    (λ e, logger ERROR ("Error connecting to Ollama: " +:+ e)).

(** Lines 21-41. *)
Definition __init__ (model_name base_url : string) (temperature top_p : float)
    (max_tokens : Z) : M OllamaService :=
  let self := mkService model_name base_url temperature top_p max_tokens in
  _test_connection self;;
  mret self.

(** Lines 61-114. *)
Definition generate_response (self : OllamaService) (prompt : string)
    (image_base64 : option string) : M string :=
  try_except
    (logger INFO ("Sending request to Ollama model " +:+ model_name self +:+
                  " with prompt length: " +:+ PyStr.of_nat (PyStr.len prompt));;
     let payload := payload_of self prompt image_base64 in
     resp ← invoke (CallPost (base_url self +:+ "/api/generate") prompt)
              (requests_post (base_url self +:+ "/api/generate") payload);
     if status_code resp =? 200 then
       result ← (λ w, (json resp, w));
       let content := default "" (body_response result) in
       (if default false (body_done result) && (PyStr.len content <? 100)%nat
        then logger WARNING "Response appears to be truncated or too short"
        else mret tt);;
       logger INFO ("Successfully generated response with " +:+
                    PyStr.of_nat (PyStr.len content) +:+ " characters");;
       mret content
     else
       logger ERROR ("Error from Ollama API: " +:+
                     PyStr.of_int (status_code resp) +:+ " - " +:+ text resp);;
       mret ("Error generating response: HTTP " +:+
             PyStr.of_int (status_code resp)))
    (λ e,
       logger ERROR ("Error generating response: " +:+ e);;
       mret ("Error generating response: " +:+ e)).

(** Lines 116-206. *)
Definition generate_fashion_response (self : OllamaService)
    (user_image_base64 : option string) (matched_row : Series)
    (all_items : DataFrame cell) (similarity_score threshold : float) : M string :=
  try_except
    (items_list ← (λ w, (items_list series_str all_items, w));
     let items_text := PyStr.join PyStr.nl items_list in
     let match_quality := match_quality similarity_score threshold in
     let confidence := confidence similarity_score threshold in
     let prompt :=
       fashion_prompt match_quality confidence similarity_score
         matched_row items_text in
     response ← generate_response self prompt user_image_base64;
     response ←
       (if too_short response then
          logger WARNING
            "Generated response is too short, creating fallback response";;
          mret (fallback_response match_quality similarity_score
                  matched_row items_text)
        else mret response);
     let response :=
       if lacks_related_items response
       then with_related_items response items_text
       else response in
     mret response)
    (λ e,
       logger ERROR ("Error generating fashion response: " +:+ e);;
       mret ("Error generating fashion analysis: " +:+ e)).

End Service.

(** The default of the [threshold] parameter (line 117): 0.8. *)
Definition default_threshold : float := 0x1.999999999999ap-1.

(** The defaults of the constructor (line 23): 0.2, 0.6 and 2000. *)
Definition default_temperature : float := 0x1.999999999999ap-3.
Definition default_top_p : float := 0x1.3333333333333p-1.
Definition default_max_tokens : Z := 2000.


(** *** Views of the service used by the properties *)

(** A field of a bullet as the specification words it: the rendered
    value between [pre] and [post] when the field is present and
    non-null, nothing otherwise. *)
Definition optional_part (pre post : string) (field : option cell) : string :=
  match field with
  | Some v => if notna v then pre +:+ py_str v +:+ post else ""
  | None => ""
  end.

(** [field] is what row [r] of a frame with columns [cols] has under
    [label]: a cell of the row in a column of that label, or nothing
    when no column of that label has a cell in the row. *)
Definition under (cols : list string) (r : list cell) (label : string)
    (field : option cell) : Prop :=
  match field with
  | Some v => ∃ i, cols !! i = Some label ∧ r !! i = Some v
  | None => ∀ i, cols !! i = Some label → r !! i = None
  end.

(** A bullet as the specification words it, from the name, the price,
    the brand and the image reference of an entry. *)
Definition bullet (name price brand link : option cell) : string :=
  "* " +:+ py_str (default (Text "Unknown Item") name) +:+
  optional_part " - Price: " "" price +:+
  optional_part " - Brand: " "" brand +:+
  optional_part " - [View Image](" ")" link.

(** The failure of the generation layer, if any: the exception raised
    by the request or by decoding its reply, or the status that is
    not 200. *)
Definition generation_error (out : result (response generate_body))
    : option string :=
  match out with
  | Raise e => Some e
  | Ok resp =>
      if status_code resp =? 200 then
        match json resp with
        | Raise e => Some e
        | Ok _ => None
        end
      else Some ("HTTP " +:+ PyStr.of_int (status_code resp))
  end.

(** What [generate_response] returns for an outcome of the request. *)
Definition response_text (out : result (response generate_body)) : string :=
  match out with
  | Raise e => "Error generating response: " +:+ e
  | Ok resp =>
      if status_code resp =? 200 then
        match json resp with
        | Raise e => "Error generating response: " +:+ e
        | Ok body => default "" (body_response body)
        end
      else "Error generating response: HTTP " +:+ PyStr.of_int (status_code resp)
  end.

(** Lines 180-202 as a function of the text the generation returned
    and of the listing. *)
Definition finish (response : string) (similarity_score threshold : float)
    (matched_row : Series) (items_text : string) : string :=
  let response :=
    if too_short response then
      fallback_response (match_quality similarity_score threshold)
        similarity_score matched_row items_text
    else response in
  if lacks_related_items response
  then with_related_items response items_text
  else response.

(** The prompt of lines 156-175 for the arguments of the call and the
    listing. *)
Definition prompt_of (similarity_score threshold : float)
    (matched_row : Series) (items_text : string) : string :=
  fashion_prompt (match_quality similarity_score threshold)
    (confidence similarity_score threshold) similarity_score matched_row
    items_text.

End llm_service.

(** ** app.py *)

Module app.

(** A cell of the dataset: a text cell, or the array of the 'Embedding'
    column. *)
Inductive value : Type :=
  | Scalar (c : cell)
  | Embedding (v : vector).

(** What [self.data] holds: the dummy frame, or what [pd.read_pickle]
    gave, a frame or an object of another type [O]. *)
Inductive dataset (O : Type) : Type :=
  | Frame (df : DataFrame value)
  | Object (o : O).
Arguments Frame {O} df.
Arguments Object {O} o.

(** What [encode_image] returns: the 'vector' and 'base64' entries
    ([None] is Python's [None]) and the 'error' entry ([None] is an
    absent key). *)
Record encoding : Type := mkEncoding {
  enc_vector : option vector;
  enc_base64 : option string;
  enc_error : option string
}.

(** What Gradio hands over: a file object with its [name], or a path. *)
Inductive upload : Type :=
  | FileObj (name : string)
  | PathStr (path : string).

(** The [image] argument: one upload, a list of uploads, or a value of
    another kind ([None], a number, ...). *)
Inductive image_arg : Type :=
  | Single (u : upload)
  | Several (l : list upload)
  | Unsupported.

(** Lines 74-85: the path of the image, when the argument has one. *)
Definition image_path_of (image : image_arg) : option string :=
  match image with
  | Single (FileObj name) => Some name
  | Single (PathStr path) => Some path
  | Several (FileObj name :: _) => Some name
  | Several (PathStr path :: _) => Some path
  | Several [] => None
  | Unsupported => None
  end.

(** Line 134: [hasattr(image, 'name') and image.name.startswith('/tmp/')]. *)
Definition is_temporary (image : image_arg) : bool :=
  match image with
  | Single (FileObj name) => PyStr.startswith "/tmp/" name
  | _ => false
  end.

(** [str(v.shape)] of a one-dimensional array. *)
Definition shape_str (v : vector) : string :=
  "(" +:+ PyStr.of_nat (length v) +:+ ",)".

(** [row[key]]: raises [KeyError(key)], whose [str] is the quoted key. *)
Definition getitem (row : Series) (key : string) : M cell :=
  match row !! key with
  | Some v => mret v
  | None => raise ("'" +:+ key +:+ "'")
  end.

(** Lines 115-121: the one-row frame built from the matched row. *)
Definition single_item_frame (closest_row : Series) : DataFrame cell :=
  frame_of_record [
    ("Item Name", get closest_row "Item Name" (Text "Fashion Item"));
    ("Brand", get closest_row "Brand" (Text "Unknown"));
    ("Price", get closest_row "Price" (Text "N/A"));
    ("Category", get closest_row "Category" (Text "Fashion"));
    ("Image URL", get closest_row "Image URL" (Text ""))
  ].

(** Line 33: [dataset_path and os.path.exists(dataset_path)], as a
    property of the argument and the world. *)
Definition resolves (dataset_path : option string) (w : world) : bool :=
  match dataset_path with
  | Some path => PyStr.truthy path && bool_decide (path ∈ files w)
  | None => false
  end.

(** Lines 41-48: the dummy dataset around three embeddings. *)
Definition dummy_dataset (e1 e2 e3 : vector) : DataFrame value :=
  frame_of_columns [
    ("Item Name", Scalar <$> [Text "Elegant Blazer"; Text "Classic Shirt"; Text "Designer Dress"]);
    ("Brand", Scalar <$> [Text "Fashion House"; Text "Style Co."; Text "Trendy Brand"]);
    ("Price", Scalar <$> [Text "$299"; Text "$89"; Text "$199"]);
    ("Category", Scalar <$> [Text "Blazer"; Text "Shirt"; Text "Dress"]);
    ("Image URL", Scalar <$> [Text "http://example.com/blazer.jpg"; Text "http://example.com/shirt.jpg"; Text "http://example.com/dress.jpg"]);
    ("Embedding", [Embedding e1; Embedding e2; Embedding e3])
  ].

Section App.

(** The collaborators whose code is not part of this development:
    [models.image_processor.ImageProcessor] (constructor and two
    methods), [utils.helpers] (two functions), [pd.read_pickle] with the
    objects it may give that are not frames, and the HTTP layer and the
    text of a Series of [llm_service].  Each returns or raises;
    [attr_empty o] is the truth test of [o.empty], which raises
    [AttributeError] for an object without that attribute. *)
Variable ImageProcessor : Type.
Variable PyObject : Type.
Variable new_image_processor :
  Z * Z → list float → list float → result ImageProcessor.
Variable encode_image : ImageProcessor → string → bool → result encoding.
Variable find_closest_match :
  ImageProcessor → vector → dataset PyObject →
  result (option Series * float).
Variable get_all_items_for_image :
  cell → dataset PyObject → result (option (DataFrame cell)).
Variable process_response : string → result string.
Variable read_pickle : string → result (dataset PyObject).
Variable attr_empty : PyObject → result bool.
Variable requests_post :
  string → llm_service.payload →
  result (llm_service.response llm_service.generate_body).
Variable requests_get :
  string → result (llm_service.response llm_service.tags_body).
Variable repr_names : list string → string.
Variable series_str : nat → string → list cell → string.

Record StyleFinderApp : Type := mkApp {
  data : dataset PyObject;
  image_processor : ImageProcessor;
  llm : llm_service.OllamaService
}.

(** Lines 38-48: the warning and the dummy dataset. *)
Definition create_dummy (dataset_path : option string)
    : M (dataset PyObject) :=
  print ("Warning: Dataset file not found at " +:+
         default "None" dataset_path +:+
         ". Creating dummy dataset for testing.");;
  e1 ← np_random 1000;
  e2 ← np_random 1000;
  e3 ← np_random 1000;
  mret (Frame (dummy_dataset e1 e2 e3)).

(** Line 35: [if self.data.empty]. *)
Definition data_empty (data : dataset PyObject) : M bool :=
  match data with
  | Frame df => mret (empty df)
  | Object o => λ w, (attr_empty o, w)
  end.

(** Lines 34-36: the dataset read from an existing file. *)
Definition load_existing (path : string) : M (dataset PyObject) :=
  data ← invoke (CallReadPickle path) (read_pickle path);
  is_empty ← data_empty data;
  if is_empty : bool then raise "The loaded dataset is empty" else mret data.

(** Lines 32-48: [dataset_path and os.path.exists(dataset_path)]
    chooses between the two. *)
Definition load_dataset (dataset_path : option string)
    : M (dataset PyObject) :=
  match dataset_path with
  | Some path =>
      if PyStr.truthy path then
        found ← path_exists path;
        if found : bool then load_existing path
        else create_dummy dataset_path
      else create_dummy dataset_path
  | None => create_dummy dataset_path
  end.

(** Lines 21-60. *)
Definition __init__ (dataset_path : option string) : M StyleFinderApp :=
  data ← load_dataset dataset_path;
  image_processor ←
    (λ w, (new_image_processor config.IMAGE_SIZE
             config.NORMALIZATION_MEAN config.NORMALIZATION_STD, w));
  llm ← llm_service.__init__ requests_get repr_names
           config.OLLAMA_MODEL_NAME config.OLLAMA_BASE_URL
           llm_service.default_temperature llm_service.default_top_p
           llm_service.default_max_tokens;
  mret (mkApp data image_processor llm).

(** Lines 110-122: the related items, or the matched item alone. *)
Definition related_items (self : StyleFinderApp) (closest_row : Series)
    : M (DataFrame cell) :=
  let image_url := get closest_row "Image URL" (Text "") in
  all_items ← invoke (CallGetItems image_url)
                (get_all_items_for_image image_url (data self));
  match all_items with
  | Some df =>
      if empty df then
        print "Using single matched item as no related items found.";;
        mret (single_item_frame closest_row)
      else mret df
  | None =>
      print "Using single matched item as no related items found.";;
      mret (single_item_frame closest_row)
  end.

(** Lines 133-138. *)
Definition cleanup (image : image_arg) (image_path : string) : M unit :=
  if is_temporary image then
    try_except (unlink image_path) (λ _, mret tt)
  else mret tt.

(** Lines 72-140: the body of the [try]. *)
Definition process_image_body (self : StyleFinderApp) (image : image_arg)
    : M string :=
  match image_path_of image with
  | None => mret "Error: Invalid image format received"
  | Some image_path =>
      print ("Processing image: " +:+ image_path);;
      found ← path_exists image_path;
      if negb found then
        mret ("Error: Image file not found at " +:+ image_path)
      else
        user_encoding ← invoke (CallEncode image_path)
                          (encode_image (image_processor self) image_path false);
        match enc_vector user_encoding with
        | None =>
            let error_msg :=
              default "Unable to process the image. Please try another image."
                (enc_error user_encoding) in
            print ("Image encoding failed: " +:+ error_msg);;
            mret ("Error: " +:+ error_msg)
        | Some vec =>
            print ("Image encoded successfully. Vector shape: " +:+
                   shape_str vec);;
            found ← invoke CallFindMatch
                      (find_closest_match (image_processor self) vec (data self));
            match found with
            | (None, _) =>
                print "No closest match found in dataset";;
                mret "Error: Unable to find a match. Please try another image."
            | (Some closest_row, similarity_score) =>
                name ← getitem closest_row "Item Name";
                print ("Closest match: " +:+ py_str name +:+
                       " with similarity score " +:+
                       PyFloat.format_2f similarity_score);;
                all_items ← related_items self closest_row;
                bot_response ←
                  llm_service.generate_fashion_response requests_post
                    series_str
                    (llm self) (enc_base64 user_encoding) closest_row
                    all_items similarity_score config.SIMILARITY_THRESHOLD;
                cleanup image image_path;;
                invoke (CallProcessResponse bot_response)
                  (process_response bot_response)
            end
        end
  end.

(** Lines 62-146. *)
Definition process_image (self : StyleFinderApp) (image : image_arg)
    : M string :=
  try_except (process_image_body self image)
    (λ e,
       print ("Error in process_image: " +:+ e);;
       emit (Traceback e);;
       mret ("Error processing image: " +:+ e)).

End App.

End app.

(** ** The similarity matcher

    [ImageProcessor.find_closest_match] lives in
    [models/image_processor.py], which is not part of the sources at
    hand; the matcher below follows section 4.1 of the specification,
    on binary64 numbers, as the scores of the pipeline are. *)

Module SimilarityMatcher.

(** Modelled from the spec: the catalog entry of section 3 (the source of
    [find_closest_match] and of the dataset rows is missing); an optional
    field is [None] when absent, and the embedding is a sequence of
    binary64 numbers. *)
Record CatalogEntry : Type := mkEntry {
  name : option string;
  brand : option string;
  price : option string;
  category : option string;
  source_id : string;
  embedding : vector
}.

(** Modelled from the spec: the dot product of section 4.1, summed from
    the first component on (the source of [find_closest_match] is
    missing). *)
Definition dot (u v : vector) : float :=
  fold_left (λ acc p, acc + p.1 * p.2)%float (zip u v) 0%float.

(** Modelled from the spec: the Euclidean norm of section 4.1 (the source
    of [find_closest_match] is missing). *)
Definition norm (v : vector) : float := PrimFloat.sqrt (dot v v).

(** Modelled from the spec: "the minimum possible value" of a
    similarity, taken as the least binary64 number, so that an entry
    scored with it is "never selected unless it is the only entry" (the
    source of [find_closest_match] is missing). *)
Definition min_similarity : float := neg_infinity.

(** Modelled from the spec: "cosine similarity = dot(query, e) /
    (norm(query) * norm(e)). If either vector has zero norm, that entry's
    similarity is treated as the minimum possible value" (the source of
    [find_closest_match] is missing). *)
Definition cosine_similarity (query e : vector) : float :=
  if (norm query =? 0)%float || (norm e =? 0)%float then min_similarity
  else (dot query e / (norm query * norm e))%float.

(** Modelled from the spec: the outcome of [match] in section 4.1, a
    match result with the index of its entry, [NotFound], or the
    [DimensionMismatch] failure (the source of [find_closest_match] is
    missing). *)
Inductive outcome : Type :=
  | Found (index : nat) (entry : CatalogEntry) (score : float)
  | NotFound
  | DimensionMismatch.

(** Modelled from the spec: the linear scan of section 4.1, "argmax over
    similarity; first-index tie-break for exact ties": a later entry
    replaces the best one only with a strictly greater score (the source
    of [find_closest_match] is missing). *)
Fixpoint scan (query : vector) (entries : list CatalogEntry) (i : nat)
    (best_index : nat) (best : CatalogEntry) (best_score : float) : outcome :=
  match entries with
  | [] => Found best_index best best_score
  | e :: rest =>
      let s := cosine_similarity query (embedding e) in
      if (best_score <? s)%float
      then scan query rest (S i) i e s
      else scan query rest (S i) best_index best best_score
  end.

(** Modelled from the spec: the precondition of section 4.1, "query has
    the same dimensionality as the store's entries" (the source of
    [find_closest_match] is missing). *)
Definition same_dimension (query : vector) (store : list CatalogEntry) : bool :=
  forallb (λ e, length (embedding e) =? length query)%nat store.

(** Modelled from the spec: [match(query, store)] of section 4.1:
    [NotFound] for the empty store, [DimensionMismatch] when the
    dimensions differ, the scanned best entry otherwise (the source of
    [find_closest_match] is missing). *)
Definition match_ (query : vector) (store : list CatalogEntry) : outcome :=
  match store with
  | [] => NotFound
  | e :: rest =>
      if same_dimension query store
      then scan query rest 1 0 e (cosine_similarity query (embedding e))
      else DimensionMismatch
  end.

End SimilarityMatcher.

(** ** Sample data *)

Module demo.
Import llm_service app.

Definition blazer : Series :=
  {[ "Item Name" := Text "Elegant Blazer"; "Brand" := Text "Fashion House";
     "Price" := Text "$299"; "Category" := Text "Blazer";
     "Image URL" := Text "http://example.com/blazer.jpg" ]}.

(** A row of a dataset that has no 'Item Name' column. *)
Definition nameless : Series :=
  {[ "Brand" := Text "Fashion House"; "Price" := Text "$299";
     "Category" := Text "Blazer";
     "Image URL" := Text "http://example.com/blazer.jpg" ]}.

Definition related : DataFrame cell :=
  {| columns := ["Item Name"; "Brand"; "Price"; "Image URL"];
     rows := [[Text "Elegant Blazer"; Text "Fashion House"; Text "$299";
               Text "http://example.com/blazer.jpg"];
              [Text "Wool Trousers"; Nan; Text "$120";
               Text "http://example.com/blazer.jpg"]] |}.

Definition service : OllamaService :=
  mkService config.OLLAMA_MODEL_NAME config.OLLAMA_BASE_URL
    default_temperature default_top_p default_max_tokens.

Definition upload_path : string := "/tmp/gradio/upload.jpg".

Definition world0 : world :=
  {| files := {[ upload_path; "catalog.pkl" ]}; locked := ∅;
     entropy := λ _, 0.5%float; drawn := 0; trace := [] |}.

(** The same world, where the upload cannot be removed. *)
Definition world_locked : world := with_locked {[ upload_path ]} world0.

Definition new_processor (_ : Z * Z) (_ _ : list float) : result unit := Ok tt.

Definition encode_ok (_ : unit) (_ : string) (_ : bool) : result encoding :=
  Ok {| enc_vector := Some [0.25; 0.5]%float; enc_base64 := Some "aGVsbG8=";
        enc_error := None |}.

Definition encode_none (_ : unit) (_ : string) (_ : bool) : result encoding :=
  Ok {| enc_vector := None; enc_base64 := None;
        enc_error := Some "Unsupported image format" |}.

Definition find_blazer (_ : unit) (_ : vector) (_ : dataset unit)
    : result (option Series * float) := Ok (Some blazer, 0.875%float).

Definition find_nameless (_ : unit) (_ : vector) (_ : dataset unit)
    : result (option Series * float) := Ok (Some nameless, 0.875%float).

Definition find_nothing (_ : unit) (_ : vector) (_ : dataset unit)
    : result (option Series * float) := Ok (None, 0%float).

Definition no_items (_ : cell) (_ : dataset unit)
    : result (option (DataFrame cell)) := Ok None.

Definition keep_text (text : string) : result string := Ok text.

(** An encoder and a [process_response] that raise. *)
Definition encode_fails (_ : unit) (_ : string) (_ : bool) : result encoding :=
  Raise "cannot identify image file '/tmp/gradio/upload.jpg'".

Definition reject_text (_ : string) : result string :=
  Raise "expected string or bytes-like object".

Definition corrupt_pickle (_ : string) : result (dataset unit) :=
  Raise "invalid load key, 'x'.".

(** A file that holds a pickled list, and the truth test of its [empty]
    attribute. *)
Definition pickled_list (_ : string) : result (dataset unit) := Ok (Object tt).

Definition list_empty (_ : unit) : result bool :=
  Raise "'list' object has no attribute 'empty'".

(** A stand-in for the text of a Series under a repeated label. *)
Definition series_text (_ : nat) (_ : string) (_ : list cell) : string :=
  "Series".

(** The listing of [related], bullet by bullet. *)
Definition related_bullets : list string :=
  ["* Elegant Blazer - Price: $299 - Brand: Fashion House - [View Image](http://example.com/blazer.jpg)";
   "* Wool Trousers - Price: $120 - [View Image](http://example.com/blazer.jpg)"].

(** A group whose frame has two 'Price' columns. *)
Definition two_prices : DataFrame cell :=
  {| columns := ["Item Name"; "Price"; "Price"];
     rows := [[Text "Elegant Blazer"; Text "$299"; Text "$249"]] |}.

Definition tags_down (_ : string) : result (response tags_body) :=
  Raise "Connection refused".

Definition names_repr (_ : list string) : string := "[]".

(** The message of the exception [requests] raises when nothing listens
    on the port. *)
Definition refused : string :=
  "HTTPConnectionPool(host='localhost', port=11434): Max retries exceeded with url: /api/generate (Caused by NewConnectionError('Failed to establish a new connection: [Errno 111] Connection refused'))".

Definition post_refused (_ : string) (_ : payload)
    : result (response generate_body) := Raise refused.

(** A backend that answers with [content]. *)
Definition post_reply (content : string) (_ : string) (_ : payload)
    : result (response generate_body) :=
  Ok {| status_code := 200; text := "";
        json := Ok {| body_response := Some content; body_done := Some true |} |}.

(** A generated text of more than 100 characters without a related-items
    section. *)
Definition long_reply : string :=
  "The blazer in your image is a tailored single-breasted piece in navy wool; pair it with grey trousers and brown loafers.".

(** A generated text of more than 100 characters that mentions related
    items in a sentence, and has no section header. *)
Definition prose_reply : string :=
  "The blazer in your image is a tailored single-breasted piece in navy wool; pair it with grey trousers and brown loafers. No Related Items are needed.".

Definition application : StyleFinderApp unit unit :=
  {| data := Frame (dummy_dataset [] [] []); image_processor := tt;
     llm := service |}.

(** A catalog of two entries whose embeddings point the same way. *)
Definition navy : SimilarityMatcher.CatalogEntry :=
  SimilarityMatcher.mkEntry (Some "Navy Blazer") (Some "Fashion House")
    (Some "$299") (Some "Blazer") "http://example.com/blazer.jpg"
    [1; 0]%float.

Definition linen : SimilarityMatcher.CatalogEntry :=
  SimilarityMatcher.mkEntry (Some "Linen Shirt") (Some "Style Co.")
    (Some "$89") (Some "Shirt") "http://example.com/shirt.jpg" [2; 0]%float.

Definition catalog : list SimilarityMatcher.CatalogEntry := [navy; linen].

(** An entry with the embedding (0.1, 0.1), followed by one that points
    the same way. *)
Definition tenth : float := 0x1.999999999999ap-4.

Definition scarf : SimilarityMatcher.CatalogEntry :=
  SimilarityMatcher.mkEntry (Some "Silk Scarf") None (Some "$45") None
    "http://example.com/scarf.jpg" [tenth; tenth].

Definition coat : SimilarityMatcher.CatalogEntry :=
  SimilarityMatcher.mkEntry (Some "Wool Coat") None (Some "$320") None
    "http://example.com/coat.jpg" [1; 1]%float.

(** Entries whose embeddings have a component too small, and too large,
    for its square to be a positive binary64 number. *)
Definition faint : SimilarityMatcher.CatalogEntry :=
  SimilarityMatcher.mkEntry (Some "Lace Glove") None None None
    "http://example.com/glove.jpg" [0x1p-600; 0]%float.

Definition loud : SimilarityMatcher.CatalogEntry :=
  SimilarityMatcher.mkEntry (Some "Neon Parka") None None None
    "http://example.com/parka.jpg" [0x1p600; 0]%float.

End demo.

(** ** test_ollama.py and setup_ollama.py

    The two scripts print, send HTTP requests, start commands and sleep.
    They run in a state-and-exception monad over the list of the actions
    taken so far; the answer to a request or a command is a function of
    the number of requests or commands before it. Text printed with
    characters beyond Latin-1 keeps the bytes it has in the source
    files. *)

Module scripts.
Import llm_service.

(** The classes of exceptions the handlers tell apart. *)
Inductive exn_class : Type :=
  | ConnectionError
  | FileNotFoundError
  | OtherError.

#[global] Instance exn_class_eq_dec : EqDecision exn_class.
Proof. solve_decision. Defined.

(** An exception: its class and [str(e)]. *)
Record exn : Type := mkExn {
  exn_kind : exn_class;
  exn_text : string
}.

Inductive outcome (A : Type) : Type :=
  | Returns (a : A)
  | Raises (e : exn).
Arguments Returns {A} a.
Arguments Raises {A} e.

(** A [subprocess.CompletedProcess]. *)
Record completed : Type := mkCompleted {
  returncode : Z;
  stderr : string
}.

Inductive action : Type :=
  | Print (line : string)
  | Get (url : string) (timeout : Z)
  | Post (url : string) (body : payload) (timeout : Z)
  | Run (command : list string) (shell : bool)
  | Popen (command : list string)
  | Sleep (seconds : Z).

Definition is_request (a : action) : bool :=
  match a with Get _ _ | Post _ _ _ => true | _ => false end.

Definition is_command (a : action) : bool :=
  match a with Run _ _ | Popen _ => true | _ => false end.

Definition is_sleep (a : action) : bool :=
  match a with Sleep _ => true | _ => false end.

(** The requests sent, the commands started and the sleeps among the
    actions, and the number of the first two. *)
Definition requests_of (h : list action) : list action :=
  List.filter is_request h.
Definition commands_of (h : list action) : list action :=
  List.filter is_command h.
Definition sleeps_of (h : list action) : list action :=
  List.filter is_sleep h.

Definition requests_in (h : list action) : nat := length (requests_of h).
Definition commands_in (h : list action) : nat := length (commands_of h).

Definition S (A : Type) : Type := list action → outcome A * list action.

#[global] Instance S_ret : MRet S := λ A a h, (Returns a, h).

#[global] Instance S_bind : MBind S := λ A B k m h,
  match m h with
  | (Returns a, h') => k a h'
  | (Raises e, h') => (Raises e, h')
  end.

(** [try: body except: handler] and [except Exception as e]. *)
Definition try_catch {A} (body : S A) (handler : exn → S A) : S A :=
  λ h, match body h with
       | (Returns a, h') => (Returns a, h')
       | (Raises e, h') => handler e h'
       end.

(** [try: body except cls: handler]: other classes pass through. *)
Definition try_catch_class {A} (cls : exn_class) (body : S A)
    (handler : S A) : S A :=
  λ h, match body h with
       | (Returns a, h') => (Returns a, h')
       | (Raises e, h') =>
           if decide (exn_kind e = cls) then handler h' else (Raises e, h')
       end.

Definition act (a : action) : S unit := λ h, (Returns tt, h ++ [a]).

Definition print (line : string) : S unit := act (Print line).

(** [time.sleep(seconds)]. *)
Definition sleep (seconds : Z) : S unit := act (Sleep seconds).

(** [s * n]. *)
Fixpoint repeat_str (s : string) (n : nat) : string :=
  match n with
  | O => ""
  | Datatypes.S n' => s +:+ repeat_str s n'
  end.

(** [content[:n]]. *)
Definition take (n : nat) (s : string) : string :=
  Stdlib.Strings.String.substring 0 n s.

Definition tags_url : string := "http://localhost:11434/api/tags".
Definition generate_url : string := "http://localhost:11434/api/generate".
Definition required_model : string := "llama3.2:3b".

(** The names of the models of a decoded reply of [/api/tags]. *)
Definition model_names_of (body : tags_body) : list string :=
  map (default "") (default [] body).

Section Scripts.

(** What the host answers: to the [n]-th request, to the [n]-th command;
    Python's [repr] of a list of [str]; and the value of
    [platform.system().lower()]. *)
Variable http_get : nat → string → outcome (response tags_body).
Variable http_post : nat → string → payload → outcome (response generate_body).
Variable subprocess_run : nat → list string → bool → outcome completed.
Variable subprocess_popen : nat → list string → outcome unit.
Variable repr_names : list string → string.
Variable system : string.

Definition requests_get (url : string) (timeout : Z) : S (response tags_body) :=
  λ h, (http_get (requests_in h) url, h ++ [Get url timeout]).

Definition requests_post (url : string) (body : payload) (timeout : Z)
    : S (response generate_body) :=
  λ h, (http_post (requests_in h) url body, h ++ [Post url body timeout]).

Definition run (command : list string) (shell : bool) : S completed :=
  λ h, (subprocess_run (commands_in h) command shell, h ++ [Run command shell]).

Definition popen (command : list string) : S unit :=
  λ h, (subprocess_popen (commands_in h) command, h ++ [Popen command]).

(** [response.json()]: the decoded reply, or [JSONDecodeError]. *)
Definition decoded {B} (resp : response B) : S B :=
  λ h, (match json resp with
        | Ok body => Returns body
        | Raise e => Raises (mkExn OtherError e)
        end, h).

(** *** test_ollama.py *)

(** Lines 10-28. *)
Definition test_ollama_connection : S bool :=
  print "🔍 Testing Ollama connection...";;
  try_catch
    (resp ← requests_get tags_url 10;
     if status_code resp =? 200 then
       print "✅ Successfully connected to Ollama!";;
       mret true
     else
       print ("❌ Failed to connect: HTTP " +:+ PyStr.of_int (status_code resp));;
       mret false)
    (λ e,
       if decide (exn_kind e = ConnectionError) then
         print "❌ Cannot connect to Ollama. Is the service running?";;
         print "   Start Ollama with: ollama serve";;
         mret false
       else
         print ("❌ Connection error: " +:+ exn_text e);;
         mret false).

(** Lines 30-54. *)
Definition test_model_availability : S bool :=
  print "🔍 Checking model availability...";;
  try_catch
    (resp ← requests_get tags_url 10;
     if status_code resp =? 200 then
       body ← decoded resp;
       let model_names := model_names_of body in
       print ("📋 Available models: " +:+ repr_names model_names);;
       if bool_decide (required_model ∈ model_names) then
         print "✅ Required model 'llama3.2:3b' is available!";;
         mret true
       else
         print "❌ Required model 'llama3.2:3b' not found!";;
         print "   Pull the model with: ollama pull llama3.2:3b";;
         mret false
     else
       print ("❌ Failed to get model list: HTTP " +:+
              PyStr.of_int (status_code resp));;
       mret false)
    (λ e,
       print ("❌ Error checking models: " +:+ exn_text e);;
       mret false).

(** The request bodies of lines 61-70 and 105-114: temperature 0.2 and
    top_p 0.6. *)
Definition test_payload (prompt : string) (num_predict : Z) : payload :=
  {| model := required_model;
     prompt := prompt;
     stream := false;
     temperature_opt := 0x1.999999999999ap-3;
     top_p_opt := 0x1.3333333333333p-1;
     num_predict := num_predict;
     images := None |}.

(** Line 82 and line 126: [content and len(content.strip()) > 0]. *)
Definition has_content (content : string) : bool :=
  PyStr.truthy content && (0 <? PyStr.len (PyStr.strip content))%nat.

(** Lines 56-96. *)
Definition test_model_generation : S bool :=
  print "🔍 Testing model generation...";;
  try_catch
    (let payload :=
       test_payload "Hello! Please respond with a short greeting." 100 in
     resp ← requests_post generate_url payload 60;
     if status_code resp =? 200 then
       result ← decoded resp;
       let content := default "" (body_response result) in
       if has_content content then
         print "✅ Model generation successful!";;
         print ("📝 Response: " +:+ take 100 content +:+ "...");;
         mret true
       else
         print "❌ Model generated empty response";;
         mret false
     else
       print ("❌ Generation failed: HTTP " +:+ PyStr.of_int (status_code resp));;
       print ("   Error: " +:+ text resp);;
       mret false)
    (λ e,
       print ("❌ Error testing generation: " +:+ exn_text e);;
       mret false).

(** Lines 98-139. *)
Definition test_fashion_prompt : S bool :=
  print "🔍 Testing fashion analysis prompt...";;
  try_catch
    (let fashion_prompt :=
       "You are a fashion expert. Please provide a brief analysis of what makes a good fashion sense. Keep it under 100 words." in
     let payload := test_payload fashion_prompt 200 in
     resp ← requests_post generate_url payload 60;
     if status_code resp =? 200 then
       result ← decoded resp;
       let content := default "" (body_response result) in
       if has_content content then
         print "✅ Fashion prompt successful!";;
         print ("📝 Response: " +:+ take 150 content +:+ "...");;
         mret true
       else
         print "❌ Fashion prompt generated empty response";;
         mret false
     else
       print ("❌ Fashion prompt failed: HTTP " +:+
              PyStr.of_int (status_code resp));;
       mret false)
    (λ e,
       print ("❌ Error testing fashion prompt: " +:+ exn_text e);;
       mret false).

(** Lines 156-164: the loop over the tests, with the count of the tests
    passed so far. *)
Fixpoint run_tests (tests : list (string * S bool)) (passed : nat) : S nat :=
  match tests with
  | [] => mret passed
  | (test_name, test_func) :: rest =>
      print (PyStr.nl +:+ "🧪 Running: " +:+ test_name);;
      print (repeat_str "-" 30);;
      ok ← test_func;
      if ok : bool then
        print ("✅ " +:+ test_name +:+ " PASSED");;
        run_tests rest (Datatypes.S passed)
      else
        print ("❌ " +:+ test_name +:+ " FAILED");;
        run_tests rest passed
  end.

(** Lines 146-151. *)
Definition tests : list (string * S bool) :=
  [("Connection Test", test_ollama_connection);
   ("Model Availability", test_model_availability);
   ("Basic Generation", test_model_generation);
   ("Fashion Prompt", test_fashion_prompt)].

(** Lines 141-175 of test_ollama.py. *)
Definition test_main : S bool :=
  print "🚀 Ollama Integration Test Suite";;
  print (repeat_str "=" 40);;
  let total := length tests in
  passed ← run_tests tests 0;
  print (PyStr.nl +:+ "📊 Test Results: " +:+ PyStr.of_nat passed +:+ "/" +:+
         PyStr.of_nat total +:+ " tests passed");;
  (if (passed =? total)%nat then
     print "🎉 All tests passed! Ollama integration is working correctly.";;
     print "   You can now run the Style Finder application."
   else
     print "⚠️  Some tests failed. Please check the error messages above.";;
     print "   Make sure Ollama is running and the model is available.");;
  mret (passed =? total)%nat.

(** *** setup_ollama.py *)

(** A function body that either has returned a value or goes on to the
    statements after the block. *)
Definition returned {A} (a : A) : S (option A) := mret (Some a).
Definition falls_through {A} : S (option A) := mret None.

(** Lines 14-34. *)
Definition check_ollama_installed : S bool :=
  r ← try_catch
        (resp ← requests_get tags_url 5;
         if status_code resp =? 200 then
           print "✅ Ollama is already running!";;
           returned true
         else falls_through)
        (λ _, falls_through);
  match r with
  | Some b => mret b
  | None =>
      r ← try_catch_class FileNotFoundError
            (result ← run ["ollama"; "--version"] false;
             if returncode result =? 0 then
               print "✅ Ollama is installed but not running.";;
               print "   Please start Ollama with: ollama serve";;
               returned false
             else falls_through)
            falls_through;
      match r with
      | Some b => mret b
      | None => mret false
      end
  end.

(** Lines 44-46 and 50-52: the command of the installer. *)
Definition install_command : list string :=
  ["curl"; "-fsSL"; "https://ollama.ai/install.sh"; "|"; "sh"].

(** Lines 36-64. *)
Definition install_ollama : S bool :=
  print ("🔧 Installing Ollama for " +:+ system +:+ "...");;
  r ← (if Stdlib.Strings.String.eqb system "darwin" then
         print "📥 Downloading Ollama for macOS...";;
         run install_command true;;
         falls_through
       else if Stdlib.Strings.String.eqb system "linux" then
         print "📥 Downloading Ollama for Linux...";;
         run install_command true;;
         falls_through
       else if Stdlib.Strings.String.eqb system "windows" then
         print "📥 Please download Ollama for Windows from: https://ollama.ai/download";;
         print "   After installation, restart your terminal and run this script again.";;
         returned false
       else
         print ("❌ Unsupported operating system: " +:+ system);;
         returned false);
  match r with
  | Some b => mret b
  | None =>
      print "✅ Ollama installation completed!";;
      mret true
  end.

(** Lines 78-88: the iterations [i], [i+1], ... of the loop, [n] of them;
    [Some true] when the body has returned. *)
Fixpoint wait_for_service (i n : nat) : S (option bool) :=
  match n with
  | O => falls_through
  | Datatypes.S n' =>
      r ← try_catch
            (resp ← requests_get tags_url 2;
             if status_code resp =? 200 then
               print "✅ Ollama service is now running!";;
               returned true
             else falls_through)
            (λ _, falls_through);
      match r with
      | Some b => returned b
      | None =>
          sleep 1;;
          (if (i mod 5 =? 0)%nat then
             print ("   Still waiting... (" +:+ PyStr.of_nat (i + 1) +:+
                    "/30 seconds)")
           else mret tt);;
          wait_for_service (Datatypes.S i) n'
      end
  end.

(** Lines 66-95. *)
Definition start_ollama : S bool :=
  print "🚀 Starting Ollama service...";;
  try_catch
    (popen ["ollama"; "serve"];;
     print "⏳ Waiting for Ollama service to start...";;
     r ← wait_for_service 0 30;
     match r with
     | Some b => mret b
     | None =>
         print "❌ Ollama service failed to start within 30 seconds.";;
         mret false
     end)
    (λ e,
       print ("❌ Failed to start Ollama: " +:+ exn_text e);;
       mret false).

(** Lines 97-118. *)
Definition pull_model : S bool :=
  print "📥 Pulling llama3.2:3b model...";;
  print "   This may take several minutes depending on your internet connection...";;
  try_catch
    (result ← run ["ollama"; "pull"; "llama3.2:3b"] false;
     if returncode result =? 0 then
       print "✅ Model pulled successfully!";;
       mret true
     else
       print ("❌ Failed to pull model: " +:+ stderr result);;
       mret false)
    (λ e,
       print ("❌ Error pulling model: " +:+ exn_text e);;
       mret false).

(** Lines 120-143. *)
Definition verify_setup : S bool :=
  print "🔍 Verifying setup...";;
  try_catch
    (resp ← requests_get tags_url 5;
     if status_code resp =? 200 then
       body ← decoded resp;
       let model_names := model_names_of body in
       if bool_decide (required_model ∈ model_names) then
         print "✅ Setup verification successful!";;
         print "🎉 You're ready to run the Style Finder application!";;
         mret true
       else
         print "❌ Model not found. Please run the setup again.";;
         mret false
     else
       print "❌ Cannot connect to Ollama service.";;
       mret false)
    (λ e,
       print ("❌ Verification failed: " +:+ exn_text e);;
       mret false).

(** Lines 150-172: the branch taken when the service is running;
    [Some tt] when [main] has returned. *)
Definition setup_when_running : S (option unit) :=
  try_catch
    (resp ← requests_get tags_url 5;
     if status_code resp =? 200 then
       body ← decoded resp;
       let model_names := model_names_of body in
       if bool_decide (required_model ∈ model_names) then
         print "✅ Model llama3.2:3b is already available!";;
         print "🎉 Setup is complete!";;
         returned tt
       else
         print "📥 Model not found, pulling now...";;
         pulled ← pull_model;
         if pulled : bool then
           print "🎉 Setup is complete!";;
           returned tt
         else
           print "❌ Failed to pull model.";;
           returned tt
     else falls_through)
    (λ _, falls_through).

(** Lines 174-198: installation, start, pull and verification. *)
Definition setup_from_scratch : S unit :=
  installed ← check_ollama_installed;
  r ← (if negb installed then
         ok ← install_ollama;
         if negb ok then
           print "❌ Installation failed. Please try again.";;
           returned tt
         else falls_through
       else falls_through);
  match r with
  | Some _ => mret tt
  | None =>
      started ← start_ollama;
      if negb started then
        print "❌ Failed to start Ollama service.";;
        mret tt
      else
        pulled ← pull_model;
        if negb pulled then
          print "❌ Failed to pull model.";;
          mret tt
        else
          verified ← verify_setup;
          if verified : bool then
            print (PyStr.nl +:+ "🎉 Setup completed successfully!");;
            print (PyStr.nl +:+ "Next steps:");;
            print "1. Make sure Ollama is running: ollama serve";;
            print "2. Run the Style Finder app: python app.py"
          else
            print (PyStr.nl +:+ "❌ Setup verification failed.");;
            print "Please check the error messages above and try again."
  end.

(** Lines 145-198 of setup_ollama.py. *)
Definition setup_main : S unit :=
  print "🚀 Style Finder - Ollama Setup";;
  print (repeat_str "=" 40);;
  running ← check_ollama_installed;
  r ← (if running : bool then setup_when_running else falls_through);
  match r with
  | Some _ => mret tt
  | None => setup_from_scratch
  end.

End Scripts.

(** *** Views of the answers of the host *)

(** The answer to a request is a response of status 200. *)
Definition is_up {B} (out : outcome (response B)) : bool :=
  match out with
  | Returns resp => status_code resp =? 200
  | Raises _ => false
  end.

(** The answer to [GET /api/tags] has status 200, decodes, and lists
    [llama3.2:3b]. *)
Definition lists_model (out : outcome (response tags_body)) : bool :=
  match out with
  | Returns resp =>
      (status_code resp =? 200) &&
      match json resp with
      | Ok body => bool_decide (required_model ∈ model_names_of body)
      | Raise _ => false
      end
  | Raises _ => false
  end.

(** The answer to [POST /api/generate] has status 200, decodes, and its
    "response" has a character that is not white space. *)
Definition generates_text (out : outcome (response generate_body)) : Prop :=
  ∃ resp body a c b,
    out = Returns resp ∧ status_code resp = 200 ∧ json resp = Ok body ∧
    body_response body = Some (a +:+ String c b) ∧ PyStr.isspace c = false.

(** The same, as the test of lines 78-82 decides it. *)
Definition generates (out : outcome (response generate_body)) : bool :=
  match out with
  | Returns resp =>
      (status_code resp =? 200) &&
      match json resp with
      | Ok body => has_content (default "" (body_response body))
      | Raise _ => false
      end
  | Raises _ => false
  end.

(** The command exits with status 0. *)
Definition exits_zero (out : outcome completed) : bool :=
  match out with
  | Returns result => returncode result =? 0
  | Raises _ => false
  end.

(** Run from [h], [m] returns [a]; what it adds to the actions are the
    requests [rs] and the commands [cs], in that order, among prints and
    sleeps. *)
Definition runs {A} (m : S A) (h : list action) (a : A)
    (rs cs : list action) : Prop :=
  ∃ t, m h = (Returns a, h ++ t) ∧ requests_of t = rs ∧ commands_of t = cs.

(** Run from [h], [m] raises [e], after the requests [rs] and the
    commands [cs]. *)
Definition raises {A} (m : S A) (h : list action) (e : exn)
    (rs cs : list action) : Prop :=
  ∃ t, m h = (Raises e, h ++ t) ∧ requests_of t = rs ∧ commands_of t = cs.

End scripts.

(** ** Sample hosts for the scripts *)

Module hosts.
Import llm_service scripts.

(** The answers of [/api/tags]: a list with the model, and one without. *)
Definition listed : response tags_body :=
  {| status_code := 200; text := "";
     json := Ok (Some [Some "llama3.2:3b"]) |}.


Definition connection_refused : exn :=
  mkExn ConnectionError "Connection refused".



Definition get_down (_ : nat) (_ : string) : outcome (response tags_body) :=
  Raises connection_refused.

(** A service that misses the second request. *)
Definition get_flaky (n : nat) (_ : string) : outcome (response tags_body) :=
  if (n =? 1)%nat then Raises connection_refused else Returns listed.

(** A service that answers from the fourth request on. *)
Definition get_after_start (n : nat) (_ : string)
    : outcome (response tags_body) :=
  if (n <? 3)%nat then Raises connection_refused else Returns listed.

(** Commands that exit with status 0, and a system without [ollama]. *)
Definition succeeded : completed := {| returncode := 0; stderr := "" |}.

Definition run_ok (_ : nat) (_ : list string) (_ : bool) : outcome completed :=
  Returns succeeded.

Definition run_missing (_ : nat) (_ : list string) (_ : bool)
    : outcome completed :=
  Raises (mkExn FileNotFoundError
            "[Errno 2] No such file or directory: 'ollama'").

Definition popen_ok (_ : nat) (_ : list string) : outcome unit := Returns tt.

End hosts.

(** * Properties *)

(** ** Strings *)

Module PyStrFacts.
Import PyStr.

Lemma sapp_cons c s t : String c s +:+ t = String c (s +:+ t).
Proof. reflexivity. Qed.

Lemma sapp_nil_l s : "" +:+ s = s.
Proof. reflexivity. Qed.

Lemma sapp_nil_r s : s +:+ "" = s.
Proof. induction s as [|c s IH]; [done|]. by rewrite sapp_cons, IH. Qed.

Lemma sapp_assoc s t u : (s +:+ t) +:+ u = s +:+ (t +:+ u).
Proof. induction s as [|c s IH]; [done|]. by rewrite !sapp_cons, IH. Qed.

Lemma len_app s t : len (s +:+ t) = (len s + len t)%nat.
Proof.
  induction s as [|c s IH]; [done|].
  rewrite sapp_cons. unfold len in *. simpl. by rewrite IH.
Qed.

Lemma startswith_nil s : startswith "" s = true.
Proof. by destruct s. Qed.

Lemma startswith_iff p s : startswith p s = true ↔ ∃ b, s = p +:+ b.
Proof.
  unfold startswith. revert s.
  induction p as [|c p IH]; intros s.
  - split; [intros _; by exists s | intros _; by destruct s].
  - destruct s as [|d s]; simpl.
    + split; [done | intros [b Hb]; by rewrite sapp_cons in Hb].
    + destruct (Ascii.ascii_dec c d) as [->|Hne].
      * rewrite IH. split; intros [b Hb]; exists b.
        -- by rewrite sapp_cons, <- Hb.
        -- rewrite sapp_cons in Hb. by injection Hb.
      * split; [done | intros [b Hb]].
        rewrite sapp_cons in Hb. injection Hb as Hd _. by destruct Hne.
Qed.

Lemma Occurs_refl t : Occurs t t.
Proof. exists "", "". by rewrite sapp_nil_r. Qed.

Lemma Occurs_app_l t s b : Occurs t s → Occurs t (s +:+ b).
Proof.
  intros (x & y & ->). exists x, (y +:+ b). by rewrite !sapp_assoc.
Qed.

Lemma Occurs_app_r t s a : Occurs t s → Occurs t (a +:+ s).
Proof.
  intros (x & y & ->). exists (a +:+ x), y. by rewrite !sapp_assoc.
Qed.

Lemma Occurs_trans t s u : Occurs t s → Occurs s u → Occurs t u.
Proof.
  intros Hts (x & y & ->). by apply Occurs_app_r, Occurs_app_l.
Qed.

(** [needle in hay] decides [Occurs]. *)
Lemma contains_iff needle hay :
  contains needle hay = true ↔ Occurs needle hay.
Proof.
  induction hay as [|c hay IH]; cbn [contains].
  - rewrite orb_false_r, startswith_iff. split.
    + intros [b ->]. apply Occurs_app_l, Occurs_refl.
    + intros ([|d x] & y & Hx); [by exists y | by rewrite sapp_cons in Hx].
  - rewrite orb_true_iff, IH, startswith_iff. split.
    + intros [[b ->] | Hin].
      * apply Occurs_app_l, Occurs_refl.
      * by apply (Occurs_app_r _ _ (String c "")).
    + intros ([|d x] & y & Hx).
      * left. by exists y.
      * right. rewrite sapp_cons in Hx. injection Hx as _ ->. by exists x, y.
Qed.

Lemma contains_false_iff needle hay :
  contains needle hay = false ↔ ¬ Occurs needle hay.
Proof. rewrite <- contains_iff. by destruct (contains needle hay). Qed.

(** Every element of a joined list occurs in the result. *)
Lemma Occurs_join sep items t : t ∈ items → Occurs t (join sep items).
Proof.
  unfold join.
  induction items as [|x [|y items] IH]; intros Hin.
  - by apply elem_of_nil in Hin.
  - apply list_elem_of_singleton in Hin as ->. apply Occurs_refl.
  - apply elem_of_cons in Hin as [->|Hin].
    + apply Occurs_app_l, Occurs_refl.
    + change (Occurs t (x +:+ sep +:+ Stdlib.Strings.String.concat sep (y :: items))).
      by apply Occurs_app_r, Occurs_app_r, IH.
Qed.

(** The search used below: descend into either side of an append. *)
Ltac occurs :=
  solve [ apply Occurs_refl
        | apply Occurs_app_l; occurs
        | apply Occurs_app_r; occurs ].

Example strip_both_ends : strip (" " +:+ nl +:+ "a b" +:+ nl +:+ " ") = "a b".
Proof. reflexivity. Qed.

Example strip_blank : strip ("  " +:+ nl) = "".
Proof. reflexivity. Qed.

Example contains_header : contains "Related Items" "## Related Items Found" = true.
Proof. reflexivity. Qed.

Example contains_is_case_sensitive : contains "Related Items" "related items" = false.
Proof. reflexivity. Qed.

Example join_lines : join nl ["a"; "b"] = "a" +:+ nl +:+ "b".
Proof. reflexivity. Qed.

Example of_int_negative : of_int (-15) = "-15".
Proof. reflexivity. Qed.

End PyStrFacts.

(** ** Floats *)

Module PyFloatFacts.
Import PyFloat.

Example format_threshold : format_2f config.SIMILARITY_THRESHOLD = "0.80".
Proof. reflexivity. Qed.

(** 0.125 and 0.375 are exact in binary: the tie goes to the even digit. *)
Example format_tie_down : format_2f 0.125 = "0.12".
Proof. reflexivity. Qed.

Example format_tie_up : format_2f 0.375 = "0.38".
Proof. reflexivity. Qed.

Example format_negative_zero : format_2f (-0.001953125) = "-0.00".
Proof. reflexivity. Qed.

Example format_nan : format_2f nan = "nan".
Proof. reflexivity. Qed.

Example format_large : format_2f 1234.5 = "1234.50".
Proof. reflexivity. Qed.

(** [nan >= x] is false, so a score that is not a number is framed as a
    similar item. *)
Example nan_is_below_threshold : ge nan config.SIMILARITY_THRESHOLD = false.
Proof. reflexivity. Qed.

Example threshold_meets_itself :
  ge config.SIMILARITY_THRESHOLD config.SIMILARITY_THRESHOLD = true.
Proof. reflexivity. Qed.

End PyFloatFacts.

(** ** The synthesizer: [OllamaService.generate_fashion_response] *)

Module llm_service_facts.
Import PyStr PyStrFacts llm_service.

Lemma calls_of_app t1 t2 : calls_of (t1 ++ t2) = calls_of t1 ++ calls_of t2.
Proof. apply omap_app. Qed.

(** *** Rows of a frame *)

(** Under a label that is not a column, a row has no cell. *)
Lemma cells_at_absent cols r label :
  label ∉ cols → cells_at (zip cols r) label = [].
Proof.
  revert r. induction cols as [|c cols IH]; intros r Hnot; [done|].
  destruct r as [|x r]; [done|].
  apply not_elem_of_cons in Hnot as [Hc Hcols].
  unfold cells_at. cbn [zip zip_with]. rewrite filter_cons_False by (cbn; congruence).
  by apply IH.
Qed.

(** In a frame whose column labels are distinct a row has at most one
    cell under a label: the cell of the row in the column of that
    label. *)
Lemma cells_at_unique cols r label :
  NoDup cols →
  ∃ field,
    under cols r label field ∧
    cells_at (zip cols r) label = option_list field.
Proof.
  revert r. induction cols as [|c cols IH]; intros r Hnodup.
  - exists None. split; [by intros i|done].
  - apply NoDup_cons in Hnodup as [Hc Hnodup].
    destruct r as [|x r].
    + exists None. split; [by intros i|done].
    + unfold cells_at. cbn [zip zip_with].
      destruct (decide (c = label)) as [->|Hne].
      * exists (Some x). split; [by exists 0%nat|].
        rewrite filter_cons_True by done.
        change (x :: cells_at (zip cols r) label = [x]).
        f_equal. by apply cells_at_absent.
      * rewrite filter_cons_False by (cbn; congruence).
        destruct (IH r Hnodup) as (field & Hunder & Hcells).
        exists field. split; [|done].
        destruct field as [v|]; cbn [under] in *.
        -- destruct Hunder as (i & Hi & Hv). by exists (S i).
        -- intros [|i]; cbn; [congruence | apply Hunder].
Qed.

Lemma entry_at_unique cols r label :
  NoDup cols →
  ∃ field,
    under cols r label field ∧ entry_at (zip cols r) label = One <$> field.
Proof.
  intros Hnodup. destruct (cells_at_unique cols r label Hnodup)
    as (field & Hunder & Hcells).
  exists field. split; [done|]. unfold entry_at. rewrite Hcells.
  by destruct field.
Qed.

(** The row [k] of a frame, as [iterrows] yields it. *)
Lemma iterrows_lookup df k r :
  rows df !! k = Some r → iterrows df !! k = Some (k, zip (columns df) r).
Proof. intros Hr. unfold iterrows. by rewrite list_lookup_imap, Hr. Qed.

Lemma iterrows_length df : length (iterrows df) = length (rows df).
Proof. unfold iterrows. apply length_imap. Qed.

(** *** The related-items listing *)

Section Listing.

Variable series_str : nat → string → list cell → string.

(** The loop of lines 133-142: it returns the bullets of the rows when
    every row gives one, and raises what the first failing row raises. *)
Lemma items_loop_returns (l : list (nat * Row)) (acc bullets : list string) :
  Forall2 (λ row b, item_info series_str row.1 row.2 = Ok b) l bullets →
  fold_left
    (λ acc row,
       items_list ← acc;
       info ← item_info series_str row.1 row.2;
       Ok (items_list ++ [info])) l (Ok acc) = Ok (acc ++ bullets).
Proof.
  intros Hall. revert acc.
  induction Hall as [|row b l bullets Hrow _ IH]; intros acc.
  - by rewrite app_nil_r.
  - cbn [fold_left mbind result_bind]. rewrite Hrow. cbn [mbind result_bind].
    rewrite IH. by rewrite <- app_assoc.
Qed.


Lemma items_list_returns df bullets :
  Forall2 (λ row b, item_info series_str row.1 row.2 = Ok b)
    (iterrows df) bullets →
  items_list series_str df = Ok bullets.
Proof.
  intros Hall. unfold items_list.
  by rewrite (items_loop_returns _ [] bullets Hall).
Qed.

(** A frame that repeats the 'Price' label makes the loop raise at its
    first row. *)
Lemma item_info_ambiguous_price k item vs :
  entry_at item "Price" = Some (Many vs) →
  item_info series_str k item = Raise ambiguous_truth.
Proof. intros Hprice. unfold item_info. by rewrite Hprice. Qed.

(** With distinct column labels, the bullet of a row is made of the
    cells the row has under the four labels. *)
Lemma item_info_unique k cols r :
  NoDup cols →
  ∃ name price brand link : option cell,
    under cols r "Item Name" name ∧ under cols r "Price" price ∧
    under cols r "Brand" brand ∧ under cols r "Image URL" link ∧
    item_info series_str k (zip cols r) = Ok (bullet name price brand link).
Proof.
  intros Hnodup.
  destruct (entry_at_unique cols r "Item Name" Hnodup) as (name & Hn & En).
  destruct (entry_at_unique cols r "Price" Hnodup) as (price & Hp & Ep).
  destruct (entry_at_unique cols r "Brand" Hnodup) as (brand & Hb & Eb).
  destruct (entry_at_unique cols r "Image URL" Hnodup) as (link & Hl & El).
  exists name, price, brand, link. split_and!; [done..|].
  unfold item_info, bullet, optional_part. rewrite En, Ep, Eb, El.
  destruct name as [n|], price as [[p| |]|], brand as [[b| |]|],
    link as [[u| |]|];
    cbn [fmap option_fmap option_map notna py_str mbind result_bind default];
    rewrite ?sapp_assoc, ?sapp_nil_r; reflexivity.
Qed.

Lemma rows_give_bullets cols (rs : list (list cell)) (n : nat) :
  NoDup cols →
  ∃ bullets,
    Forall2 (λ row b, item_info series_str row.1 row.2 = Ok b)
      (imap (λ k r, ((n + k)%nat, zip cols r)) rs) bullets.
Proof.
  intros Hnodup. revert n. induction rs as [|r rs IH]; intros n.
  - exists []. constructor.
  - destruct (item_info_unique (n + 0) cols r Hnodup)
      as (? & ? & ? & ? & _ & _ & _ & _ & Hinfo).
    destruct (IH (S n)) as [bs Hbs].
    eexists (_ :: bs). cbn [imap]. constructor; [exact Hinfo|].
    rewrite (imap_ext _ (λ k r, ((S n + k)%nat, zip cols r))); [done|].
    intros i y _. cbn. f_equal. lia.
Qed.

(** C7. For a group whose frame has distinct column labels the loop
    returns one bullet per entry, in the order of the group. The bullet
    of a row starts with the name the row has in the 'Item Name' column
    ("Unknown Item" without one), and carries the price, the brand and
    the link to the image exactly for the cells of the row in those
    columns that are not null: a field that is absent or null
    contributes the empty string. *)
Theorem related_items_listing (all_items : DataFrame cell) :
  NoDup (columns all_items) →
  ∃ bullets : list string,
    items_list series_str all_items = Ok bullets ∧
    length bullets = length (rows all_items) ∧
    (∀ (k : nat) (r : list cell),
       rows all_items !! k = Some r →
       ∃ name price brand link : option cell,
         under (columns all_items) r "Item Name" name ∧
         under (columns all_items) r "Price" price ∧
         under (columns all_items) r "Brand" brand ∧
         under (columns all_items) r "Image URL" link ∧
         bullets !! k =
           Some ("* " +:+ py_str (default (Text "Unknown Item") name) +:+
                 optional_part " - Price: " "" price +:+
                 optional_part " - Brand: " "" brand +:+
                 optional_part " - [View Image](" ")" link)) ∧
    (∀ pre post : string,
       optional_part pre post None = "" ∧
       optional_part pre post (Some Nan) = "" ∧
       optional_part pre post (Some PyNone) = "" ∧
       ∀ s, optional_part pre post (Some (Text s)) = pre +:+ s +:+ post).
Proof.
  intros Hnodup.
  destruct (rows_give_bullets (columns all_items) (rows all_items) 0 Hnodup)
    as [bullets Hall].
  change (Forall2 (λ row b, item_info series_str row.1 row.2 = Ok b)
            (iterrows all_items) bullets) in Hall.
  exists bullets. split_and!.
  - by apply items_list_returns.
  - by rewrite <- (Forall2_length _ _ _ Hall), iterrows_length.
  - intros k r Hr.
    destruct (item_info_unique k (columns all_items) r Hnodup)
      as (name & price & brand & link & Hn & Hp & Hb & Hl & Hinfo).
    exists name, price, brand, link. split_and!; [done..|].
    apply iterrows_lookup in Hr.
    destruct (Forall2_lookup_l _ _ _ _ _ Hall Hr) as (b & Hb' & Hrow).
    cbn [fst snd] in Hrow. rewrite Hinfo in Hrow. injection Hrow as <-.
    exact Hb'.
  - intros pre post. by split_and!.
Qed.

End Listing.

(** *** Texts of the generation layer *)

Lemma response_text_error out detail :
  generation_error out = Some detail →
  response_text out = "Error generating response: " +:+ detail.
Proof.
  unfold generation_error, response_text.
  destruct out as [resp|e]; [|by intros [= ->]].
  destruct (status_code resp =? 200); [|by intros [= <-]].
  destruct (json resp); [done | by intros [= ->]].
Qed.

Lemma too_short_iff r :
  too_short r = true ↔ r = "" ∨ (len (strip r) < 100)%nat.
Proof.
  unfold too_short. rewrite orb_true_iff, Nat.ltb_lt.
  destruct r; cbn [truthy negb]; split; intros [?|?]; auto; done.
Qed.

Lemma fallback_has_header mq score row items :
  lacks_related_items (fallback_response mq score row items) = false.
Proof.
  unfold lacks_related_items. apply andb_false_iff. right.
  apply negb_false_iff, contains_iff.
  apply Occurs_trans with related_header; [by apply contains_iff|].
  apply Occurs_join, list_elem_of_In. do 9 right. left. reflexivity.
Qed.

Lemma finish_too_short r score thr row listing :
  too_short r = true →
  finish r score thr row listing =
  fallback_response (match_quality score thr) score row listing.
Proof.
  intros Hshort. unfold finish. rewrite Hshort.
  by rewrite fallback_has_header.
Qed.

(** The text of a status that is not 200 is always too short to be
    kept (three digits are checked one by one). *)
Lemma http_error_too_short (code : Z) :
  0 ≤ code < 1000 →
  too_short ("Error generating response: HTTP " +:+ of_int code) = true.
Proof.
  intros Hcode.
  assert (forallb
            (λ n, too_short ("Error generating response: HTTP " +:+ of_nat n))
            (seq 0 1000) = true) as Hall by (vm_compute; reflexivity).
  rewrite forallb_forall in Hall.
  specialize (Hall (Z.to_nat code)). unfold of_nat in Hall.
  rewrite Z2Nat.id in Hall by lia.
  apply Hall, in_seq. lia.
Qed.

(** *** Running the generation call *)

Section Generation.

Variable requests_post : string → payload → result (response generate_body).
Variable series_str : nat → string → list cell → string.

(** [generate_response] never raises: it returns [response_text] of
    what the request gave. *)
Lemma generate_response_returns self prompt image_base64 w :
  fst (generate_response requests_post self prompt image_base64 w) =
  Ok (response_text
        (requests_post (base_url self +:+ "/api/generate")
           (payload_of self prompt image_base64))).
Proof.
  unfold generate_response, try_except, response_text.
  unfold mbind, M_bind, mret, M_ret, logger, invoke, emit. cbn [snd fst].
  destruct (requests_post _ _) as [resp|e]; [|reflexivity].
  destruct (status_code resp =? 200); [|reflexivity].
  destruct (json resp) as [body|e]; [|reflexivity].
  by destruct (default false (body_done body) && _).
Qed.

(** Once the listing is built, the synthesizer returns what lines
    180-202 make of the generated text. *)
Lemma generate_fashion_response_run self image matched_row all_items
    similarity_score threshold w bullets r :
  items_list series_str all_items = Ok bullets →
  fst (generate_response requests_post self
         (prompt_of similarity_score threshold matched_row (join nl bullets))
         image w) = Ok r →
  fst (generate_fashion_response requests_post series_str self image
         matched_row all_items similarity_score threshold w) =
  Ok (finish r similarity_score threshold matched_row (join nl bullets)).
Proof.
  intros Hitems.
  unfold generate_fashion_response, try_except, finish, prompt_of.
  unfold mbind at 1 2 3. unfold M_bind at 1 2 3. rewrite Hitems.
  destruct (generate_response _ _ _ _ w) as [[r'|e] w1]; cbn [fst];
    intros [= ->].
  destruct (too_short r); reflexivity.
Qed.

Lemma generate_fashion_response_returns self image matched_row all_items
    similarity_score threshold w bullets :
  items_list series_str all_items = Ok bullets →
  fst (generate_fashion_response requests_post series_str self image
         matched_row all_items similarity_score threshold w) =
  Ok (finish
        (response_text
           (requests_post (base_url self +:+ "/api/generate")
              (payload_of self
                 (prompt_of similarity_score threshold matched_row
                    (join nl bullets))
                 image)))
        similarity_score threshold matched_row (join nl bullets)).
Proof.
  intros Hitems.
  apply generate_fashion_response_run; [done | apply generate_response_returns].
Qed.

(** When the listing loop raises, the handler of lines 204-206 logs the
    error and returns its text: no request is sent. *)
Lemma generate_fashion_response_raised self image matched_row all_items
    similarity_score threshold w e :
  items_list series_str all_items = Raise e →
  generate_fashion_response requests_post series_str self image matched_row
    all_items similarity_score threshold w =
  (Ok ("Error generating fashion analysis: " +:+ e),
   snd (logger ERROR ("Error generating fashion response: " +:+ e) w)).
Proof.
  intros Hitems. unfold generate_fashion_response, try_except.
  unfold mbind at 1. unfold M_bind at 1. by rewrite Hitems.
Qed.

(** The synthesizer never raises. *)
Lemma generate_fashion_response_total self image matched_row all_items
    similarity_score threshold w :
  ∃ report,
    fst (generate_fashion_response requests_post series_str self image
           matched_row all_items similarity_score threshold w) = Ok report.
Proof.
  destruct (items_list series_str all_items) as [bullets|e] eqn:Hitems.
  - eexists. by apply generate_fashion_response_returns.
  - eexists. by rewrite (generate_fashion_response_raised _ _ _ _ _ _ _ _ Hitems).
Qed.

(** C3. When the listing is built and the generation returns the empty
    string, or a text whose stripped length is below 100, the
    synthesizer returns the fallback report, and the fallback report
    contains the name of the matched item, its price, the similarity
    score and the whole related-items listing. *)
Theorem fallback_on_short_generation (self : OllamaService)
    (image : option string) (matched_row : Series)
    (all_items : DataFrame cell) (similarity_score threshold : float)
    (w : world) (bullets : list string) (r : string) :
  items_list series_str all_items = Ok bullets →
  fst (generate_response requests_post self
         (prompt_of similarity_score threshold matched_row (join nl bullets))
         image w) = Ok r →
  r = "" ∨ (len (strip r) < 100)%nat →
  let report :=
    fallback_response (match_quality similarity_score threshold)
      similarity_score matched_row (join nl bullets) in
  fst (generate_fashion_response requests_post series_str self image
         matched_row all_items similarity_score threshold w) = Ok report ∧
  Occurs (py_str (get matched_row "Item Name" (Text "Unknown"))) report ∧
  Occurs (py_str (get matched_row "Price" (Text "Unknown"))) report ∧
  Occurs (PyFloat.format_2f similarity_score) report ∧
  Occurs (join nl bullets) report.
Proof.
  intros Hitems Hgen Hshort report. split.
  - rewrite (generate_fashion_response_run _ _ _ _ _ _ _ _ _ Hitems Hgen).
    f_equal. by apply finish_too_short, too_short_iff.
  - subst report. unfold fallback_response.
    split_and!.
    + eapply Occurs_trans; [|apply Occurs_join, list_elem_of_In; do 4 right; left; reflexivity].
      occurs.
    + eapply Occurs_trans; [|apply Occurs_join, list_elem_of_In; do 6 right; left; reflexivity].
      occurs.
    + eapply Occurs_trans; [|apply Occurs_join, list_elem_of_In; do 7 right; left; reflexivity].
      occurs.
    + apply Occurs_join, list_elem_of_In. do 11 right. left. reflexivity.
Qed.

(** C4, as the code has it. When the listing is built and the
    generation returns a text whose stripped length is at least 100:
    if neither "RELATED ITEMS" nor "Related Items" occurs anywhere in
    the text, the synthesizer returns the text followed by the section
    header and the listing; if one of them occurs anywhere, in a header
    or not, the text is returned as it is. *)
Theorem listing_appended_when_missing (self : OllamaService)
    (image : option string) (matched_row : Series)
    (all_items : DataFrame cell) (similarity_score threshold : float)
    (w : world) (bullets : list string) (r : string) :
  items_list series_str all_items = Ok bullets →
  fst (generate_response requests_post self
         (prompt_of similarity_score threshold matched_row (join nl bullets))
         image w) = Ok r →
  r ≠ "" →
  (100 ≤ len (strip r))%nat →
  let returned :=
    fst (generate_fashion_response requests_post series_str self image
           matched_row all_items similarity_score threshold w) in
  let report :=
    r +:+ nl +:+ nl +:+ "## Related Items Found" +:+ nl +:+ nl +:+
    join nl bullets in
  (¬ Occurs "RELATED ITEMS" r → ¬ Occurs "Related Items" r →
   returned = Ok report ∧ Occurs (join nl bullets) report) ∧
  (Occurs "RELATED ITEMS" r ∨ Occurs "Related Items" r → returned = Ok r).
Proof.
  intros Hitems Hgen Hne Hlen returned report. subst returned.
  rewrite (generate_fashion_response_run _ _ _ _ _ _ _ _ _ Hitems Hgen).
  unfold finish.
  assert (too_short r = false) as ->.
  { apply not_true_is_false. rewrite too_short_iff. intros [?|?]; [done|lia]. }
  split.
  - intros Hupper Hmixed. split; [|subst report; occurs].
    assert (lacks_related_items r = true) as ->; [|reflexivity].
    unfold lacks_related_items.
    apply contains_false_iff in Hupper, Hmixed. by rewrite Hupper, Hmixed.
  - intros Hmark.
    assert (lacks_related_items r = false) as ->; [|reflexivity].
    unfold lacks_related_items. apply andb_false_iff.
    rewrite !negb_false_iff, !contains_iff. done.
Qed.

(** C2, as the code has it. The synthesizer returns a text for every
    input and never raises. When the listing is built, a failure of the
    generation layer (the request raises, the status is not 200,
    decoding the reply raises) first becomes the text "Error generating
    response: " followed by its detail. When that text is too short
    (empty or fewer than 100 characters once stripped) the fallback
    report is returned; this covers every status from 0 to 999.
    Otherwise the error text itself is returned, followed by the
    related-items section unless one of its markers already occurs in
    it. When the listing loop raises, no request is sent and the text
    returned is "Error generating fashion analysis: " followed by the
    message of the exception. *)
Theorem generation_failure_recovery (self : OllamaService)
    (image : option string) (matched_row : Series)
    (all_items : DataFrame cell) (similarity_score threshold : float)
    (w : world) :
  let run :=
    generate_fashion_response requests_post series_str self image
      matched_row all_items similarity_score threshold w in
  ∃ report : string,
    fst run = Ok report ∧
    (∀ bullets : list string,
       items_list series_str all_items = Ok bullets →
       let listing := join nl bullets in
       let out :=
         requests_post (base_url self +:+ "/api/generate")
           (payload_of self
              (prompt_of similarity_score threshold matched_row listing)
              image) in
       let fallback :=
         fallback_response (match_quality similarity_score threshold)
           similarity_score matched_row listing in
       (∀ detail : string,
          generation_error out = Some detail →
          let error_text := "Error generating response: " +:+ detail in
          (too_short error_text = true → report = fallback) ∧
          (too_short error_text = false →
           report = if lacks_related_items error_text
                    then with_related_items error_text listing
                    else error_text)) ∧
       (∀ resp : response generate_body,
          out = Ok resp → status_code resp ≠ 200 →
          0 ≤ status_code resp < 1000 → report = fallback)) ∧
    (∀ e : string,
       items_list series_str all_items = Raise e →
       report = "Error generating fashion analysis: " +:+ e ∧
       calls_of (trace (snd run)) = calls_of (trace w)).
Proof.
  intros run. subst run.
  destruct (items_list series_str all_items) as [bullets|e] eqn:Hitems.
  - eexists. split; [by apply generate_fashion_response_returns|].
    split; [|by intros e [=]].
    intros ? [= <-] listing out fallback. fold listing. fold out. split.
    + intros detail Herr error_text.
      rewrite (response_text_error _ _ Herr). fold error_text. split.
      * apply finish_too_short.
      * intros Hlong. unfold finish. by rewrite Hlong.
    + intros resp Hout Hstatus Hrange. rewrite Hout. unfold response_text.
      apply Z.eqb_neq in Hstatus. rewrite Hstatus.
      by apply finish_too_short, http_error_too_short.
  - rewrite (generate_fashion_response_raised _ _ _ _ _ _ _ _ Hitems).
    eexists. split; [reflexivity|]. split; [by intros b [=]|].
    intros ? [= <-]. split; [done|].
    unfold logger, emit. cbn [snd trace]. rewrite calls_of_app. cbn.
    by rewrite app_nil_r.
Qed.

(** *** The framing of the match *)

(** [generate_response] sends one request, with the prompt it was
    given. *)
Lemma generate_response_calls self prompt image_base64 w :
  calls_of
    (trace (snd (generate_response requests_post self prompt image_base64 w))) =
  calls_of (trace w) ++ [CallPost (base_url self +:+ "/api/generate") prompt].
Proof.
  unfold generate_response, try_except.
  unfold mbind, M_bind, mret, M_ret, logger, invoke, emit. cbn [snd fst trace].
  destruct (requests_post _ _) as [resp|e].
  - destruct (status_code resp =? 200).
    + destruct (json resp) as [body|e].
      * destruct (default false (body_done body) && _); cbn [snd fst trace];
          rewrite !calls_of_app; cbn; by rewrite ?app_nil_r.
      * cbn [snd fst trace]. rewrite !calls_of_app. cbn. by rewrite ?app_nil_r.
    + cbn [snd fst trace]. rewrite !calls_of_app. cbn. by rewrite ?app_nil_r.
  - cbn [snd fst trace]. rewrite !calls_of_app. cbn. by rewrite ?app_nil_r.
Qed.

(** Once the listing is built, the synthesizer sends one request, with
    the prompt of lines 156-175. *)
Lemma generate_fashion_response_calls self image matched_row all_items
    similarity_score threshold w bullets :
  items_list series_str all_items = Ok bullets →
  calls_of
    (trace (snd (generate_fashion_response requests_post series_str self
                   image matched_row all_items similarity_score threshold w))) =
  calls_of (trace w) ++
  [CallPost (base_url self +:+ "/api/generate")
     (prompt_of similarity_score threshold matched_row (join nl bullets))].
Proof.
  intros Hitems. unfold generate_fashion_response, try_except.
  unfold mbind at 1 2 3. unfold M_bind at 1 2 3. rewrite Hitems.
  fold (prompt_of similarity_score threshold matched_row (join nl bullets)).
  pose proof (generate_response_calls self
                (prompt_of similarity_score threshold matched_row
                   (join nl bullets)) image w) as Hcalls.
  destruct (generate_response _ _ _ _ w) as [[r|e] w1]; cbn [snd] in Hcalls.
  - destruct (too_short r).
    + unfold mbind, M_bind, mret, M_ret, logger, emit. cbn [snd fst trace].
      rewrite calls_of_app, Hcalls. cbn. by rewrite app_nil_r.
    + done.
  - unfold mbind, M_bind, mret, M_ret, logger, emit. cbn [snd fst trace].
    rewrite calls_of_app, Hcalls. cbn. by rewrite app_nil_r.
Qed.

(** C5. When the listing is built, [generate_fashion_response] frames
    the match as an excellent match with high confidence exactly when
    [similarity_score >= threshold], and as a similar item with moderate
    confidence exactly when not: this framing is in the prompt of the one
    request it sends, and in the fallback report it returns when the
    generated text is too short. The configured threshold and the
    default of the parameter are both the float 0.8. *)
Theorem framing_by_threshold (self : OllamaService) (image : option string)
    (matched_row : Series) (all_items : DataFrame cell)
    (similarity_score threshold : float) (w : world)
    (bullets : list string) :
  items_list series_str all_items = Ok bullets →
  let quality :=
    if PyFloat.ge similarity_score threshold
    then "excellent match" else "similar item" in
  let confidence :=
    if PyFloat.ge similarity_score threshold
    then "high confidence" else "moderate confidence" in
  let listing := join nl bullets in
  let url := base_url self +:+ "/api/generate" in
  let prompt :=
    fashion_prompt quality confidence similarity_score matched_row listing in
  let fallback :=
    fallback_response quality similarity_score matched_row listing in
  let run :=
    generate_fashion_response requests_post series_str self image
      matched_row all_items similarity_score threshold w in
  calls_of (trace (snd run)) = calls_of (trace w) ++ [CallPost url prompt] ∧
  Occurs ("The user's image has been matched with " +:+ quality +:+
          " in our database with " +:+ confidence) prompt ∧
  (too_short (response_text (requests_post url (payload_of self prompt image)))
     = true →
   fst run = Ok fallback) ∧
  Occurs ("I've identified a " +:+ quality +:+ " in our database") fallback ∧
  ((quality = "excellent match" ∧ confidence = "high confidence") ↔
   PyFloat.ge similarity_score threshold = true) ∧
  ((quality = "similar item" ∧ confidence = "moderate confidence") ↔
   PyFloat.ge similarity_score threshold = false) ∧
  config.SIMILARITY_THRESHOLD = (8 / 10)%float ∧
  default_threshold = config.SIMILARITY_THRESHOLD.
Proof.
  intros Hitems quality confidence0 listing url prompt fallback run.
  assert (prompt = prompt_of similarity_score threshold matched_row listing)
    as Hprompt by reflexivity.
  assert (fallback =
          fallback_response (match_quality similarity_score threshold)
            similarity_score matched_row listing) as Hfallback by reflexivity.
  split_and!; try reflexivity.
  - subst run. rewrite Hprompt.
    by apply generate_fashion_response_calls.
  - subst prompt. unfold fashion_prompt.
    eapply Occurs_trans;
      [|apply Occurs_join, list_elem_of_In; do 2 right; left; reflexivity].
    rewrite <- !sapp_assoc. occurs.
  - intros Hshort. subst run.
    rewrite (generate_fashion_response_returns _ _ _ _ _ _ _ _ Hitems).
    f_equal. rewrite Hfallback. apply finish_too_short. exact Hshort.
  - subst fallback. unfold fallback_response.
    eapply Occurs_trans;
      [|apply Occurs_join, list_elem_of_In; do 2 right; left; reflexivity].
    exists "Based on your image, ", ":".
    by rewrite !sapp_assoc.
  - subst quality confidence0.
    destruct (PyFloat.ge similarity_score threshold);
      split; try done; intros [? ?]; done.
  - subst quality confidence0.
    destruct (PyFloat.ge similarity_score threshold);
      split; try done; intros [? ?]; done.
Qed.

End Generation.

End llm_service_facts.

(** ** The orchestrator: [StyleFinderApp] *)

Module app_facts.
Import PyStr PyStrFacts llm_service llm_service_facts app.

(** A handler that returns makes the whole [try] return. *)
Lemma try_except_returns {A} (body : M A) (handler : string → M A) w :
  (∀ e w1, ∃ a, fst (handler e w1) = Ok a) →
  ∃ a, fst (try_except body handler w) = Ok a.
Proof.
  intros Hh. unfold try_except.
  destruct (body w) as [[a|e] w1]; [by exists a | apply Hh].
Qed.

(** *** Runs from two worlds *)

Lemma same_but_locks_trace w1 w2 : same_but_locks w1 w2 → same_trace w1 w2.
Proof. by intros (_ & _ & _ & ?). Qed.

Lemma agree_weaken {A} (R R1 R2 : world → world → Prop) (m : M A) :
  agree R R1 m → (∀ w1 w2, R1 w1 w2 → R2 w1 w2) → agree R R2 m.
Proof. intros Hm Hsub w1 w2 HR. destruct (Hm w1 w2 HR). auto. Qed.

Lemma agree_const {A} (R : world → world → Prop) (r : result A) :
  agree R R (λ w, (r, w)).
Proof. by intros w1 w2 HR. Qed.

Lemma agree_mret {A} (R : world → world → Prop) (a : A) : agree R R (mret a).
Proof. apply agree_const. Qed.

Lemma agree_bind {A B} (R R1 R2 : world → world → Prop) (m : M A) (k : A → M B) :
  agree R R1 m → (∀ a, agree R1 R2 (k a)) →
  (∀ w1 w2, R1 w1 w2 → R2 w1 w2) →
  agree R R2 (m ≫= k).
Proof.
  intros Hm Hk Hsub w1 w2 HR. specialize (Hm w1 w2 HR).
  unfold mbind, M_bind.
  destruct (m w1) as [[a1|e1] u1], (m w2) as [[a2|e2] u2];
    cbn [fst snd] in Hm; destruct Hm as [[=] Hu]; subst.
  - by apply Hk.
  - split; [done | by apply Hsub].
Qed.

Lemma agree_try_except {A} (R R1 R2 : world → world → Prop) (body : M A)
    (handler : string → M A) :
  agree R R1 body → (∀ e, agree R1 R2 (handler e)) →
  (∀ w1 w2, R1 w1 w2 → R2 w1 w2) →
  agree R R2 (try_except body handler).
Proof.
  intros Hm Hk Hsub w1 w2 HR. specialize (Hm w1 w2 HR).
  unfold try_except.
  destruct (body w1) as [[a1|e1] u1], (body w2) as [[a2|e2] u2];
    cbn [fst snd] in Hm; destruct Hm as [[=] Hu]; subst.
  - split; [done | by apply Hsub].
  - by apply Hk.
Qed.

Lemma agree_emit_locks e : agree same_but_locks same_but_locks (emit e).
Proof.
  intros w1 w2 (Hf & He & Hd & Ht). unfold emit, same_but_locks. cbn.
  by rewrite Ht.
Qed.

Lemma agree_emit_trace e : agree same_trace same_trace (emit e).
Proof.
  intros w1 w2 Ht. unfold emit, same_trace in *. cbn. by rewrite Ht.
Qed.

Lemma agree_invoke_locks {A} c (r : result A) :
  agree same_but_locks same_but_locks (invoke c r).
Proof.
  intros w1 w2 HR. unfold invoke. cbn [fst snd]. split; [done|].
  apply (agree_emit_locks (Called c) w1 w2 HR).
Qed.

Lemma agree_invoke_trace {A} c (r : result A) :
  agree same_trace same_trace (invoke c r).
Proof.
  intros w1 w2 HR. unfold invoke. cbn [fst snd]. split; [done|].
  apply (agree_emit_trace (Called c) w1 w2 HR).
Qed.

Lemma agree_path_exists path :
  agree same_but_locks same_but_locks (path_exists path).
Proof.
  intros w1 w2 HR. unfold path_exists. cbn [fst snd]. split; [|done].
  destruct HR as (-> & _). done.
Qed.

(** Whether or not the removal succeeds, [os.unlink] in its [try] gives
    nothing back and leaves the same events. *)
Lemma agree_cleanup image path :
  agree same_but_locks same_trace (app.cleanup image path).
Proof.
  intros w1 w2 HR. unfold app.cleanup.
  destruct (is_temporary image).
  - destruct HR as (Hf & _ & _ & Ht).
    unfold try_except, unlink, emit, same_trace. cbn [fst snd files locked trace].
    rewrite Hf, Ht.
    destruct (bool_decide (path ∈ files w2));
      destruct (bool_decide (path ∈ locked w1));
      destruct (bool_decide (path ∈ locked w2)); done.
  - split; [done|]. by apply same_but_locks_trace.
Qed.

(** *** Runs that leave the file system alone *)

Lemma keeps_const {A} (r : result A) : keeps_files (λ w, (r, w)).
Proof. by intros w. Qed.

Lemma keeps_emit e : keeps_files (emit e).
Proof. by intros w. Qed.

Lemma keeps_invoke {A} c (r : result A) : keeps_files (invoke c r).
Proof. by intros w. Qed.

Lemma keeps_path_exists path : keeps_files (path_exists path).
Proof. by intros w. Qed.

Lemma keeps_bind {A B} (m : M A) (k : A → M B) :
  keeps_files m → (∀ a, keeps_files (k a)) → keeps_files (m ≫= k).
Proof.
  intros Hm Hk w. specialize (Hm w). unfold mbind, M_bind.
  destruct (m w) as [[a|e] w1]; cbn [snd] in *; [|done].
  destruct (Hk a w1) as [-> ->]. done.
Qed.

Lemma keeps_try_except {A} (body : M A) (handler : string → M A) :
  keeps_files body → (∀ e, keeps_files (handler e)) →
  keeps_files (try_except body handler).
Proof.
  intros Hm Hk w. specialize (Hm w). unfold try_except.
  destruct (body w) as [[a|e] w1]; cbn [snd] in *; [done|].
  destruct (Hk e w1) as [-> ->]. done.
Qed.

(** Solves [keeps_files] and [agree] goals over code made of emissions,
    collaborator calls, binds, handlers and case distinctions. *)
Ltac effects_step :=
  first
    [ apply keeps_const | apply keeps_emit | apply keeps_invoke
    | apply keeps_path_exists
    | apply keeps_bind; [|intros ?]
    | apply keeps_try_except; [|intros ?]
    | apply agree_const | apply agree_emit_locks | apply agree_invoke_locks
    | apply agree_path_exists
    | apply agree_bind with (R1 := same_but_locks); [|intros ?|done]
    | apply agree_try_except with (R1 := same_but_locks); [|intros ?|done]
    | match goal with
      | |- keeps_files (if ?b then _ else _) => destruct b
      | |- keeps_files (match ?x with _ => _ end) => destruct x
      | |- agree _ _ (if ?b then _ else _) => destruct b
      | |- agree _ _ (match ?x with _ => _ end) => destruct x
      end ].

Ltac effects :=
  unfold logger, print, raise, mret, M_ret; repeat effects_step.

(** Unfolds the monad and the primitive effects. *)
Ltac run :=
  unfold mbind, M_bind, mret, M_ret, print, logger, emit, invoke,
    path_exists, raise;
  cbn [fst snd files locked entropy drawn trace].

Section App.

Variable ImageProcessor : Type.
Variable PyObject : Type.
Variable new_image_processor :
  Z * Z → list float → list float → result ImageProcessor.
Variable encode_image : ImageProcessor → string → bool → result encoding.
Variable find_closest_match :
  ImageProcessor → vector → dataset PyObject →
  result (option Series * float).
Variable get_all_items_for_image :
  cell → dataset PyObject → result (option (DataFrame cell)).
Variable process_response : string → result string.
Variable read_pickle : string → result (dataset PyObject).
Variable attr_empty : PyObject → result bool.
Variable requests_post :
  string → payload → result (response generate_body).
Variable requests_get : string → result (response tags_body).
Variable repr_names : list string → string.
Variable series_str : nat → string → list cell → string.

Abbreviation App := (StyleFinderApp ImageProcessor PyObject).
Abbreviation process_image :=
  (process_image ImageProcessor PyObject encode_image find_closest_match
     get_all_items_for_image process_response requests_post series_str).

(** *** Stage failures *)

Lemma process_image_returns (self : App) image w :
  ∃ text, fst (process_image self image w) = Ok text.
Proof.
  apply try_except_returns. intros e w1. eexists. run. reflexivity.
Qed.

Lemma invalid_input_stops (self : App) image w :
  image_path_of image = None →
  process_image self image w =
  (Ok "Error: Invalid image format received", w).
Proof.
  intros Hnone. unfold app.process_image, process_image_body, try_except.
  rewrite Hnone. reflexivity.
Qed.

Lemma missing_file_stops (self : App) image w path :
  image_path_of image = Some path →
  path ∉ files w →
  let w' := snd (process_image self image w) in
  fst (process_image self image w) =
    Ok ("Error: Image file not found at " +:+ path) ∧
  calls_of (trace w') = calls_of (trace w).
Proof.
  intros Hpath Hmissing.
  unfold app.process_image, process_image_body, try_except.
  rewrite Hpath. run. rewrite bool_decide_false by done.
  cbn. split; [done|]. rewrite calls_of_app. cbn. by rewrite app_nil_r.
Qed.

Lemma encoding_failure_stops (self : App) image w path enc :
  image_path_of image = Some path →
  path ∈ files w →
  encode_image (image_processor _ _ self) path false = Ok enc →
  enc_vector enc = None →
  let w' := snd (process_image self image w) in
  fst (process_image self image w) =
    Ok ("Error: " +:+
        default "Unable to process the image. Please try another image."
          (enc_error enc)) ∧
  calls_of (trace w') = calls_of (trace w) ++ [CallEncode path].
Proof.
  intros Hpath Hfile Henc Hvec.
  unfold app.process_image, process_image_body, try_except.
  rewrite Hpath. run. rewrite bool_decide_true by done.
  cbn [negb]. rewrite Henc, Hvec. cbn. split; [done|].
  rewrite !calls_of_app. cbn. by rewrite !app_nil_r.
Qed.

Lemma no_match_stops (self : App) image w path enc vec score :
  image_path_of image = Some path →
  path ∈ files w →
  encode_image (image_processor _ _ self) path false = Ok enc →
  enc_vector enc = Some vec →
  find_closest_match (image_processor _ _ self) vec (data _ _ self) =
    Ok (None, score) →
  let w' := snd (process_image self image w) in
  fst (process_image self image w) =
    Ok "Error: Unable to find a match. Please try another image." ∧
  calls_of (trace w') = calls_of (trace w) ++ [CallEncode path; CallFindMatch].
Proof.
  intros Hpath Hfile Henc Hvec Hfind.
  unfold app.process_image, process_image_body, try_except.
  rewrite Hpath. run. rewrite bool_decide_true by done.
  cbn [negb]. rewrite Henc, Hvec. cbn [fst snd trace]. rewrite Hfind.
  cbn. split; [done|].
  rewrite !calls_of_app. cbn. by rewrite !app_nil_r, <- app_assoc.
Qed.

(** C1. [process_image] returns a text for every input and never
    raises. A failure local to a stage ends the run at that stage with an
    error text, and the later stages are not invoked: for an input without
    a path nothing at all happens; for a path that does not exist no
    collaborator is called; when the encoder gives no vector only the
    encoder has been called; when no match is found only the encoder and
    the matcher have been called. *)
Theorem process_image_short_circuits (self : App) (image : image_arg)
    (w : world) :
  let out := process_image self image w in
  (∃ text, fst out = Ok text) ∧
  (image_path_of image = None →
   out = (Ok "Error: Invalid image format received", w)) ∧
  (∀ path,
     image_path_of image = Some path → path ∉ files w →
     fst out = Ok ("Error: Image file not found at " +:+ path) ∧
     calls_of (trace (snd out)) = calls_of (trace w)) ∧
  (∀ path enc,
     image_path_of image = Some path → path ∈ files w →
     encode_image (image_processor _ _ self) path false = Ok enc →
     enc_vector enc = None →
     fst out =
       Ok ("Error: " +:+
           default "Unable to process the image. Please try another image."
             (enc_error enc)) ∧
     calls_of (trace (snd out)) = calls_of (trace w) ++ [CallEncode path]) ∧
  (∀ path enc vec score,
     image_path_of image = Some path → path ∈ files w →
     encode_image (image_processor _ _ self) path false = Ok enc →
     enc_vector enc = Some vec →
     find_closest_match (image_processor _ _ self) vec (data _ _ self) =
       Ok (None, score) →
     fst out = Ok "Error: Unable to find a match. Please try another image." ∧
     calls_of (trace (snd out)) =
       calls_of (trace w) ++ [CallEncode path; CallFindMatch]).
Proof.
  intros out. subst out. split_and!.
  - apply process_image_returns.
  - apply invalid_input_stops.
  - intros path. apply missing_file_stops.
  - intros path enc. apply encoding_failure_stops.
  - intros path enc vec score. apply no_match_stops.
Qed.

(** *** The related items *)

(** The one-row frame carries the fields of the matched row, with the
    defaults for the labels the row does not have. *)
Lemma single_item_frame_row (closest_row : Series) :
  iterrows (single_item_frame closest_row) =
  [ (0%nat,
     [ ("Item Name", get closest_row "Item Name" (Text "Fashion Item"));
       ("Brand", get closest_row "Brand" (Text "Unknown"));
       ("Price", get closest_row "Price" (Text "N/A"));
       ("Category", get closest_row "Category" (Text "Fashion"));
       ("Image URL", get closest_row "Image URL" (Text "")) ]) ].
Proof. reflexivity. Qed.

Lemma get_default (row : Series) key default :
  row !! key = None → get row key default = default.
Proof. unfold get. by intros ->. Qed.

Lemma get_present (row : Series) key default v :
  row !! key = Some v → get row key default = v.
Proof. unfold get. by intros ->. Qed.

(** Lines 110-122 on an empty selection. *)
Lemma related_items_fallback (self : App) (closest_row : Series) w selection :
  get_all_items_for_image (get closest_row "Image URL" (Text "")) (data _ _ self) =
    Ok selection →
  match selection with Some df => empty df = true | None => True end →
  fst (related_items _ _ get_all_items_for_image self closest_row w) =
  Ok (single_item_frame closest_row).
Proof.
  intros Hsel Hempty. unfold related_items. run. rewrite Hsel.
  destruct selection as [df|]; [rewrite Hempty|]; reflexivity.
Qed.

(** Line 108 reads the name with [closest_row['Item Name']]: a matched row
    without that label ends the run in the handler, before the related
    items are looked up. *)
Lemma missing_name_aborts (self : App) image w path enc vec row score :
  image_path_of image = Some path → path ∈ files w →
  encode_image (image_processor _ _ self) path false = Ok enc →
  enc_vector enc = Some vec →
  find_closest_match (image_processor _ _ self) vec (data _ _ self) =
    Ok (Some row, score) →
  row !! "Item Name" = None →
  fst (process_image self image w) =
    Ok "Error processing image: 'Item Name'" ∧
  calls_of (trace (snd (process_image self image w))) =
    calls_of (trace w) ++ [CallEncode path; CallFindMatch].
Proof.
  intros Hpath Hfile Henc Hvec Hfind Hname.
  unfold app.process_image, process_image_body, try_except.
  rewrite Hpath. run. rewrite bool_decide_true by done.
  cbn [negb]. rewrite Henc, Hvec. cbn [fst snd trace]. rewrite Hfind.
  unfold getitem. rewrite Hname. run. split; [done|].
  rewrite !calls_of_app. cbn. by rewrite !app_nil_r, <- app_assoc.
Qed.

(** *** Cleanup *)

Lemma keeps_generate_fashion_response self image row items score thr :
  keeps_files
    (generate_fashion_response requests_post series_str self image row items score thr).
Proof. unfold generate_fashion_response, generate_response. effects. Qed.

Lemma agree_generate_fashion_response self image row items score thr :
  agree same_but_locks same_but_locks
    (generate_fashion_response requests_post series_str self image row items score thr).
Proof. unfold generate_fashion_response, generate_response. effects. Qed.

Lemma keeps_related_items (self : App) row :
  keeps_files (related_items _ _ get_all_items_for_image self row).
Proof. unfold related_items. effects. Qed.

Lemma agree_related_items (self : App) row :
  agree same_but_locks same_but_locks
    (related_items _ _ get_all_items_for_image self row).
Proof. unfold related_items. effects. Qed.

Lemma agree_handler e :
  agree same_trace same_trace
    (print ("Error in process_image: " +:+ e);;
     emit (Traceback e);;
     mret ("Error processing image: " +:+ e)).
Proof.
  unfold print.
  apply agree_bind with (R1 := same_trace); [apply agree_emit_trace| |done].
  intros _.
  apply agree_bind with (R1 := same_trace); [apply agree_emit_trace| |done].
  intros _. apply agree_mret.
Qed.

(** The run does not depend on the paths the system refuses to remove:
    neither its outcome nor its events. *)
Lemma agree_process_image (self : App) image :
  agree same_but_locks same_trace (process_image self image).
Proof.
  unfold app.process_image.
  apply agree_try_except with (R1 := same_trace);
    [|apply agree_handler|done].
  unfold process_image_body, getitem.
  repeat first
    [ apply agree_bind with (R1 := same_but_locks);
        [ first [ apply agree_related_items
                | apply agree_generate_fashion_response
                | solve [effects] ]
        | intros ?
        | apply same_but_locks_trace ]
    | apply agree_bind with (R1 := same_trace);
        [ apply agree_cleanup | intros ?; apply agree_invoke_trace | done ]
    | match goal with
      | |- agree _ _ (if ?b then _ else _) => destruct b
      | |- agree _ _ (match ?x with _ => _ end) => destruct x
      end
    | eapply agree_weaken; [solve [effects] | apply same_but_locks_trace] ].
Qed.

Lemma related_items_returns (self : App) (closest_row : Series) w selection :
  get_all_items_for_image (get closest_row "Image URL" (Text "")) (data _ _ self) =
    Ok selection →
  ∃ items, fst (related_items _ _ get_all_items_for_image self closest_row w) =
           Ok items.
Proof.
  intros Hsel. unfold related_items. run. rewrite Hsel.
  destruct selection as [df|]; [destruct (empty df)|]; by eexists.
Qed.

(** When the run gets past the synthesis, a file object under [/tmp/]
    that exists and can be removed is gone afterwards. *)
Lemma temporary_file_removed (self : App) w name enc vec row score v selection :
  PyStr.startswith "/tmp/" name = true →
  name ∈ files w → name ∉ locked w →
  encode_image (image_processor _ _ self) name false = Ok enc →
  enc_vector enc = Some vec →
  find_closest_match (image_processor _ _ self) vec (data _ _ self) =
    Ok (Some row, score) →
  row !! "Item Name" = Some v →
  get_all_items_for_image (get row "Image URL" (Text "")) (data _ _ self) =
    Ok selection →
  name ∉ files (snd (process_image self (Single (FileObj name)) w)).
Proof.
  intros Htmp Hfile Hfree Henc Hvec Hfind Hname Hsel.
  unfold app.process_image, process_image_body, try_except.
  cbn [image_path_of]. run. rewrite bool_decide_true by done.
  cbn [negb]. rewrite Henc, Hvec. cbn [fst snd trace]. rewrite Hfind.
  unfold getitem. rewrite Hname. run.
  match goal with
  | |- context [related_items _ _ _ self row ?w3] =>
      destruct (related_items_returns self row w3 selection Hsel) as [items Hitems];
      destruct (keeps_related_items self row w3) as [Hf3 Hl3];
      destruct (related_items _ _ _ self row w3) as [ri w4]
  end.
  cbn [fst snd files locked] in *. subst ri.
  match goal with
  | |- context [generate_fashion_response ?p ?ss ?sv ?im ?r ?it ?sc ?th w4] =>
      destruct (generate_fashion_response_total p ss sv im r it sc th w4)
        as [report Hgen];
      destruct (keeps_generate_fashion_response sv im r it sc th w4) as [Hf4 Hl4];
      destruct (generate_fashion_response p ss sv im r it sc th w4) as [gr w5]
  end.
  cbn [fst snd] in *. subst gr.
  unfold app.cleanup. cbn [is_temporary]. rewrite Htmp.
  unfold try_except, unlink, emit. cbn [fst snd files locked trace].
  rewrite Hf4, Hf3, Hl4, Hl3.
  rewrite bool_decide_true by done. rewrite bool_decide_false by done.
  cbn [files].
  destruct (process_response _); cbn [snd files];
    intros [_ Hout]%elem_of_difference; by apply Hout, elem_of_singleton.
Qed.

(** C9, as the code has it. When the synthesis has returned and the
    input is a file object whose name starts with [/tmp/], a file that
    exists and can be removed is removed before the report is returned.
    A removal that fails is swallowed: the text returned and every event
    of the run are the same whatever the set of paths that cannot be
    removed, so the failure is neither logged nor surfaced. *)
Theorem cleanup_after_synthesis_is_silent (self : App) (image : image_arg)
    (w : world) :
  (∀ l : gset string,
     fst (process_image self image (with_locked l w)) =
       fst (process_image self image w) ∧
     trace (snd (process_image self image (with_locked l w))) =
       trace (snd (process_image self image w))) ∧
  (∀ name enc vec row score v selection,
     image = Single (FileObj name) →
     PyStr.startswith "/tmp/" name = true →
     name ∈ files w → name ∉ locked w →
     encode_image (image_processor _ _ self) name false = Ok enc →
     enc_vector enc = Some vec →
     find_closest_match (image_processor _ _ self) vec (data _ _ self) =
       Ok (Some row, score) →
     row !! "Item Name" = Some v →
     get_all_items_for_image (get row "Image URL" (Text "")) (data _ _ self) =
       Ok selection →
     name ∉ files (snd (process_image self image w))).
Proof.
  split.
  - intros l. apply (agree_process_image self image (with_locked l w) w).
    by repeat split.
  - intros name enc vec row score v selection -> Htmp Hfile Hfree Henc Hvec
      Hfind Hname Hsel.
    by eapply temporary_file_removed.
Qed.

(** *** Construction *)

Abbreviation __init__ :=
  (app.__init__ ImageProcessor PyObject new_image_processor read_pickle
     attr_empty requests_get repr_names).
Abbreviation load_dataset := (app.load_dataset PyObject read_pickle attr_empty).

Lemma test_connection_returns self w :
  fst (_test_connection requests_get repr_names self w) = Ok tt.
Proof.
  unfold _test_connection, try_except. run.
  destruct (requests_get _) as [resp|e]; [|reflexivity].
  destruct (_ =? 200); [|reflexivity].
  destruct (json _) as [body|e]; [|reflexivity].
  by destruct (bool_decide _).
Qed.

Lemma service_init_returns model url temp top tokens w :
  fst (llm_service.__init__ requests_get repr_names model url temp top tokens w) =
  Ok (mkService model url temp top tokens).
Proof.
  unfold llm_service.__init__. unfold mbind at 1. unfold M_bind at 1.
  pose proof (test_connection_returns (mkService model url temp top tokens) w) as H.
  destruct (_test_connection _ _ _ w) as [[[]|e] w1]; cbn [fst] in H; [|done].
  reflexivity.
Qed.

(** Lines 38-48: one line printed, three draws of 1000 samples each,
    and the frame around them. *)
Lemma create_dummy_run dataset_path w :
  let e1 := map (entropy w) (seq (drawn w) 1000) in
  let e2 := map (entropy w) (seq (drawn w + 1000) 1000) in
  let e3 := map (entropy w) (seq (drawn w + 2000) 1000) in
  create_dummy PyObject dataset_path w =
  (Ok (Frame (dummy_dataset e1 e2 e3)),
   {| files := files w; locked := locked w; entropy := entropy w;
      drawn := (drawn w + 3000)%nat;
      trace := trace w ++
               [Printed ("Warning: Dataset file not found at " +:+
                         default "None" dataset_path +:+
                         ". Creating dummy dataset for testing.")] |}).
Proof.
  unfold create_dummy, np_random. run.
  replace (drawn w + 1000 + 1000)%nat with (drawn w + 2000)%nat by lia.
  replace (drawn w + 2000 + 1000)%nat with (drawn w + 3000)%nat by lia.
  reflexivity.
Qed.

Lemma load_existing_outcome path w :
  fst (load_existing PyObject read_pickle attr_empty path w) =
  match read_pickle path with
  | Ok (Frame df) =>
      if empty df then Raise "The loaded dataset is empty" else Ok (Frame df)
  | Ok (Object o) =>
      match attr_empty o with
      | Ok true => Raise "The loaded dataset is empty"
      | Ok false => Ok (Object o)
      | Raise e => Raise e
      end
  | Raise e => Raise e
  end.
Proof.
  unfold load_existing, data_empty. run.
  destruct (read_pickle path) as [[df|o]|e]; [| |reflexivity].
  - by destruct (empty df).
  - by destruct (attr_empty o) as [[]|e].
Qed.

Lemma load_dataset_unresolved dataset_path w :
  resolves dataset_path w = false →
  load_dataset dataset_path w = create_dummy PyObject dataset_path w.
Proof.
  unfold resolves, app.load_dataset.
  destruct dataset_path as [path|]; [|done].
  destruct (PyStr.truthy path); [|done]. cbn [andb]. intros Hmissing.
  run. by rewrite Hmissing.
Qed.

Lemma load_dataset_resolved path w :
  resolves (Some path) w = true →
  load_dataset (Some path) w =
  load_existing PyObject read_pickle attr_empty path w.
Proof.
  unfold resolves, app.load_dataset.
  destruct (PyStr.truthy path); [|done]. cbn [andb]. intros Hfound.
  run. by rewrite Hfound.
Qed.

Lemma init_outcome dataset_path w :
  fst (__init__ dataset_path w) =
  match fst (load_dataset dataset_path w) with
  | Raise e => Raise e
  | Ok data =>
      match new_image_processor config.IMAGE_SIZE config.NORMALIZATION_MEAN
              config.NORMALIZATION_STD with
      | Raise e => Raise e
      | Ok processor =>
          Ok (mkApp _ _ data processor
                (mkService config.OLLAMA_MODEL_NAME config.OLLAMA_BASE_URL
                   default_temperature default_top_p default_max_tokens))
      end
  end.
Proof.
  unfold app.__init__. unfold mbind at 1 2 3. unfold M_bind at 1 2 3.
  destruct (app.load_dataset _ _ _ _ w) as [[d|e] w1]; cbn [fst]; [|reflexivity].
  destruct (new_image_processor _ _ _) as [ip|e]; [|reflexivity].
  pose proof (service_init_returns config.OLLAMA_MODEL_NAME
                config.OLLAMA_BASE_URL default_temperature default_top_p
                default_max_tokens w1) as H.
  destruct (llm_service.__init__ _ _ _ _ _ _ _ w1) as [[svc|e] w2];
    cbn [fst] in H; [|done].
  injection H as ->. reflexivity.
Qed.

(** What makes the dataset stage fail for an existing file: loading
    raises; the loaded object is a frame that is empty; or it is an
    object of another type, whose [empty] attribute cannot be tested
    (it has none, say) or is true. *)
Lemma load_existing_fails path w e :
  fst (load_existing PyObject read_pickle attr_empty path w) = Raise e ↔
  (read_pickle path = Raise e ∨
   (∃ df, read_pickle path = Ok (Frame df) ∧ empty df = true ∧
          e = "The loaded dataset is empty") ∨
   (∃ o, read_pickle path = Ok (Object o) ∧
         (attr_empty o = Raise e ∨
          (attr_empty o = Ok true ∧ e = "The loaded dataset is empty")))).
Proof.
  rewrite load_existing_outcome.
  destruct (read_pickle path) as [[df|o]|e'] eqn:Hread.
  - destruct (empty df) eqn:Hempty.
    + split.
      * intros [= <-]. right. left. by exists df.
      * intros [?|[(df' & _ & _ & ->)|(o & ? & _)]]; congruence.
    + split; [done|].
      intros [?|[(df' & [= <-] & ? & _)|(o & ? & _)]]; congruence.
  - destruct (attr_empty o) as [[]|e''] eqn:Hattr.
    + split.
      * intros [= <-]. right. right. exists o. split; [done|]. by right.
      * intros [?|[(df' & ? & _)|(o' & [= <-] & [?|[_ ->]])]]; congruence.
    + split; [done|].
      intros [?|[(df' & ? & _)|(o' & [= <-] & [?|[? _]])]]; congruence.
    + split.
      * intros [= <-]. right. right. exists o. split; [done|]. by left.
      * intros [?|[(df' & ? & _)|(o' & [= <-] & [?|[? _]])]]; congruence.
  - split.
    + intros [= <-]. by left.
    + intros [?|[(df' & ? & _)|(o' & ? & _)]]; congruence.
Qed.

(** C10, as the code has it. With a dataset path that does not resolve
    (no path, the empty path, or a path that does not exist) the dataset
    stage raises nothing: it prints the warning of line 38, draws three
    embeddings of 1000 samples each from the random source, and builds
    the dummy catalog of three entries around them. Construction fails
    exactly when the path resolves and loading the file raises, or the
    loaded frame is empty ("The loaded dataset is empty"), or the loaded
    object is not a frame and its [empty] attribute is missing or true;
    or when the dataset is in place and constructing the image processor
    raises. *)
Theorem constructor_dataset_handling (dataset_path : option string) (w : world) :
  (resolves dataset_path w = false →
   let e1 := map (entropy w) (seq (drawn w) 1000) in
   let e2 := map (entropy w) (seq (drawn w + 1000) 1000) in
   let e3 := map (entropy w) (seq (drawn w + 2000) 1000) in
   fst (load_dataset dataset_path w) = Ok (Frame (dummy_dataset e1 e2 e3)) ∧
   trace (snd (load_dataset dataset_path w)) =
     trace w ++
     [Printed ("Warning: Dataset file not found at " +:+
               default "None" dataset_path +:+
               ". Creating dummy dataset for testing.")] ∧
   drawn (snd (load_dataset dataset_path w)) = (drawn w + 3000)%nat ∧
   length e1 = 1000%nat ∧ length e2 = 1000%nat ∧ length e3 = 1000%nat ∧
   length (rows (dummy_dataset e1 e2 e3)) = 3%nat) ∧
  (∀ e,
     fst (__init__ dataset_path w) = Raise e ↔
     (∃ path,
        dataset_path = Some path ∧ resolves dataset_path w = true ∧
        (read_pickle path = Raise e ∨
         (∃ df, read_pickle path = Ok (Frame df) ∧ empty df = true ∧
                e = "The loaded dataset is empty") ∨
         (∃ o, read_pickle path = Ok (Object o) ∧
               (attr_empty o = Raise e ∨
                (attr_empty o = Ok true ∧
                 e = "The loaded dataset is empty"))))) ∨
     ((∃ data, fst (load_dataset dataset_path w) = Ok data) ∧
      new_image_processor config.IMAGE_SIZE config.NORMALIZATION_MEAN
        config.NORMALIZATION_STD = Raise e)).
Proof.
  split.
  - intros Hunres e1 e2 e3. rewrite load_dataset_unresolved by done.
    rewrite create_dummy_run. cbn [fst snd trace drawn].
    split_and!; try reflexivity;
      subst e1 e2 e3; by rewrite length_map, length_seq.
  - intros e. rewrite init_outcome.
    destruct (resolves dataset_path w) eqn:Hres.
    + destruct dataset_path as [path|]; [|done].
      rewrite load_dataset_resolved by done.
      pose proof (load_existing_fails path w) as Hfails.
      destruct (fst (load_existing _ _ _ path w)) as [d|e'] eqn:Hload.
      * destruct (new_image_processor _ _ _) as [ip|e''] eqn:Hip.
        -- split; [done|].
           intros [(p & [= <-] & _ & Hp)|[_ ?]]; [|done].
           by apply Hfails in Hp.
        -- split.
           ++ intros [= <-]. right. split; [by exists d | done].
           ++ intros [(p & [= <-] & _ & Hp)|[_ [= <-]]]; [|done].
              by apply Hfails in Hp.
      * split.
        -- intros [= <-]. left. exists path. split_and!; [done..|].
           by apply Hfails.
        -- intros [(p & [= <-] & _ & Hp)|[[d Hd] _]]; [|done].
           apply Hfails in Hp. congruence.
    + rewrite load_dataset_unresolved by done.
      rewrite create_dummy_run. cbn [fst].
      destruct (new_image_processor _ _ _) as [ip|e'] eqn:Hip.
      * split; [done|]. intros [(p & _ & ? & _)|[_ ?]]; congruence.
      * split.
        -- intros [= ->]. right. split; [by eexists | done].
        -- intros [(p & _ & ? & _)|[_ ?]]; congruence.
Qed.

End App.

End app_facts.

(** ** The similarity matcher *)

(** The order of binary64 numbers, through their specification. *)

Module FloatOrder.

Ltac order_cases :=
  intros;
  repeat match goal with
  | |- context [Pos.compare_cont Eq ?a ?b] =>
      change (Pos.compare_cont Eq a b) with (Pos.compare a b) in *
  | H : context [Pos.compare_cont Eq ?a ?b] |- _ =>
      change (Pos.compare_cont Eq a b) with (Pos.compare a b) in *
  end;
  repeat match goal with
  | |- context [(?a ?= ?b)%Z] => destruct (Z.compare_spec a b)
  | H : context [(?a ?= ?b)%Z] |- _ => destruct (Z.compare_spec a b)
  | |- context [(?a ?= ?b)%positive] => destruct (Pos.compare_spec a b)
  | H : context [(?a ?= ?b)%positive] |- _ => destruct (Pos.compare_spec a b)
  end;
  cbn in *; try congruence; try lia.

Lemma SFleb_trans x y z :
  SFleb x y = true → SFleb y z = true → SFleb x z = true.
Proof.
  unfold SFleb, SFcompare.
  destruct x as [[]|[]| |[] m1 e1], y as [[]|[]| |[] m2 e2],
    z as [[]|[]| |[] m3 e3]; try done;
    order_cases.
Qed.

Lemma SFltb_leb_trans x y z :
  SFltb x y = true → SFleb y z = true → SFltb x z = true.
Proof.
  unfold SFleb, SFltb, SFcompare.
  destruct x as [[]|[]| |[] m1 e1], y as [[]|[]| |[] m2 e2],
    z as [[]|[]| |[] m3 e3]; try done;
    order_cases.
Qed.

Lemma SFleb_ltb_trans x y z :
  SFleb x y = true → SFltb y z = true → SFltb x z = true.
Proof.
  unfold SFleb, SFltb, SFcompare.
  destruct x as [[]|[]| |[] m1 e1], y as [[]|[]| |[] m2 e2],
    z as [[]|[]| |[] m3 e3]; try done;
    order_cases.
Qed.

Lemma SFltb_leb x y : SFltb x y = true → SFleb x y = true.
Proof. unfold SFleb, SFltb. by destruct (SFcompare x y) as [[]|]. Qed.

Lemma SFltb_total x y :
  x ≠ S754_nan → y ≠ S754_nan → SFltb x y = false → SFleb y x = true.
Proof.
  unfold SFleb, SFltb, SFcompare.
  destruct x as [[]|[]| |[] m1 e1], y as [[]|[]| |[] m2 e2]; try done;
    order_cases.
Qed.

Lemma SFleb_refl x : x ≠ S754_nan → SFleb x x = true.
Proof.
  unfold SFleb, SFcompare.
  destruct x as [[]|[]| |[] m1 e1]; try done;
    order_cases.
Qed.

Lemma SFltb_not_eqb x y : SFltb x y = true → SFeqb x y = false.
Proof. unfold SFeqb, SFltb. by destruct (SFcompare x y) as [[]|]. Qed.

Lemma SFleb_neg_infinity x :
  SFleb x (S754_infinity true) = true → x = S754_infinity true.
Proof.
  unfold SFleb, SFcompare. by destruct x as [[]|[]| |[] m1 e1].
Qed.

Lemma is_nan_spec x : is_nan x = false ↔ Prim2SF x ≠ S754_nan.
Proof.
  unfold is_nan. rewrite FloatAxioms.eqb_spec.
  unfold SFeqb, SFcompare.
  destruct (Prim2SF x) as [[]|[]| |[] m e]; cbn; split; try done;
    order_cases.
Qed.

Lemma leb_trans x y z :
  (x <=? y)%float = true → (y <=? z)%float = true → (x <=? z)%float = true.
Proof. rewrite !leb_spec. apply SFleb_trans. Qed.

Lemma ltb_leb_trans x y z :
  (x <? y)%float = true → (y <=? z)%float = true → (x <? z)%float = true.
Proof. rewrite !leb_spec, !ltb_spec. apply SFltb_leb_trans. Qed.

Lemma leb_ltb_trans x y z :
  (x <=? y)%float = true → (y <? z)%float = true → (x <? z)%float = true.
Proof. rewrite !leb_spec, !ltb_spec. apply SFleb_ltb_trans. Qed.

Lemma ltb_leb x y : (x <? y)%float = true → (x <=? y)%float = true.
Proof. rewrite !leb_spec, !ltb_spec. apply SFltb_leb. Qed.

Lemma ltb_total x y :
  is_nan x = false → is_nan y = false →
  (x <? y)%float = false → (y <=? x)%float = true.
Proof.
  rewrite !is_nan_spec, !leb_spec, !ltb_spec. apply SFltb_total.
Qed.

Lemma leb_refl x : is_nan x = false → (x <=? x)%float = true.
Proof. rewrite is_nan_spec, leb_spec. apply SFleb_refl. Qed.

Lemma ltb_not_eqb x y : (x <? y)%float = true → (x =? y)%float = false.
Proof. rewrite ltb_spec, FloatAxioms.eqb_spec. apply SFltb_not_eqb. Qed.

Lemma leb_neg_infinity x :
  (x <=? neg_infinity)%float = true → x = neg_infinity.
Proof.
  rewrite leb_spec. change (Prim2SF neg_infinity) with (S754_infinity true).
  intros H%SFleb_neg_infinity. apply Prim2SF_inj. by rewrite H.
Qed.

End FloatOrder.

Module SimilarityMatcher_facts.
Import SimilarityMatcher FloatOrder.

(** The scan keeps the first entry of greatest similarity among the
    entries seen. *)
Lemma scan_spec query entries :
  ∀ (seen : list CatalogEntry) (bi : nat) (b : CatalogEntry) (bs : float),
    (∀ e, e ∈ seen ++ entries →
          is_nan (cosine_similarity query (embedding e)) = false) →
    seen !! bi = Some b →
    bs = cosine_similarity query (embedding b) →
    (∀ j e, seen !! j = Some e →
            (cosine_similarity query (embedding e) <=? bs)%float = true) →
    (∀ j e, seen !! j = Some e → (j < bi)%nat →
            (cosine_similarity query (embedding e) <? bs)%float = true) →
    ∃ i e s,
      scan query entries (length seen) bi b bs = Found i e s ∧
      (seen ++ entries) !! i = Some e ∧
      s = cosine_similarity query (embedding e) ∧
      (∀ j e', (seen ++ entries) !! j = Some e' →
               (cosine_similarity query (embedding e') <=? s)%float = true) ∧
      (∀ j e', (seen ++ entries) !! j = Some e' → (j < i)%nat →
               (cosine_similarity query (embedding e') <? s)%float = true).
Proof.
  induction entries as [|x rest IH];
    intros seen bi b bs Hnan Hb Hbs Hmax Hfirst.
  - exists bi, b, bs. rewrite app_nil_r. by split_and!.
  - cbn [scan].
    replace (S (length seen)) with (length (seen ++ [x]))
      by (rewrite length_app; simpl; lia).
    replace (seen ++ x :: rest) with ((seen ++ [x]) ++ rest) in *
      by (by rewrite <- app_assoc).
    assert (is_nan (cosine_similarity query (embedding x)) = false) as Hx.
    { apply Hnan. apply elem_of_app. left. apply elem_of_app. right.
      apply elem_of_cons. by left. }
    assert (is_nan bs = false) as Hbest.
    { subst bs. apply Hnan. apply elem_of_app. left. apply elem_of_app. left.
      by eapply list_elem_of_lookup_2. }
    destruct (bs <? cosine_similarity query (embedding x))%float eqn:Hlt.
    + apply IH; [done| | | |].
      * by apply list_lookup_middle.
      * reflexivity.
      * intros j e [[_ He]|[_ <-]]%lookup_snoc_Some; [|by apply leb_refl].
        apply ltb_leb. eapply leb_ltb_trans; [by eapply Hmax | done].
      * intros j e [[_ He]|[-> <-]]%lookup_snoc_Some Hj; [|lia].
        eapply leb_ltb_trans; [by eapply Hmax | done].
    + apply IH; [done| | | |].
      * by apply lookup_app_l_Some.
      * done.
      * intros j e [[_ He]|[_ <-]]%lookup_snoc_Some; [by eapply Hmax|].
        by apply ltb_total.
      * intros j e [[_ He]|[-> <-]]%lookup_snoc_Some Hj; [by eapply Hfirst|].
        apply lookup_lt_Some in Hb. lia.
Qed.

Lemma same_dimension_true query store :
  (∀ e, e ∈ store → length (embedding e) = length query) →
  same_dimension query store = true.
Proof.
  intros Hdim. unfold same_dimension. apply forallb_forall.
  intros e He. apply Nat.eqb_eq, Hdim. by apply list_elem_of_In.
Qed.

(** C8, as the model has it. On a catalog that is not empty and a query
    of its dimension, when no similarity is NaN, the matcher returns an
    entry of the catalog with its cosine similarity to the query; no
    entry has a greater similarity, and every entry before it has a
    smaller one. An entry whose embedding is the query is scored by the
    match at least as high as it scores itself. An entry that scores
    the minimum, as one of norm zero does, is returned only when every
    entry scores the minimum. *)
Theorem best_match_is_first_maximum (query : vector)
    (store : list CatalogEntry) :
  store ≠ [] →
  (∀ e, e ∈ store → length (embedding e) = length query) →
  (∀ e, e ∈ store → is_nan (cosine_similarity query (embedding e)) = false) →
  ∃ i e s,
    match_ query store = Found i e s ∧
    store !! i = Some e ∧
    s = cosine_similarity query (embedding e) ∧
    (∀ j e', store !! j = Some e' →
             (cosine_similarity query (embedding e') <=? s)%float = true) ∧
    (∀ j e', store !! j = Some e' → (j < i)%nat →
             (cosine_similarity query (embedding e') <? s)%float = true) ∧
    (∀ j e', store !! j = Some e' →
             (cosine_similarity query (embedding e') =? s)%float = true →
             (i ≤ j)%nat) ∧
    (∀ k ek, store !! k = Some ek → embedding ek = query →
             (cosine_similarity query query <=? s)%float = true) ∧
    (s = min_similarity →
     ∀ j e', store !! j = Some e' →
             cosine_similarity query (embedding e') = min_similarity).
Proof.
  intros Hne Hdim Hnan. destruct store as [|e0 rest]; [done|].
  unfold match_. rewrite same_dimension_true by done.
  destruct (scan_spec query rest [e0] 0%nat e0
              (cosine_similarity query (embedding e0)))
    as (i & e & s & Hrun & Hi & Hs & Hmax & Hfirst); [done..| | |].
  - intros [|j] e; [|done]. intros [= <-]. apply leb_refl, Hnan.
    apply elem_of_cons. by left.
  - intros j e _ Hj. lia.
  - exists i, e, s. split_and!; try done.
    + intros j e' Hj Heq. destruct (decide (j < i)%nat) as [Hlt|]; [|lia].
      pose proof (Hfirst j e' Hj Hlt) as Hless.
      apply ltb_not_eqb in Hless. congruence.
    + intros k ek Hk <-. by eapply Hmax.
    + intros -> j e' Hj. by eapply leb_neg_infinity, Hmax.
Qed.

(** C8, as the specification states it, fails on binary64 numbers. The
    query is the embedding of the first entry, and the second entry,
    which points the same way, is returned: its similarity rounds to a
    greater number. The query is the embedding of the only entry, and
    the score is the minimum, not a number near 1: the squares of the
    components are too small, and the norm is zero. And where a
    similarity is NaN the entry returned does not have the greatest
    one. *)
Lemma queried_entry_is_not_always_matched :
  embedding demo.scarf = [demo.tenth; demo.tenth] ∧
  match_ [demo.tenth; demo.tenth] [demo.scarf; demo.coat] =
    Found 1 demo.coat 0x1.fffffffffffffp-1 ∧
  (cosine_similarity [demo.tenth; demo.tenth] (embedding demo.scarf) <?
   cosine_similarity [demo.tenth; demo.tenth] (embedding demo.coat))%float
    = true ∧
  match_ (embedding demo.faint) [demo.faint] =
    Found 0 demo.faint neg_infinity ∧
  match_ (embedding demo.loud) [demo.loud; demo.navy] =
    Found 0 demo.loud nan ∧
  (cosine_similarity (embedding demo.loud) (embedding demo.navy) <=?
   cosine_similarity (embedding demo.loud) (embedding demo.loud))%float
    = false.
Proof. split_and!; vm_compute; reflexivity. Qed.

(** The matcher on the sample catalog. *)
Lemma match_on_sample_catalog :
  ∃ i e s,
    match_ [2; 0]%float demo.catalog = Found i e s ∧
    demo.catalog !! i = Some e ∧
    s = cosine_similarity [2; 0]%float (embedding e) ∧
    (∀ j e', demo.catalog !! j = Some e' →
             (cosine_similarity [2; 0]%float (embedding e') <=? s)%float
               = true) ∧
    (∀ j e', demo.catalog !! j = Some e' → (j < i)%nat →
             (cosine_similarity [2; 0]%float (embedding e') <? s)%float
               = true) ∧
    (∀ j e', demo.catalog !! j = Some e' →
             (cosine_similarity [2; 0]%float (embedding e') =? s)%float
               = true →
             (i ≤ j)%nat) ∧
    (∀ k ek, demo.catalog !! k = Some ek →
             embedding ek = [2; 0]%float →
             (cosine_similarity [2; 0]%float [2; 0]%float <=? s)%float
               = true) ∧
    (s = min_similarity →
     ∀ j e', demo.catalog !! j = Some e' →
             cosine_similarity [2; 0]%float (embedding e') = min_similarity).
Proof.
  apply (best_match_is_first_maximum [2; 0]%float demo.catalog).
  - discriminate.
  - intros e He. unfold demo.catalog in He.
    repeat (apply elem_of_cons in He as [->|He]; [reflexivity|]).
    by apply elem_of_nil in He.
  - intros e He. unfold demo.catalog in He.
    repeat (apply elem_of_cons in He as [->|He]; [vm_compute; reflexivity|]).
    by apply elem_of_nil in He.
Defined.

End SimilarityMatcher_facts.

(** ** The properties on the sample data *)

Module samples.
Import PyStr PyStrFacts llm_service llm_service_facts app app_facts demo.

(** The pipeline around the sample collaborators. *)
Abbreviation run_with encode find post :=
  (app.process_image unit unit encode find no_items keep_text post
     series_text application).

(** The synthesizer on the sample match. *)
Abbreviation synthesize post items :=
  (generate_fashion_response post series_text service None blazer items
     0.875 config.SIMILARITY_THRESHOLD world0).

(** The listing of the sample group: the cells of each row, under the
    labels of the frame. *)
Example listing_of_sample_group :
  items_list series_text related = Ok related_bullets.
Proof. reflexivity. Qed.

(** The listing loop raises on the group with two 'Price' columns. *)
Example listing_of_two_prices :
  items_list series_text two_prices = Raise ambiguous_truth.
Proof. reflexivity. Qed.

(** The encoder gives no vector for the upload: the run stops with the
    encoder's message after the one call to the encoder. *)
Lemma short_circuit_on_sample :
  fst (run_with encode_none find_blazer post_refused
         (Single (FileObj upload_path)) world0) =
    Ok "Error: Unsupported image format" ∧
  calls_of (trace (snd (run_with encode_none find_blazer post_refused
                          (Single (FileObj upload_path)) world0))) =
    [CallEncode upload_path].
Proof.
  destruct (process_image_short_circuits unit unit encode_none find_blazer
              no_items keep_text post_refused series_text application
              (Single (FileObj upload_path)) world0) as (_ & _ & _ & H & _).
  apply (H upload_path
           {| enc_vector := None; enc_base64 := None;
              enc_error := Some "Unsupported image format" |});
    [reflexivity | by vm_compute | reflexivity | reflexivity].
Defined.

(** The listing of the sample group, through the theorem. *)
Lemma listing_of_sample_group_by_columns :
  NoDup (columns related) ∧
  ∃ bullets : list string,
    items_list series_text related = Ok bullets ∧
    length bullets = length (rows related) ∧
    (∀ (k : nat) (r : list cell),
       rows related !! k = Some r →
       ∃ name price brand link : option cell,
         under (columns related) r "Item Name" name ∧
         under (columns related) r "Price" price ∧
         under (columns related) r "Brand" brand ∧
         under (columns related) r "Image URL" link ∧
         bullets !! k =
           Some ("* " +:+ py_str (default (Text "Unknown Item") name) +:+
                 optional_part " - Price: " "" price +:+
                 optional_part " - Brand: " "" brand +:+
                 optional_part " - [View Image](" ")" link)) ∧
    (∀ pre post : string,
       optional_part pre post None = "" ∧
       optional_part pre post (Some Nan) = "" ∧
       optional_part pre post (Some PyNone) = "" ∧
       ∀ s, optional_part pre post (Some (Text s)) = pre +:+ s +:+ post).
Proof.
  assert (NoDup (columns related)) as Hnodup by compute_done.
  split; [exact Hnodup|].
  apply (related_items_listing series_text related Hnodup).
Defined.

(** A backend that answers with the empty text gives the fallback report. *)
Lemma fallback_on_empty_reply :
  let report :=
    fallback_response (match_quality 0.875 config.SIMILARITY_THRESHOLD)
      0.875 blazer (join nl related_bullets) in
  fst (synthesize (post_reply "") related) = Ok report ∧
  Occurs "Elegant Blazer" report ∧
  Occurs "$299" report ∧
  Occurs "0.88" report ∧
  Occurs (join nl related_bullets) report.
Proof.
  apply (fallback_on_short_generation (post_reply "") series_text service
           None blazer related 0.875 config.SIMILARITY_THRESHOLD world0
           related_bullets "");
    [reflexivity | vm_compute; reflexivity | left; reflexivity].
Defined.

(** A backend that answers with a long text without a related-items
    section gets the listing appended. *)
Lemma listing_appended_to_long_reply :
  let report :=
    long_reply +:+ nl +:+ nl +:+ "## Related Items Found" +:+ nl +:+ nl +:+
    join nl related_bullets in
  fst (synthesize (post_reply long_reply) related) = Ok report ∧
  Occurs (join nl related_bullets) report.
Proof.
  destruct (listing_appended_when_missing (post_reply long_reply) series_text
              service None blazer related 0.875 config.SIMILARITY_THRESHOLD
              world0 related_bullets long_reply) as [H _].
  - reflexivity.
  - vm_compute. reflexivity.
  - discriminate.
  - apply Nat.leb_le. vm_compute. reflexivity.
  - apply H.
    + apply contains_false_iff. vm_compute. reflexivity.
    + apply contains_false_iff. vm_compute. reflexivity.
Defined.

(** C4, as the specification states it, fails on a generated text that
    is long enough, has no section header of any kind (no "#" at all),
    and mentions related items in a sentence: the text comes back as it
    is, and nothing of the listing is in it. *)
Lemma prose_mention_suppresses_listing :
  (100 ≤ len (strip prose_reply))%nat ∧
  ¬ Occurs "#" prose_reply ∧
  fst (synthesize (post_reply prose_reply) related) = Ok prose_reply ∧
  ¬ Occurs (join nl related_bullets) prose_reply ∧
  ¬ Occurs "Wool Trousers" prose_reply.
Proof.
  split_and!.
  - apply Nat.leb_le. vm_compute. reflexivity.
  - apply contains_false_iff. vm_compute. reflexivity.
  - vm_compute. reflexivity.
  - apply contains_false_iff. vm_compute. reflexivity.
  - apply contains_false_iff. vm_compute. reflexivity.
Qed.

(** C2, as the specification states it, fails when the request raises
    with a long message: the failure is a failure of the generation
    layer, and what comes back is the error text with the listing
    appended, not the fallback report. *)
Lemma generation_error_surfaced :
  generation_error (post_refused "" (payload_of service "" None)) = Some refused ∧
  fst (synthesize post_refused related) =
    Ok ("Error generating response: " +:+ refused +:+ nl +:+ nl +:+
        "## Related Items Found" +:+ nl +:+ nl +:+ join nl related_bullets) ∧
  fst (synthesize post_refused related) ≠
    Ok (fallback_response (match_quality 0.875 config.SIMILARITY_THRESHOLD)
          0.875 blazer (join nl related_bullets)).
Proof.
  split_and!.
  - reflexivity.
  - vm_compute. reflexivity.
  - vm_compute. discriminate.
Qed.

(** A backend that answers 500: the fallback report comes back. *)
Lemma status_500_recovered :
  ∃ report,
    fst (synthesize
           (λ _ _, Ok {| status_code := 500; text := "Internal Server Error";
                         json := Raise "Expecting value" |})
           related) = Ok report ∧
    report =
      fallback_response (match_quality 0.875 config.SIMILARITY_THRESHOLD)
        0.875 blazer (join nl related_bullets).
Proof.
  destruct (generation_failure_recovery
              (λ _ _, Ok {| status_code := 500; text := "Internal Server Error";
                            json := Raise "Expecting value" |})
              series_text service None blazer related 0.875
              config.SIMILARITY_THRESHOLD world0)
    as (report & Hrun & Hbuilt & _).
  exists report. split; [exact Hrun|].
  destruct (Hbuilt related_bullets eq_refl) as [_ Hstatus].
  apply (Hstatus {| status_code := 500; text := "Internal Server Error";
                    json := Raise "Expecting value" |});
    [reflexivity | discriminate | cbn; lia].
Defined.

(** The sample match scores 0.875, above the threshold: the request
    carries the framing of an excellent match, and so does the fallback
    report that an empty reply brings. *)
Lemma framing_of_sample_match :
  let prompt :=
    fashion_prompt "excellent match" "high confidence" 0.875 blazer
      (join nl related_bullets) in
  let fallback :=
    fallback_response "excellent match" 0.875 blazer
      (join nl related_bullets) in
  calls_of (trace (snd (synthesize (post_reply "") related))) =
    [CallPost "http://localhost:11434/api/generate" prompt] ∧
  Occurs "The user's image has been matched with excellent match in our database with high confidence"
    prompt ∧
  fst (synthesize (post_reply "") related) = Ok fallback ∧
  Occurs "I've identified a excellent match in our database" fallback.
Proof.
  destruct (framing_by_threshold (post_reply "") series_text service None
              blazer related 0.875 config.SIMILARITY_THRESHOLD world0
              related_bullets eq_refl)
    as (Hcalls & Hprompt & Hshort & Hfallback & _).
  split_and!.
  - exact Hcalls.
  - exact Hprompt.
  - apply Hshort. vm_compute. reflexivity.
  - exact Hfallback.
Defined.

(** C6. On a matched row without the 'Item Name' label (a dataset that
    has no such column) and an empty selection of related items, the
    specification asks for a one-row group that names the item "Fashion Item".
    Lines 115-121 would build that group (last part), but the run never
    gets there: line 108 reads [closest_row['Item Name']], the [KeyError]
    is caught by the handler, and the text returned is the error below,
    with the encoder and the matcher as the only collaborators called. *)
Theorem nameless_match_ends_in_error :
  nameless !! "Item Name" = None ∧
  fst (run_with encode_ok find_nameless (post_reply long_reply)
         (Single (PathStr upload_path)) world0) =
    Ok "Error processing image: 'Item Name'" ∧
  calls_of (trace (snd (run_with encode_ok find_nameless (post_reply long_reply)
                          (Single (PathStr upload_path)) world0))) =
    [CallEncode upload_path; CallFindMatch] ∧
  iterrows (single_item_frame nameless) =
    [ (0%nat,
       [ ("Item Name", Text "Fashion Item"); ("Brand", Text "Fashion House");
         ("Price", Text "$299"); ("Category", Text "Blazer");
         ("Image URL", Text "http://example.com/blazer.jpg") ]) ].
Proof. split_and!; vm_compute; reflexivity. Qed.

(** C9, as the specification states it, fails twice. When the encoder
    gives no vector the run ends before the cleanup and the temporary
    upload is still there. And
    when the removal itself fails (second world) the upload is still
    there while the events of the run are those of the run where the
    removal succeeds: nothing records the failure. *)
Lemma upload_left_and_failure_unlogged :
  is_temporary (Single (FileObj upload_path)) = true ∧
  upload_path ∈
    files (snd (run_with encode_none find_blazer post_refused
                  (Single (FileObj upload_path)) world0)) ∧
  upload_path ∈
    files (snd (run_with encode_ok find_blazer (post_reply long_reply)
                  (Single (FileObj upload_path)) world_locked)) ∧
  (upload_path ∉
     files (snd (run_with encode_ok find_blazer (post_reply long_reply)
                   (Single (FileObj upload_path)) world0))) ∧
  (trace (snd (run_with encode_ok find_blazer (post_reply long_reply)
                 (Single (FileObj upload_path)) world_locked)) =
   trace (snd (run_with encode_ok find_blazer (post_reply long_reply)
                 (Single (FileObj upload_path)) world0))).
Proof. split_and!; [reflexivity | compute_done.. | vm_compute; reflexivity]. Qed.

(** After a complete run on the sample upload, the upload is gone. *)
Lemma upload_removed_after_synthesis :
  upload_path ∉
    files (snd (run_with encode_ok find_blazer (post_reply long_reply)
                  (Single (FileObj upload_path)) world0)).
Proof.
  destruct (cleanup_after_synthesis_is_silent unit unit encode_ok find_blazer
              no_items keep_text (post_reply long_reply) series_text
              application (Single (FileObj upload_path)) world0) as [_ H].
  apply (H upload_path
           {| enc_vector := Some [0.25; 0.5]%float;
              enc_base64 := Some "aGVsbG8="; enc_error := None |}
           [0.25; 0.5]%float blazer 0.875%float (Text "Elegant Blazer") None);
    [reflexivity | reflexivity | compute_done | compute_done
    | reflexivity | reflexivity | reflexivity | reflexivity | reflexivity].
Defined.

(** C10, as the specification states it, fails on an existing file that
    does not unpickle, and on one that holds a list: construction fails
    although nothing was loaded as empty. *)
Lemma corrupt_dataset_fails_construction :
  resolves (Some "catalog.pkl") world0 = true ∧
  fst (app.__init__ unit unit new_processor corrupt_pickle list_empty
         tags_down names_repr (Some "catalog.pkl") world0) =
    Raise "invalid load key, 'x'." ∧
  ¬ (∃ df, corrupt_pickle "catalog.pkl" = Ok (Frame df) ∧ empty df = true) ∧
  fst (app.__init__ unit unit new_processor pickled_list list_empty
         tags_down names_repr (Some "catalog.pkl") world0) =
    Raise "'list' object has no attribute 'empty'" ∧
  ¬ (∃ df, pickled_list "catalog.pkl" = Ok (Frame df) ∧ empty df = true).
Proof.
  split_and!; try (vm_compute; reflexivity).
  - intros (df & Hdf & _). discriminate.
  - intros (df & Hdf & _). discriminate.
Qed.

(** A path that does not exist gives the warning and the dummy catalog. *)
Lemma missing_dataset_gives_dummy :
  let run :=
    app.load_dataset unit corrupt_pickle list_empty (Some "missing.pkl")
      world0 in
  let e := map (λ _ : nat, 0.5%float) (seq 0 1000) in
  fst run = Ok (Frame (dummy_dataset e e e)) ∧
  trace (snd run) =
    [Printed "Warning: Dataset file not found at missing.pkl. Creating dummy dataset for testing."] ∧
  drawn (snd run) = 3000%nat ∧
  length e = 1000%nat ∧
  length (rows (dummy_dataset e e e)) = 3%nat.
Proof.
  destruct (constructor_dataset_handling unit unit new_processor
              corrupt_pickle list_empty tags_down names_repr
              (Some "missing.pkl") world0) as [H _].
  destruct H as (Hrun & Htrace & Hdrawn & Hlen & _ & _ & Hrows);
    [vm_compute; reflexivity|].
  split_and!; [exact Hrun | exact Htrace | exact Hdrawn | exact Hlen
              | exact Hrows].
Defined.

End samples.

(** * Further properties of the code *)

(** ** Stripping and appending *)

Module strip_facts.
Import PyStr PyStrFacts.

Lemma rstrip_len_cons c s : (len (rstrip (String c s)) ≤ S (len (rstrip s)))%nat.
Proof.
  cbn [rstrip]. destruct (rstrip s); [destruct (isspace c)|]; cbn; lia.
Qed.

Lemma rstrip_nil_len s : len (rstrip s) = 0%nat → rstrip s = "".
Proof. by destruct (rstrip s). Qed.

(** Text put after [a] does not shorten what stripping on the right
    keeps of [a]. *)
Lemma rstrip_app_l a b : (len (rstrip a) ≤ len (rstrip (a +:+ b)))%nat.
Proof.
  induction a as [|c a IH]; [cbn; lia|].
  rewrite sapp_cons. cbn [rstrip].
  destruct (rstrip (a +:+ b)) as [|d r] eqn:Hab.
  - assert (rstrip a = "") as -> by (apply rstrip_nil_len; cbn in IH; lia).
    done.
  - pose proof (rstrip_len_cons c a) as Hc. cbn [rstrip] in Hc.
    cbn [len Stdlib.Strings.String.length] in *. lia.
Qed.

(** Text put before [b] does not shorten what stripping on the right
    keeps of [b]. *)
Lemma rstrip_app_r a b : (len (rstrip b) ≤ len (rstrip (a +:+ b)))%nat.
Proof.
  induction a as [|c a IH]; [done|].
  rewrite sapp_cons. cbn [rstrip].
  destruct (rstrip (a +:+ b)) as [|d r] eqn:Hab.
  - cbn in IH. lia.
  - cbn [len Stdlib.Strings.String.length] in *. lia.
Qed.

Lemma lstrip_app a b : lstrip a ≠ "" → lstrip (a +:+ b) = lstrip a +:+ b.
Proof.
  induction a as [|c a IH]; [done|].
  rewrite sapp_cons. cbn [lstrip]. destruct (isspace c); [done|].
  intros _. by rewrite sapp_cons.
Qed.

(** Appending text never shortens the stripped text. *)
Lemma strip_app_l a b : (len (strip a) ≤ len (strip (a +:+ b)))%nat.
Proof.
  unfold strip. destruct (lstrip a) as [|c s] eqn:Ha; [cbn; lia|].
  rewrite lstrip_app by (by rewrite Ha). rewrite Ha. apply rstrip_app_l.
Qed.

(** A text that starts with a character that is not white space keeps,
    stripped, at least what its end keeps. *)
Lemma strip_app_r c a b :
  isspace c = false →
  (len (rstrip b) ≤ len (strip (String c a +:+ b)))%nat.
Proof.
  intros Hc. unfold strip. rewrite sapp_cons. cbn [lstrip]. rewrite Hc.
  rewrite <- sapp_cons. apply rstrip_app_r.
Qed.

(** The last element of a joined list, with what precedes it. *)
Lemma join_snoc sep items x last :
  join sep ((x :: items) ++ [last]) = join sep (x :: items) +:+ sep +:+ last.
Proof.
  unfold join. revert x. induction items as [|y items IH]; intros x; [done|].
  change (Stdlib.Strings.String.concat sep ((x :: y :: items) ++ [last]))
    with (x +:+ sep +:+ Stdlib.Strings.String.concat sep ((y :: items) ++ [last])).
  rewrite IH.
  change (Stdlib.Strings.String.concat sep (x :: y :: items))
    with (x +:+ sep +:+ Stdlib.Strings.String.concat sep (y :: items)).
  by rewrite !sapp_assoc.
Qed.

End strip_facts.

(** ** [OllamaService]: requests, logs and repaired reports *)

Module llm_service_effects.
Import PyStr PyStrFacts strip_facts llm_service llm_service_facts.

(** *** Rows with a repeated label *)





Section Generation.

Variable requests_post : string → payload → result (response generate_body).
Variable series_str : nat → string → list cell → string.

(** *** [generate_response] *)

(** A run of [generate_response]: what it adds to the events. *)
Lemma generate_response_events self prompt image_base64 w :
  let out :=
    requests_post (base_url self +:+ "/api/generate")
      (payload_of self prompt image_base64) in
  ∃ evs,
    trace (snd (generate_response requests_post self prompt image_base64 w)) =
      trace w ++ evs ∧
    calls_of evs = [CallPost (base_url self +:+ "/api/generate") prompt] ∧
    ((∃ msg, Logged ERROR msg ∈ evs) ↔ is_Some (generation_error out)).
Proof.
  intros out. subst out.
  unfold generate_response, try_except, generation_error.
  unfold mbind, M_bind, mret, M_ret, logger, invoke, emit. cbn [snd fst trace].
  assert (∀ (t : list event) a b c, ((t ++ [a]) ++ [b]) ++ [c] = t ++ [a; b; c])
    as H3 by (intros; by rewrite <- !app_assoc).
  assert (∀ (t : list event) a b c d,
            (((t ++ [a]) ++ [b]) ++ [c]) ++ [d] = t ++ [a; b; c; d])
    as H4 by (intros; by rewrite <- !app_assoc).
  destruct (requests_post _ _) as [resp|e].
  - destruct (status_code resp =? 200).
    + destruct (json resp) as [body|e].
      * destruct (default false (body_done body) && _); cbn [snd fst trace];
          rewrite ?H4, ?H3; eexists; (split; [reflexivity|]);
          (split; [reflexivity|]);
          (split; [intros [msg Hin%list_elem_of_In]; exfalso; simpl in Hin;
                   intuition discriminate
                  | intros [? [=]]]).
      * cbn [snd fst trace]. rewrite H3. eexists.
        split; [reflexivity|]. split; [reflexivity|].
        split; [by eexists|]. intros _. eexists.
        apply list_elem_of_In. right. right. left. reflexivity.
    + cbn [snd fst trace]. rewrite H3. eexists.
      split; [reflexivity|]. split; [reflexivity|].
      split; [by eexists|]. intros _. eexists.
      apply list_elem_of_In. right. right. left. reflexivity.
  - cbn [snd fst trace]. rewrite H3. eexists.
    split; [reflexivity|]. split; [reflexivity|].
    split; [by eexists|]. intros _. eexists.
    apply list_elem_of_In. right. right. left. reflexivity.
Qed.

(** X1. [generate_response] never raises. With status 200 and a reply
    that decodes it returns the "response" entry, or the empty text when
    the reply has no such entry; with another status it returns "Error
    generating response: HTTP" and the status; when the request or the
    decoding raises it returns "Error generating response: " and the
    message of the exception. *)
Theorem generate_response_outcomes (self : OllamaService) (prompt : string)
    (image_base64 : option string) (w : world) :
  let out :=
    requests_post (base_url self +:+ "/api/generate")
      (payload_of self prompt image_base64) in
  let returned := fst (generate_response requests_post self prompt image_base64 w) in
  (∃ text, returned = Ok text) ∧
  (∀ resp body,
     out = Ok resp → status_code resp = 200 → json resp = Ok body →
     returned = Ok (default "" (body_response body))) ∧
  (∀ resp,
     out = Ok resp → status_code resp ≠ 200 →
     returned = Ok ("Error generating response: HTTP " +:+
                    of_int (status_code resp))) ∧
  (∀ resp e,
     out = Ok resp → status_code resp = 200 → json resp = Raise e →
     returned = Ok ("Error generating response: " +:+ e)) ∧
  (∀ e, out = Raise e → returned = Ok ("Error generating response: " +:+ e)).
Proof.
  intros out returned. subst returned.
  rewrite generate_response_returns. fold out. unfold response_text.
  split_and!.
  - by eexists.
  - intros resp body -> -> ->. reflexivity.
  - intros resp -> Hs. apply Z.eqb_neq in Hs. by rewrite Hs.
  - intros resp e -> -> ->. reflexivity.
  - intros e ->. reflexivity.
Qed.

(** X2. Whatever the outcome, [generate_response] sends exactly one
    request, to [base_url/api/generate] and with the prompt it was given:
    it does not retry. It logs at the ERROR level exactly when the
    generation layer failed, and it leaves the file system alone. *)
Theorem generate_response_single_request (self : OllamaService)
    (prompt : string) (image_base64 : option string) (w : world) :
  let out :=
    requests_post (base_url self +:+ "/api/generate")
      (payload_of self prompt image_base64) in
  let w' := snd (generate_response requests_post self prompt image_base64 w) in
  files w' = files w ∧ locked w' = locked w ∧
  ∃ evs,
    trace w' = trace w ++ evs ∧
    calls_of evs = [CallPost (base_url self +:+ "/api/generate") prompt] ∧
    ((∃ msg, Logged ERROR msg ∈ evs) ↔ is_Some (generation_error out)).
Proof.
  intros out w'. subst w'. split_and!.
  - assert (keeps_files
              (generate_response requests_post self prompt image_base64)) as H
      by (unfold generate_response; app_facts.effects).
    apply H.
  - assert (keeps_files
              (generate_response requests_post self prompt image_base64)) as H
      by (unfold generate_response; app_facts.effects).
    apply H.
  - apply generate_response_events.
Qed.

(** *** [generate_fashion_response] *)

Lemma join_head sep c x items :
  ∃ rest, join sep (String c x :: items) = String c rest.
Proof. destruct items; eexists; reflexivity. Qed.

(** The fallback report is long enough to be kept. *)
Lemma fallback_not_too_short mq score row items :
  too_short (fallback_response mq score row items) = false.
Proof.
  apply not_true_is_false. rewrite too_short_iff. unfold fallback_response.
  match goal with
  | |- context [join nl [?x0; ?x1; ?x2; ?x3; ?x4; ?x5; ?x6; ?x7; ?x8; ?x9;
                         ?x10; ?x11; ?x12; ?note]] =>
      change (join nl [x0; x1; x2; x3; x4; x5; x6; x7; x8; x9; x10; x11; x12; note])
        with (join nl ((x0 :: [x1; x2; x3; x4; x5; x6; x7; x8; x9; x10; x11; x12])
                       ++ [note]));
      rewrite join_snoc;
      destruct (join_head nl "#" "# Fashion Analysis Results"
                  [x1; x2; x3; x4; x5; x6; x7; x8; x9; x10; x11; x12])
        as [rest ->];
      pose proof (strip_app_r "#" rest (nl +:+ note) eq_refl) as Hlen;
      assert (len (rstrip (nl +:+ note)) = 111%nat) as Hnote
        by (vm_compute; reflexivity)
  end.
  intros [Hnil|Hshort]; [by rewrite sapp_cons in Hnil|].
  rewrite Hnote in Hlen. lia.
Qed.

(** What the synthesizer returns is never too short, and always carries
    a marker of the related-items section. *)
Lemma finish_not_too_short r score thr row items :
  too_short (finish r score thr row items) = false.
Proof.
  unfold finish. destruct (too_short r) eqn:Hr.
  - rewrite fallback_has_header. apply fallback_not_too_short.
  - destruct (lacks_related_items r); [|done].
    apply not_true_is_false. rewrite too_short_iff.
    apply not_true_iff_false in Hr. rewrite too_short_iff in Hr.
    unfold with_related_items.
    intros [Hnil|Hshort].
    + destruct r; [tauto | by rewrite sapp_cons in Hnil].
    + pose proof (strip_app_l r
                    (nl +:+ nl +:+ related_header +:+ nl +:+ nl +:+ items)).
      lia.
Qed.

Lemma with_related_items_has_header r items :
  lacks_related_items (with_related_items r items) = false.
Proof.
  unfold lacks_related_items. apply andb_false_iff. right.
  apply negb_false_iff, contains_iff.
  apply Occurs_trans with related_header; [by apply contains_iff|].
  unfold with_related_items. occurs.
Qed.

Lemma finish_has_marker r score thr row items :
  lacks_related_items (finish r score thr row items) = false.
Proof.
  unfold finish. destruct (too_short r).
  - by rewrite !fallback_has_header.
  - destruct (lacks_related_items r) eqn:Hr; [|done].
    apply with_related_items_has_header.
Qed.

Lemma finish_fixed x score thr row items :
  too_short x = false → lacks_related_items x = false →
  finish x score thr row items = x.
Proof. intros Hlong Hmark. unfold finish. by rewrite Hlong, Hmark. Qed.

(** X3. Once the listing is built, whatever the generation returns, the
    report of [generate_fashion_response] is not empty, keeps at least
    100 characters when stripped, and contains "RELATED ITEMS" or
    "Related Items". *)
Theorem report_is_long_and_has_related_items (self : OllamaService)
    (image : option string) (matched_row : Series)
    (all_items : DataFrame cell) (similarity_score threshold : float)
    (w : world) (bullets : list string) :
  items_list series_str all_items = Ok bullets →
  ∃ report,
    fst (generate_fashion_response requests_post series_str self image
           matched_row all_items similarity_score threshold w) = Ok report ∧
    report ≠ "" ∧
    (100 ≤ len (strip report))%nat ∧
    (Occurs "RELATED ITEMS" report ∨ Occurs "Related Items" report).
Proof.
  intros Hitems.
  eexists. split; [by apply generate_fashion_response_returns|].
  match goal with |- context [finish ?r _ _ _ _] => set (r0 := r) end.
  pose proof (finish_not_too_short r0 similarity_score threshold matched_row
                (join nl bullets)) as Hlong.
  pose proof (finish_has_marker r0 similarity_score threshold matched_row
                (join nl bullets)) as Hmark.
  apply not_true_iff_false in Hlong. rewrite too_short_iff in Hlong.
  unfold lacks_related_items in Hmark.
  apply andb_false_iff in Hmark. rewrite !negb_false_iff, !contains_iff in Hmark.
  split_and!; [tauto | lia | done].
Qed.

(** X4. The repair of lines 180-200 is idempotent: when the generation
    answers with a report that [generate_fashion_response] has produced
    for the same matched item, group, score and threshold, that report
    is returned unchanged. *)
Theorem repair_is_idempotent (self self' : OllamaService)
    (image image' : option string) (matched_row : Series)
    (all_items : DataFrame cell) (similarity_score threshold : float)
    (w w' : world)
    (requests_post' : string → payload → result (response generate_body))
    (bullets : list string) (report : string) :
  items_list series_str all_items = Ok bullets →
  fst (generate_fashion_response requests_post series_str self image
         matched_row all_items similarity_score threshold w) = Ok report →
  fst (generate_response requests_post' self'
         (prompt_of similarity_score threshold matched_row (join nl bullets))
         image' w') = Ok report →
  fst (generate_fashion_response requests_post' series_str self' image'
         matched_row all_items similarity_score threshold w') = Ok report.
Proof.
  intros Hitems.
  rewrite (generate_fashion_response_returns _ _ _ _ _ _ _ _ _ _ Hitems).
  intros [= <-] Hgen.
  rewrite (generate_fashion_response_run _ _ _ _ _ _ _ _ _ _ _ Hitems Hgen).
  f_equal.
  apply finish_fixed; [apply finish_not_too_short | apply finish_has_marker].
Qed.



(** X6. Once the listing is built, [generate_fashion_response] sends
    exactly one request and leaves the file system alone. The prompt of
    that request contains the listing of the related items, the name,
    brand, price and category of the matched row ("Unknown" for a label
    the row does not have) and the score with two decimals. *)
Theorem fashion_request_carries_the_match (self : OllamaService)
    (image : option string) (matched_row : Series)
    (all_items : DataFrame cell) (similarity_score threshold : float)
    (w : world) (bullets : list string) :
  items_list series_str all_items = Ok bullets →
  let prompt :=
    prompt_of similarity_score threshold matched_row (join nl bullets) in
  let w' :=
    snd (generate_fashion_response requests_post series_str self image
           matched_row all_items similarity_score threshold w) in
  files w' = files w ∧ locked w' = locked w ∧
  calls_of (trace w') =
    calls_of (trace w) ++ [CallPost (base_url self +:+ "/api/generate") prompt] ∧
  Occurs (join nl bullets) prompt ∧
  Occurs ("- Item Name: " +:+ py_str (get matched_row "Item Name" (Text "Unknown"))) prompt ∧
  Occurs ("- Brand: " +:+ py_str (get matched_row "Brand" (Text "Unknown"))) prompt ∧
  Occurs ("- Price: " +:+ py_str (get matched_row "Price" (Text "Unknown"))) prompt ∧
  Occurs ("- Category: " +:+ py_str (get matched_row "Category" (Text "Unknown"))) prompt ∧
  Occurs ("(similarity score: " +:+ PyFloat.format_2f similarity_score +:+ ")") prompt.
Proof.
  intros Hitems prompt w'. subst prompt w'.
  split_and!.
  - apply app_facts.keeps_generate_fashion_response.
  - apply app_facts.keeps_generate_fashion_response.
  - by apply generate_fashion_response_calls.
  - apply Occurs_join, list_elem_of_In. do 11 right. left. reflexivity.
  - apply Occurs_join, list_elem_of_In. do 5 right. left. reflexivity.
  - apply Occurs_join, list_elem_of_In. do 6 right. left. reflexivity.
  - apply Occurs_join, list_elem_of_In. do 7 right. left. reflexivity.
  - apply Occurs_join, list_elem_of_In. do 8 right. left. reflexivity.
  - eapply Occurs_trans;
      [|apply Occurs_join, list_elem_of_In; do 2 right; left; reflexivity].
    exists ("The user's image has been matched with " +:+
            match_quality similarity_score threshold +:+
            " in our database with " +:+
            confidence similarity_score threshold +:+ " "), ".".
    by rewrite !sapp_assoc.
Qed.

End Generation.

(** *** Construction of the service *)

Section Construction.

Variable requests_get : string → result (response tags_body).
Variable repr_names : list string → string.

Lemma test_connection_events self w :
  let url := base_url self +:+ "/api/tags" in
  ∃ evs,
    trace (snd (_test_connection requests_get repr_names self w)) =
      trace w ++ evs ∧
    calls_of evs = [CallGet url] ∧
    (Logged INFO ("Model " +:+ model_name self +:+ " is available") ∈ evs ↔
     ∃ resp body,
       requests_get url = Ok resp ∧ status_code resp = 200 ∧
       json resp = Ok body ∧
       model_name self ∈ map (default "") (default [] body)).
Proof.
  intros url. subst url.
  assert (∀ (t : list event) a b, (t ++ [a]) ++ [b] = t ++ [a; b])
    as H2 by (intros; by rewrite <- !app_assoc).
  assert (∀ (t : list event) a b c, ((t ++ [a]) ++ [b]) ++ [c] = t ++ [a; b; c])
    as H3 by (intros; by rewrite <- !app_assoc).
  unfold _test_connection, try_except.
  unfold mbind, M_bind, mret, M_ret, logger, invoke, emit. cbn [snd fst trace].
  destruct (requests_get _) as [resp|e].
  - destruct (_ =? 200) eqn:Hs.
    + apply Z.eqb_eq in Hs.
      destruct (json _) as [body|e] eqn:Hjson.
      * destruct (bool_decide _) eqn:Hin; cbn [snd fst trace]; rewrite H3;
          eexists; (split; [reflexivity|]); (split; [reflexivity|]).
        -- apply bool_decide_eq_true in Hin. split.
           ++ intros _. by exists resp, body.
           ++ intros _. apply list_elem_of_In. right. right. left. reflexivity.
        -- apply bool_decide_eq_false in Hin. split.
           ++ intros [?|[Hb|[?|[]]]]%list_elem_of_In; discriminate.
           ++ intros (resp' & body' & [= <-] & _ & Hj & Hm).
              pose proof (eq_trans (eq_sym Hjson) Hj) as [= <-]. done.
      * cbn [snd fst trace]. rewrite H3. eexists.
        split; [reflexivity|]. split; [reflexivity|]. split.
        -- intros [?|[Hb|[?|[]]]]%list_elem_of_In; discriminate.
        -- intros (resp' & body' & [= <-] & _ & Hj & _).
           pose proof (eq_trans (eq_sym Hjson) Hj) as [=].
    + apply Z.eqb_neq in Hs.
      cbn [snd fst trace]. rewrite H2. eexists.
      split; [reflexivity|]. split; [reflexivity|]. split.
      * intros [?|[?|[]]]%list_elem_of_In; discriminate.
      * intros (resp' & body' & [= <-] & ? & _). done.
  - cbn [snd fst trace]. rewrite H2. eexists.
    split; [reflexivity|]. split; [reflexivity|]. split.
    + intros [?|[?|[]]]%list_elem_of_In; discriminate.
    + intros (resp' & body' & [=] & _).
Qed.

Lemma keeps_test_connection self :
  keeps_files (_test_connection requests_get repr_names self).
Proof.
  unfold _test_connection. app_facts.effects.
Qed.

Lemma service_init_run (model url : string) (temp top : float) (tokens : Z)
    (w : world) :
  let out := __init__ requests_get repr_names model url temp top tokens w in
  fst out = Ok (mkService model url temp top tokens) ∧
  files (snd out) = files w ∧ locked (snd out) = locked w ∧
  ∃ evs,
    trace (snd out) = trace w ++ evs ∧
    calls_of evs = [CallGet (url +:+ "/api/tags")].
Proof.
  intros out. subst out. unfold __init__.
  unfold mbind, M_bind.
  pose proof (app_facts.test_connection_returns requests_get repr_names
                (mkService model url temp top tokens) w) as Hret.
  destruct (keeps_test_connection (mkService model url temp top tokens) w)
    as [Hf Hl].
  destruct (test_connection_events (mkService model url temp top tokens) w)
    as (evs & Htrace & Hcalls & _).
  destruct (_test_connection _ _ _ w) as [[[]|e] w1]; cbn [fst snd] in *;
    [|done].
  split_and!; [done..|]. by exists evs.
Qed.

(** X7. Constructing an [OllamaService] never fails, also when the
    backend cannot be reached or answers with an error: the service comes
    back with the five settings it was given, after exactly one request,
    a GET of [base_url/api/tags], and with the file system as it was. *)
Theorem service_construction_never_fails (model url : string)
    (temp top : float) (tokens : Z) (w : world) :
  let out := __init__ requests_get repr_names model url temp top tokens w in
  fst out = Ok (mkService model url temp top tokens) ∧
  files (snd out) = files w ∧ locked (snd out) = locked w ∧
  ∃ evs,
    trace (snd out) = trace w ++ evs ∧
    calls_of evs = [CallGet (url +:+ "/api/tags")].
Proof. apply service_init_run. Qed.

(** X8. The connection test logs "Model ... is available" exactly when
    the GET answers 200, the reply decodes, and the model name of the
    service is among the names listed (a model without a name counts as
    the empty name). *)
Theorem availability_is_logged_when_listed (self : OllamaService) (w : world) :
  let url := base_url self +:+ "/api/tags" in
  ∃ evs,
    trace (snd (_test_connection requests_get repr_names self w)) =
      trace w ++ evs ∧
    (Logged INFO ("Model " +:+ model_name self +:+ " is available") ∈ evs ↔
     ∃ resp body,
       requests_get url = Ok resp ∧ status_code resp = 200 ∧
       json resp = Ok body ∧
       model_name self ∈ map (default "") (default [] body)).
Proof.
  intros url.
  destruct (test_connection_events self w) as (evs & Htrace & _ & Hlog).
  by exists evs.
Qed.

End Construction.

End llm_service_effects.

(** ** [StyleFinderApp]: calls, files and exceptions *)

Module app_effects.
Import PyStr PyStrFacts llm_service llm_service_facts llm_service_effects app app_facts.

(** *** Runs that remove at most one path *)

Lemma removes_at_most_refl path w : removes_at_most path w w.
Proof. split; [done | by left]. Qed.

Lemma removes_at_most_trans path w1 w2 w3 :
  removes_at_most path w1 w2 → removes_at_most path w2 w3 →
  removes_at_most path w1 w3.
Proof.
  intros [Hl1 Hf1] [Hl2 Hf2]. split; [congruence|].
  destruct Hf1 as [Hf1|Hf1], Hf2 as [Hf2|Hf2]; rewrite Hf2, Hf1;
    [by left | by right | by right |].
  right. apply leibniz_equiv. intros x.
  rewrite !elem_of_difference. tauto.
Qed.

Lemma stays_keeps {A} path (m : M A) : keeps_files m → stays_within path m.
Proof. intros Hm w. destruct (Hm w) as [Hf Hl]. split; [done | by left]. Qed.

Lemma stays_bind {A B} path (m : M A) (k : A → M B) :
  stays_within path m → (∀ a, stays_within path (k a)) →
  stays_within path (m ≫= k).
Proof.
  intros Hm Hk w. specialize (Hm w). unfold mbind, M_bind.
  destruct (m w) as [[a|e] w1]; cbn [snd] in *; [|done].
  eapply removes_at_most_trans; [done | apply Hk].
Qed.

Lemma stays_try_except {A} path (body : M A) (handler : string → M A) :
  stays_within path body → (∀ e, stays_within path (handler e)) →
  stays_within path (try_except body handler).
Proof.
  intros Hm Hk w. specialize (Hm w). unfold try_except.
  destruct (body w) as [[a|e] w1]; cbn [snd] in *; [done|].
  eapply removes_at_most_trans; [done | apply Hk].
Qed.

Lemma stays_cleanup image path : stays_within path (cleanup image path).
Proof.
  intros w. unfold cleanup. destruct (is_temporary image);
    [|apply removes_at_most_refl].
  unfold try_except, unlink, emit. cbn [snd fst files locked].
  destruct (bool_decide (path ∈ files w)); [|split; [done | by left]].
  destruct (bool_decide (path ∈ locked w)); split; try done; [by left | by right].
Qed.

Lemma keeps_cleanup image path :
  is_temporary image = false → keeps_files (cleanup image path).
Proof. intros Htmp w. unfold cleanup. by rewrite Htmp. Qed.

Lemma cleanup_run image path w :
  fst (cleanup image path w) = Ok tt ∧
  trace (snd (cleanup image path w)) =
    trace w ++ (if is_temporary image then [Called (CallUnlink path)] else []).
Proof.
  unfold cleanup. destruct (is_temporary image);
    [|split; [done | by rewrite app_nil_r]].
  unfold try_except, unlink, emit. cbn [snd fst files locked trace].
  destruct (bool_decide (path ∈ files w)); [|done].
  by destruct (bool_decide (path ∈ locked w)).
Qed.

Section App.

Variable ImageProcessor : Type.
Variable PyObject : Type.
Variable new_image_processor :
  Z * Z → list float → list float → result ImageProcessor.
Variable encode_image : ImageProcessor → string → bool → result encoding.
Variable find_closest_match :
  ImageProcessor → vector → dataset PyObject →
  result (option Series * float).
Variable get_all_items_for_image :
  cell → dataset PyObject → result (option (DataFrame cell)).
Variable process_response : string → result string.
Variable read_pickle : string → result (dataset PyObject).
Variable attr_empty : PyObject → result bool.
Variable requests_post :
  string → payload → result (response generate_body).
Variable requests_get : string → result (response tags_body).
Variable repr_names : list string → string.
Variable series_str : nat → string → list cell → string.

Abbreviation App := (StyleFinderApp ImageProcessor PyObject).
Abbreviation process_image :=
  (process_image ImageProcessor PyObject encode_image find_closest_match
     get_all_items_for_image process_response requests_post series_str).
Abbreviation related_items :=
  (related_items ImageProcessor PyObject get_all_items_for_image).

(** *** The file system *)

Lemma stays_process_image (self : App) image path :
  image_path_of image = Some path →
  stays_within path (process_image self image).
Proof.
  intros Hpath. unfold app.process_image, process_image_body, getitem.
  rewrite Hpath.
  repeat first
    [ apply stays_try_except; [|intros ?]
    | apply stays_bind; [|intros ?]
    | apply stays_cleanup
    | apply stays_keeps;
        first [ apply keeps_related_items
              | apply keeps_generate_fashion_response
              | solve [effects] ]
    | match goal with
      | |- stays_within _ (if ?b then _ else _) => destruct b
      | |- stays_within _ (match ?x with _ => _ end) => destruct x
      end ].
Qed.

Lemma keeps_process_image (self : App) image :
  is_temporary image = false → keeps_files (process_image self image).
Proof.
  intros Htmp. unfold app.process_image, process_image_body, getitem.
  repeat first
    [ apply keeps_related_items
    | apply keeps_generate_fashion_response
    | apply keeps_cleanup; exact Htmp
    | effects_step
    | progress (unfold logger, print, raise, mret, M_ret) ].
Qed.

(** X9. [process_image] never adds a file and never changes which paths
    can be removed; the only path it can remove is the path of the image,
    and it removes nothing at all unless the input is a file object whose
    name starts with [/tmp/] (so never for a path string or a list). *)
Theorem process_image_removes_at_most_the_upload (self : App)
    (image : image_arg) (w : world) :
  let w' := snd (process_image self image w) in
  locked w' = locked w ∧
  files w' ⊆ files w ∧
  (∀ path, path ∈ files w → path ∉ files w' → image_path_of image = Some path) ∧
  (is_temporary image = false → files w' = files w).
Proof.
  intros w'. subst w'.
  destruct (image_path_of image) as [path|] eqn:Hpath.
  - destruct (stays_process_image self image path Hpath w) as [Hl Hf].
    split_and!; [done| | |intros Htmp; by apply keeps_process_image].
    + destruct Hf as [->| ->]; [done|]. intros x [? _]%elem_of_difference. done.
    + intros p Hin Hout. destruct Hf as [Hf|Hf]; rewrite Hf in Hout; [done|].
      destruct (decide (p = path)) as [->|Hne]; [done|].
      exfalso. apply Hout. apply elem_of_difference. split; [done|].
      by intros ->%elem_of_singleton.
  - assert (is_temporary image = false) as Htmp
      by (by destruct image as [[]|[|[]]|]).
    destruct (keeps_process_image self image Htmp w) as [Hf Hl].
    rewrite Hf. by split_and!.
Qed.

(** *** The calls of a complete run *)

Lemma related_items_run (self : App) (closest_row : Series) w selection :
  get_all_items_for_image (get closest_row "Image URL" (Text "")) (data _ _ self) =
    Ok selection →
  fst (related_items self closest_row w) =
    Ok (match selection with
        | Some df => if empty df then single_item_frame closest_row else df
        | None => single_item_frame closest_row
        end) ∧
  ∃ evs,
    trace (snd (related_items self closest_row w)) = trace w ++ evs ∧
    calls_of evs = [CallGetItems (get closest_row "Image URL" (Text ""))].
Proof.
  intros Hsel. unfold app.related_items. run. rewrite Hsel. unfold emit.
  destruct selection as [df|]; [destruct (empty df)|]; cbn [fst snd trace];
    (split; [reflexivity|]); rewrite <- ?app_assoc; eexists;
    (split; [reflexivity|]); reflexivity.
Qed.

(** X10. When every stage succeeds, [process_image] returns what
    [process_response] makes of the synthesized report, and the
    collaborators are called once each, in this order: the encoder on the
    path, the matcher, the lookup of the related items on the 'Image
    URL' of the match, the generation request, the removal of the upload
    when it is a temporary file object, and [process_response]. *)
Theorem process_image_complete_run (self : App) (image : image_arg)
    (w : world) (path : string) (enc : encoding) (vec : vector)
    (row : Series) (score : float) (name : cell)
    (selection : option (DataFrame cell)) (bullets : list string)
    (text : string) :
  let url := get row "Image URL" (Text "") in
  let items :=
    match selection with
    | Some df => if empty df then single_item_frame row else df
    | None => single_item_frame row
    end in
  let prompt :=
    prompt_of score config.SIMILARITY_THRESHOLD row (join nl bullets) in
  let report :=
    finish
      (response_text
         (requests_post (base_url (llm _ _ self) +:+ "/api/generate")
            (payload_of (llm _ _ self) prompt (enc_base64 enc))))
      score config.SIMILARITY_THRESHOLD row (join nl bullets) in
  image_path_of image = Some path → path ∈ files w →
  encode_image (image_processor _ _ self) path false = Ok enc →
  enc_vector enc = Some vec →
  find_closest_match (image_processor _ _ self) vec (data _ _ self) =
    Ok (Some row, score) →
  row !! "Item Name" = Some name →
  get_all_items_for_image url (data _ _ self) = Ok selection →
  items_list series_str items = Ok bullets →
  process_response report = Ok text →
  fst (process_image self image w) = Ok text ∧
  calls_of (trace (snd (process_image self image w))) =
    calls_of (trace w) ++
    [CallEncode path; CallFindMatch; CallGetItems url;
     CallPost (base_url (llm _ _ self) +:+ "/api/generate") prompt] ++
    (if is_temporary image then [CallUnlink path] else []) ++
    [CallProcessResponse report].
Proof.
  intros url items prompt report Hpath Hfile Henc Hvec Hfind Hname Hsel
    Hlist Hpr.
  unfold app.process_image, process_image_body, try_except.
  rewrite Hpath. run. rewrite bool_decide_true by done.
  cbn [negb]. rewrite Henc, Hvec. cbn [fst snd trace]. rewrite Hfind.
  unfold getitem. rewrite Hname. run.
  match goal with
  | |- context [app.related_items _ _ _ self row ?w3] =>
      destruct (related_items_run self row w3 selection Hsel)
        as (Hitems & evs3 & Htr3 & Hcalls3);
      destruct (app.related_items _ _ _ self row w3) as [ri w4]
  end.
  cbn [fst snd trace] in *. subst ri. fold items.
  pose proof (generate_fashion_response_returns requests_post series_str
                (llm _ _ self) (enc_base64 enc) row items score
                config.SIMILARITY_THRESHOLD w4 bullets Hlist) as Hgen.
  pose proof (generate_fashion_response_calls requests_post series_str
                (llm _ _ self) (enc_base64 enc) row items score
                config.SIMILARITY_THRESHOLD w4 bullets Hlist) as Hcalls4.
  destruct (generate_fashion_response _ _ _ _ _ _ _ _ w4) as [gr w5].
  cbn [fst snd] in *. subst gr. fold prompt in Hcalls4 |- *. fold report.
  destruct (cleanup_run image path w5) as [Hc Htr5].
  destruct (cleanup image path w5) as [c w6]. cbn [fst snd] in *. subst c.
  rewrite Hpr. cbn [fst snd trace]. split; [done|].
  rewrite !calls_of_app, Htr5, calls_of_app, Hcalls4, Htr3.
  rewrite !calls_of_app, Hcalls3.
  destruct (is_temporary image); cbn; by rewrite <- !app_assoc.
Qed.

(** *** Exceptions of the collaborators *)

(** X11. An exception raised by the encoder or by the matcher does not
    leave [process_image]: the run prints "Error in process_image: " with
    the message and a traceback as its last two events, and returns
    "Error processing image: " with the message. After an exception of
    the encoder the matcher is not called. *)
Theorem collaborator_exception_is_reported (self : App) (image : image_arg)
    (w : world) (path : string) (e : string) :
  image_path_of image = Some path → path ∈ files w →
  let out := process_image self image w in
  (encode_image (image_processor _ _ self) path false = Raise e →
   fst out = Ok ("Error processing image: " +:+ e) ∧
   trace (snd out) =
     trace w ++ [Printed ("Processing image: " +:+ path);
                 Called (CallEncode path);
                 Printed ("Error in process_image: " +:+ e);
                 Traceback e]) ∧
  (∀ enc vec,
     encode_image (image_processor _ _ self) path false = Ok enc →
     enc_vector enc = Some vec →
     find_closest_match (image_processor _ _ self) vec (data _ _ self) = Raise e →
     fst out = Ok ("Error processing image: " +:+ e) ∧
     calls_of (trace (snd out)) =
       calls_of (trace w) ++ [CallEncode path; CallFindMatch] ∧
     ∃ before,
       trace (snd out) =
         before ++ [Printed ("Error in process_image: " +:+ e); Traceback e]).
Proof.
  intros Hpath Hfile out. subst out. split.
  - intros Henc.
    unfold app.process_image, process_image_body, try_except.
    rewrite Hpath. run. rewrite bool_decide_true by done.
    cbn [negb]. rewrite Henc. unfold emit. cbn [fst snd trace].
    split; [done|]. by rewrite <- !app_assoc.
  - intros enc vec Henc Hvec Hfind.
    unfold app.process_image, process_image_body, try_except.
    rewrite Hpath. run. rewrite bool_decide_true by done.
    cbn [negb]. rewrite Henc, Hvec. cbn [fst snd trace]. rewrite Hfind.
    unfold emit. cbn [fst snd trace]. split_and!; [done| |].
    + rewrite !calls_of_app. cbn. by rewrite !app_nil_r, <- app_assoc.
    + eexists. by rewrite <- (app_assoc _ [_] [_]).
Qed.

(** X12. An exception raised by [process_response] comes after the
    cleanup: the caller gets "Error processing image: " with the message,
    and a temporary upload that could be removed is gone all the same. *)
Theorem late_exception_keeps_cleanup (self : App) (w : world)
    (name : string) (enc : encoding) (vec : vector) (row : Series)
    (score : float) (v : cell) (selection : option (DataFrame cell))
    (bullets : list string) (e : string) :
  let items :=
    match selection with
    | Some df => if empty df then single_item_frame row else df
    | None => single_item_frame row
    end in
  let prompt :=
    prompt_of score config.SIMILARITY_THRESHOLD row (join nl bullets) in
  let report :=
    finish
      (response_text
         (requests_post (base_url (llm _ _ self) +:+ "/api/generate")
            (payload_of (llm _ _ self) prompt (enc_base64 enc))))
      score config.SIMILARITY_THRESHOLD row (join nl bullets) in
  startswith "/tmp/" name = true →
  name ∈ files w → name ∉ locked w →
  encode_image (image_processor _ _ self) name false = Ok enc →
  enc_vector enc = Some vec →
  find_closest_match (image_processor _ _ self) vec (data _ _ self) =
    Ok (Some row, score) →
  row !! "Item Name" = Some v →
  get_all_items_for_image (get row "Image URL" (Text "")) (data _ _ self) =
    Ok selection →
  items_list series_str items = Ok bullets →
  process_response report = Raise e →
  fst (process_image self (Single (FileObj name)) w) =
    Ok ("Error processing image: " +:+ e) ∧
  name ∉ files (snd (process_image self (Single (FileObj name)) w)).
Proof.
  intros items prompt report Htmp Hfile Hfree Henc Hvec Hfind Hname Hsel
    Hlist Hpr.
  split; [|by eapply temporary_file_removed].
  unfold app.process_image, process_image_body, try_except.
  cbn [image_path_of]. run. rewrite bool_decide_true by done.
  cbn [negb]. rewrite Henc, Hvec. cbn [fst snd trace]. rewrite Hfind.
  unfold getitem. rewrite Hname. run.
  match goal with
  | |- context [app.related_items _ _ _ self row ?w3] =>
      destruct (related_items_run self row w3 selection Hsel) as (Hitems & _);
      destruct (app.related_items _ _ _ self row w3) as [ri w4]
  end.
  cbn [fst snd] in *. subst ri. fold items.
  pose proof (generate_fashion_response_returns requests_post series_str
                (llm _ _ self) (enc_base64 enc) row items score
                config.SIMILARITY_THRESHOLD w4 bullets Hlist) as Hgen.
  destruct (generate_fashion_response _ _ _ _ _ _ _ _ w4) as [gr w5].
  cbn [fst snd] in *. subst gr. fold prompt. fold report.
  destruct (cleanup_run (Single (FileObj name)) name w5) as [Hc _].
  destruct (cleanup _ name w5) as [c w6]. cbn [fst snd] in *. subst c.
  rewrite Hpr. reflexivity.
Qed.

(** *** The shapes of the input *)

Lemma agree2_same {A} (m : M A) : agree2 eq eq m m.
Proof. by intros w1 w2 ->. Qed.

Lemma agree2_bind {A B} (R R1 R2 : world → world → Prop) (m1 m2 : M A)
    (k1 k2 : A → M B) :
  agree2 R R1 m1 m2 → (∀ a, agree2 R1 R2 (k1 a) (k2 a)) →
  (∀ w1 w2, R1 w1 w2 → R2 w1 w2) →
  agree2 R R2 (m1 ≫= k1) (m2 ≫= k2).
Proof.
  intros Hm Hk Hsub w1 w2 HR. specialize (Hm w1 w2 HR).
  unfold mbind, M_bind.
  destruct (m1 w1) as [[a1|e1] u1], (m2 w2) as [[a2|e2] u2];
    cbn [fst snd] in Hm; destruct Hm as [[=] Hu]; subst.
  - by apply Hk.
  - split; [done | by apply Hsub].
Qed.

Lemma agree2_try_except {A} (R R1 R2 : world → world → Prop)
    (body1 body2 : M A) (handler : string → M A) :
  agree2 R R1 body1 body2 → (∀ e, agree2 R1 R2 (handler e) (handler e)) →
  (∀ w1 w2, R1 w1 w2 → R2 w1 w2) →
  agree2 R R2 (try_except body1 handler) (try_except body2 handler).
Proof.
  intros Hm Hk Hsub w1 w2 HR. specialize (Hm w1 w2 HR).
  unfold try_except.
  destruct (body1 w1) as [[a1|e1] u1], (body2 w2) as [[a2|e2] u2];
    cbn [fst snd] in Hm; destruct Hm as [[=] Hu]; subst.
  - split; [done | by apply Hsub].
  - by apply Hk.
Qed.

Lemma agree2_weaken {A} (R R1 R2 : world → world → Prop) (m1 m2 : M A) :
  agree2 R R1 m1 m2 → (∀ w1 w2, R1 w1 w2 → R2 w1 w2) → agree2 R R2 m1 m2.
Proof. intros Hm Hsub w1 w2 HR. destruct (Hm w1 w2 HR). auto. Qed.

Lemma agree2_cleanup image1 image2 path :
  agree2 eq any_worlds (cleanup image1 path) (cleanup image2 path).
Proof.
  intros w1 w2 _.
  destruct (cleanup_run image1 path w1) as [-> _].
  destruct (cleanup_run image2 path w2) as [-> _]. done.
Qed.

(** X13. The text [process_image] returns depends on the shape of the
    input only through the path: a file object, a path string and a list
    headed by either give the same text in the same world when their
    path is the same (the rest of a list is never looked at). *)
Theorem text_depends_only_on_the_path (self : App) (image1 image2 : image_arg)
    (w : world) :
  image_path_of image1 = image_path_of image2 →
  fst (process_image self image1 w) = fst (process_image self image2 w).
Proof.
  intros Hsame.
  enough (agree2 eq any_worlds (process_image self image1)
            (process_image self image2)) as H by (by apply H).
  unfold app.process_image.
  apply agree2_try_except with (R1 := any_worlds); [| |done].
  2: { intros e w1 w2 _. done. }
  unfold process_image_body. rewrite Hsame.
  repeat first
    [ apply agree2_bind with (R1 := any_worlds);
        [ apply agree2_cleanup | intros ? ? ? _; done | done ]
    | apply agree2_bind with (R1 := eq);
        [ apply agree2_same | intros ? | done ]
    | match goal with
      | |- agree2 _ _ (if ?b then _ else _) _ => destruct b
      | |- agree2 _ _ (match ?x with _ => _ end) _ => destruct x
      end
    | eapply agree2_weaken; [apply agree2_same | done] ].
Qed.

(** *** Construction *)

Abbreviation load_dataset := (app.load_dataset PyObject read_pickle attr_empty).
Abbreviation __init__ :=
  (app.__init__ ImageProcessor PyObject new_image_processor read_pickle
     attr_empty requests_get repr_names).

(** X14. The dataset stage reads the pickle exactly when the path
    resolves, and then draws no random sample; when the path does not
    resolve it reads nothing, prints one warning and draws exactly 3000
    samples. It never changes the file system. *)
Theorem dataset_stage_effects (dataset_path : option string) (w : world) :
  let w' := snd (load_dataset dataset_path w) in
  files w' = files w ∧ locked w' = locked w ∧
  (resolves dataset_path w = true →
   ∃ path, dataset_path = Some path ∧
           trace w' = trace w ++ [Called (CallReadPickle path)] ∧
           drawn w' = drawn w) ∧
  (resolves dataset_path w = false →
   trace w' =
     trace w ++ [Printed ("Warning: Dataset file not found at " +:+
                          default "None" dataset_path +:+
                          ". Creating dummy dataset for testing.")] ∧
   drawn w' = (drawn w + 3000)%nat).
Proof.
  intros w'. subst w'.
  destruct (resolves dataset_path w) eqn:Hres.
  - destruct dataset_path as [path|]; [|done].
    rewrite load_dataset_resolved by done.
    unfold load_existing, data_empty. run. unfold emit.
    destruct (read_pickle path) as [[df|o]|e];
      [destruct (empty df)|destruct (attr_empty o) as [[]|e]|];
      cbn [fst snd files locked trace drawn]; split_and!; try done;
      intros _; by exists path.
  - rewrite load_dataset_unresolved by done.
    rewrite create_dummy_run. cbn [snd files locked trace drawn].
    by split_and!.
Qed.

(** X15. The constructor contacts the backend last and at most once:
    when the dataset stage or the construction of the image processor
    raises, nothing happens after the dataset stage; when construction
    succeeds, the dataset stage is followed by exactly one call, the GET
    of the configured [OLLAMA_BASE_URL/api/tags], and the application
    holds the dataset of the dataset stage. *)
Theorem backend_is_contacted_last (dataset_path : option string) (w : world) :
  let staged := load_dataset dataset_path w in
  let out := __init__ dataset_path w in
  (∀ e, fst out = Raise e → snd out = snd staged) ∧
  (∀ application,
     fst out = Ok application →
     fst staged = Ok (data _ _ application) ∧
     ∃ evs,
       trace (snd out) = trace (snd staged) ++ evs ∧
       calls_of evs = [CallGet (config.OLLAMA_BASE_URL +:+ "/api/tags")]).
Proof.
  intros staged out. subst staged out. unfold app.__init__.
  unfold mbind, M_bind.
  destruct (app.load_dataset _ _ _ _ w) as [[d|e0] w1]; cbn [fst snd];
    [|split; [done | intros ? [=]]].
  destruct (new_image_processor _ _ _) as [ip|e0];
    [|split; [done | intros ? [=]]].
  destruct (service_init_run requests_get repr_names config.OLLAMA_MODEL_NAME
              config.OLLAMA_BASE_URL default_temperature default_top_p
              default_max_tokens w1) as (Hret & _ & _ & evs & Htr & Hcalls).
  destruct (llm_service.__init__ _ _ _ _ _ _ _ w1) as [[svc|e0] w2];
    cbn [fst snd] in *; [|done].
  split; [intros ? [=]|]. intros application [= <-]. cbn [data].
  split; [done|]. by exists evs.
Qed.

End App.

(** *** The listing of a match without related items *)

(** X16. The listing built for a match without related items (lines
    115-121, then 133-145) is one bullet with the name of the row. The
    defaults come out as text: a row without the 'Price', 'Brand' and
    'Image URL' labels is listed with "Price: N/A", "Brand: Unknown" and
    a link with an empty target. *)
Theorem lone_match_listing (series_str : nat → string → list cell → string)
    (closest_row : Series) :
  items_list series_str (single_item_frame closest_row) =
    Ok [ "* " +:+ py_str (get closest_row "Item Name" (Text "Fashion Item")) +:+
         optional_part " - Price: " ""
           (Some (get closest_row "Price" (Text "N/A"))) +:+
         optional_part " - Brand: " ""
           (Some (get closest_row "Brand" (Text "Unknown"))) +:+
         optional_part " - [View Image](" ")"
           (Some (get closest_row "Image URL" (Text ""))) ] ∧
  (closest_row !! "Price" = None → closest_row !! "Brand" = None →
   closest_row !! "Image URL" = None →
   items_list series_str (single_item_frame closest_row) =
     Ok [ "* " +:+ py_str (get closest_row "Item Name" (Text "Fashion Item")) +:+
          " - Price: N/A - Brand: Unknown - [View Image]()" ]).
Proof.
  assert (items_list series_str (single_item_frame closest_row) =
    Ok [ "* " +:+ py_str (get closest_row "Item Name" (Text "Fashion Item")) +:+
         optional_part " - Price: " ""
           (Some (get closest_row "Price" (Text "N/A"))) +:+
         optional_part " - Brand: " ""
           (Some (get closest_row "Brand" (Text "Unknown"))) +:+
         optional_part " - [View Image](" ")"
           (Some (get closest_row "Image URL" (Text ""))) ]) as Hgeneral.
  { unfold items_list. rewrite single_item_frame_row.
    cbn [fold_left fst snd mbind result_bind]. unfold item_info.
    change (entry_at _ "Item Name")
      with (Some (One (get closest_row "Item Name" (Text "Fashion Item")))).
    change (entry_at _ "Price")
      with (Some (One (get closest_row "Price" (Text "N/A")))).
    change (entry_at _ "Brand")
      with (Some (One (get closest_row "Brand" (Text "Unknown")))).
    change (entry_at _ "Image URL")
      with (Some (One (get closest_row "Image URL" (Text "")))).
    unfold optional_part.
    destruct (notna (get closest_row "Price" (Text "N/A"))),
      (notna (get closest_row "Brand" (Text "Unknown"))),
      (notna (get closest_row "Image URL" (Text "")));
      cbn [mbind result_bind app]; rewrite ?sapp_assoc, ?sapp_nil_r;
      reflexivity. }
  split; [done|]. intros Hp Hb Hu. rewrite Hgeneral.
  rewrite (get_default _ "Price"), (get_default _ "Brand"),
    (get_default _ "Image URL") by done.
  reflexivity.
Qed.

End app_effects.

(** ** test_ollama.py and setup_ollama.py *)

Module scripts_facts.
Import PyStr PyStrFacts llm_service scripts.

(** *** The actions of a run *)

Lemma requests_of_app h t : requests_of (h ++ t) = requests_of h ++ requests_of t.
Proof. apply List.filter_app. Qed.

Lemma commands_of_app h t : commands_of (h ++ t) = commands_of h ++ commands_of t.
Proof. apply List.filter_app. Qed.

Lemma sleeps_of_app h t : sleeps_of (h ++ t) = sleeps_of h ++ sleeps_of t.
Proof. apply List.filter_app. Qed.

Lemma requests_in_app h t :
  requests_in (h ++ t) = (requests_in h + length (requests_of t))%nat.
Proof. unfold requests_in. by rewrite requests_of_app, length_app. Qed.

Lemma commands_in_app h t :
  commands_in (h ++ t) = (commands_in h + length (commands_of t))%nat.
Proof. unfold commands_in. by rewrite commands_of_app, length_app. Qed.

(** *** Composing runs *)

Lemma runs_ret {A} (a : A) h : runs (mret a) h a [] [].
Proof. exists []. by rewrite app_nil_r. Qed.

Lemma runs_print line h : runs (print line) h tt [] [].
Proof. by exists [Print line]. Qed.

Lemma runs_sleep seconds h : runs (sleep seconds) h tt [] [].
Proof. by exists [Sleep seconds]. Qed.

(** What follows a run that returns starts from actions with as many
    requests and commands more as the run has added. *)
Lemma runs_bind {A B} (m : S A) (k : A → S B) h a b rs cs rs' cs' :
  runs m h a rs cs →
  (∀ h', requests_in h' = (requests_in h + length rs)%nat →
         commands_in h' = (commands_in h + length cs)%nat →
         runs (k a) h' b rs' cs') →
  runs (m ≫= k) h b (rs ++ rs') (cs ++ cs').
Proof.
  intros (t & Hm & Hrs & Hcs) Hk.
  destruct (Hk (h ++ t)) as (t' & Hk' & Hrs' & Hcs').
  - by rewrite requests_in_app, Hrs.
  - by rewrite commands_in_app, Hcs.
  - exists (t ++ t'). unfold mbind, S_bind. rewrite Hm, Hk', app_assoc.
    by rewrite requests_of_app, commands_of_app, Hrs, Hcs, Hrs', Hcs'.
Qed.

Lemma raises_bind {A B} (m : S A) (k : A → S B) h e rs cs :
  raises m h e rs cs → raises (m ≫= k) h e rs cs.
Proof.
  intros (t & Hm & Hrs & Hcs). exists t. unfold mbind, S_bind. by rewrite Hm.
Qed.

Lemma runs_then_raises {A B} (m : S A) (k : A → S B) h a e rs cs rs' cs' :
  runs m h a rs cs →
  (∀ h', requests_in h' = (requests_in h + length rs)%nat →
         commands_in h' = (commands_in h + length cs)%nat →
         raises (k a) h' e rs' cs') →
  raises (m ≫= k) h e (rs ++ rs') (cs ++ cs').
Proof.
  intros (t & Hm & Hrs & Hcs) Hk.
  destruct (Hk (h ++ t)) as (t' & Hk' & Hrs' & Hcs').
  - by rewrite requests_in_app, Hrs.
  - by rewrite commands_in_app, Hcs.
  - exists (t ++ t'). unfold mbind, S_bind. rewrite Hm, Hk', app_assoc.
    by rewrite requests_of_app, commands_of_app, Hrs, Hcs, Hrs', Hcs'.
Qed.

(** A print before a run changes nothing of what the run sends and
    starts. *)
Lemma runs_after_print {A} line (m : S A) h a rs cs :
  (∀ h', requests_in h' = requests_in h → commands_in h' = commands_in h →
         runs m h' a rs cs) →
  runs (print line;; m) h a rs cs.
Proof.
  intros Hm.
  apply (runs_bind (print line) (λ _, m) h tt a [] [] rs cs);
    [apply runs_print|].
  intros h' Hr Hc. apply Hm; [by rewrite Hr, Nat.add_0_r | by rewrite Hc, Nat.add_0_r].
Qed.

Lemma runs_then_print {A} (m : S A) line h a rs cs :
  runs m h a rs cs → runs (x ← m; print line;; mret x) h a rs cs.
Proof.
  intros Hm.
  rewrite <- (app_nil_r rs), <- (app_nil_r cs).
  eapply runs_bind; [exact Hm|]. intros h' _ _.
  apply (runs_bind (print line) (λ _, mret a) h' tt a [] [] [] []);
    [apply runs_print | intros; apply runs_ret].
Qed.

(** *** White space *)

Lemma lstrip_keeps a c b :
  isspace c = false →
  ∃ d r, lstrip (a +:+ String c b) = String d r ∧ isspace d = false.
Proof.
  intros Hc. induction a as [|x a IH].
  - exists c, b. rewrite sapp_nil_l. cbn [lstrip]. by rewrite Hc.
  - rewrite sapp_cons. cbn [lstrip]. destruct (isspace x) eqn:Hx; [done|].
    by exists x, (a +:+ String c b).
Qed.

Lemma lstrip_found s d r :
  lstrip s = String d r → ∃ a, s = a +:+ String d r ∧ isspace d = false.
Proof.
  induction s as [|x s IH]; [done|]. cbn [lstrip].
  destruct (isspace x) eqn:Hx.
  - intros [a [-> Hd]]%IH. by exists (String x a).
  - intros [= <- <-]. by exists "".
Qed.

Lemma rstrip_keeps d r : isspace d = false → rstrip (String d r) ≠ "".
Proof. intros Hd. cbn [rstrip]. destruct (rstrip r); by rewrite ?Hd. Qed.

(** The test of lines 82 and 126 holds of the texts that have a
    character that is not white space. *)
Lemma has_content_iff s :
  has_content s = true ↔ ∃ a c b, s = a +:+ String c b ∧ isspace c = false.
Proof.
  unfold has_content, strip. split.
  - intros [_ Hlen%Nat.ltb_lt]%andb_prop.
    destruct (lstrip s) as [|d r] eqn:Hs; [cbn in Hlen; lia|].
    apply lstrip_found in Hs as [a [-> Hd]]. by exists a, d, r.
  - intros (a & c & b & -> & Hc).
    destruct (lstrip_keeps a c b Hc) as (d & r & -> & Hd).
    apply andb_true_intro. split.
    + destruct a; [by rewrite sapp_nil_l | by rewrite sapp_cons].
    + apply Nat.ltb_lt. pose proof (rstrip_keeps d r Hd).
      destruct (rstrip (String d r)); [done | cbn; lia].
Qed.

(** *** Running a script *)

Ltac srun :=
  unfold returned, falls_through, mbind, S_bind, mret, S_ret, try_catch,
    try_catch_class, print, sleep, act, requests_get, requests_post, run,
    popen, decoded;
  cbn beta iota.

Lemma requests_of_cons a t :
  requests_of (a :: t) = if is_request a then a :: requests_of t else requests_of t.
Proof. done. Qed.

Lemma commands_of_cons a t :
  commands_of (a :: t) = if is_command a then a :: commands_of t else commands_of t.
Proof. done. Qed.

Lemma sleeps_of_cons a t :
  sleeps_of (a :: t) = if is_sleep a then a :: sleeps_of t else sleeps_of t.
Proof. done. Qed.

(** Sorts the actions of a trace made of known actions and of traces
    whose requests, commands and sleeps are known. *)
Ltac tally :=
  repeat first
    [ rewrite requests_of_cons | rewrite commands_of_cons
    | rewrite sleeps_of_cons | rewrite requests_of_app
    | rewrite commands_of_app | rewrite sleeps_of_app ];
  change (requests_of []) with (@nil action);
  change (commands_of []) with (@nil action);
  change (sleeps_of []) with (@nil action);
  cbn [is_request is_command is_sleep].

(** Brings the number of requests and commands of the actions at hand
    back to those of [h]. *)
Ltac count :=
  rewrite <- ?app_assoc; cbn [app];
  rewrite ?requests_in_app, ?commands_in_app;
  repeat first
    [ rewrite requests_of_app | rewrite commands_of_app
    | rewrite requests_of_cons | rewrite commands_of_cons ];
  change (requests_of []) with (@nil action);
  change (commands_of []) with (@nil action);
  cbn [is_request is_command length app];
  rewrite ?Nat.add_0_r.

Ltac done_run :=
  rewrite <- ?app_assoc; cbn [app];
  eexists; split; [reflexivity|]; split; reflexivity.

Lemma generates_iff out : generates out = true ↔ generates_text out.
Proof.
  unfold generates, generates_text. split.
  - destruct out as [resp|e]; [|done].
    intros [Hs%Z.eqb_eq Hbody]%andb_prop.
    destruct (json resp) as [body|e] eqn:Hj; [|done].
    apply (proj1 (has_content_iff _)) in Hbody as (a & c & b & Hb & Hc).
    exists resp, body, a, c, b. split_and!; try done.
    destruct (body_response body) as [s|]; cbn in Hb; [by subst|].
    destruct a; [rewrite sapp_nil_l in Hb | rewrite sapp_cons in Hb]; done.
  - intros (resp & body & a & c & b & -> & Hs & Hj & Hb & Hc).
    rewrite Hs, Hj, Hb. cbn [Z.eqb Pos.eqb andb default].
    apply (proj2 (has_content_iff _)). by exists a, c, b.
Qed.

Section Tests.

Variable http_get : nat → string → outcome (response tags_body).
Variable http_post : nat → string → payload → outcome (response generate_body).
Variable repr_names : list string → string.

Lemma test_ollama_connection_run h :
  runs (test_ollama_connection http_get) h
    (is_up (http_get (requests_in h) tags_url)) [Get tags_url 10] [].
Proof.
  unfold runs, test_ollama_connection. srun. count.
  destruct (http_get _ _) as [resp|e]; cbn [is_up].
  - destruct (_ =? 200); done_run.
  - destruct (decide _); done_run.
Qed.

Lemma test_model_availability_run h :
  runs (test_model_availability http_get repr_names) h
    (lists_model (http_get (requests_in h) tags_url)) [Get tags_url 10] [].
Proof.
  unfold runs, test_model_availability. srun. count.
  destruct (http_get _ _) as [resp|e]; cbn [lists_model]; [|done_run].
  destruct (_ =? 200); cbn [andb]; [|done_run].
  destruct (json resp) as [body|e]; [|done_run].
  destruct (bool_decide _); done_run.
Qed.

Lemma test_model_generation_run h :
  let payload := test_payload "Hello! Please respond with a short greeting." 100 in
  runs (test_model_generation http_post) h
    (generates (http_post (requests_in h) generate_url payload))
    [Post generate_url payload 60] [].
Proof.
  intros payload. unfold runs, test_model_generation. srun. count.
  fold payload.
  destruct (http_post _ _ _) as [resp|e]; cbn [generates]; [|done_run].
  destruct (_ =? 200); cbn [andb]; [|done_run].
  destruct (json resp) as [body|e]; [|done_run].
  destruct (has_content _); done_run.
Qed.

Lemma test_fashion_prompt_run h :
  let payload :=
    test_payload "You are a fashion expert. Please provide a brief analysis of what makes a good fashion sense. Keep it under 100 words." 200 in
  runs (test_fashion_prompt http_post) h
    (generates (http_post (requests_in h) generate_url payload))
    [Post generate_url payload 60] [].
Proof.
  intros payload. unfold runs, test_fashion_prompt. srun. count.
  fold payload.
  destruct (http_post _ _ _) as [resp|e]; cbn [generates]; [|done_run].
  destruct (_ =? 200); cbn [andb]; [|done_run].
  destruct (json resp) as [body|e]; [|done_run].
  destruct (has_content _); done_run.
Qed.

End Tests.

(** *** The suite *)

(** One turn of the loop of [main]: the heading, the test, the verdict,
    and the rest of the tests. *)
Lemma run_tests_cons name (f : S bool) rest passed h b p rs cs rs' cs' :
  (∀ h1, requests_in h1 = requests_in h → commands_in h1 = commands_in h →
         runs f h1 b rs cs) →
  (∀ h2, requests_in h2 = (requests_in h + length rs)%nat →
         commands_in h2 = (commands_in h + length cs)%nat →
         runs (run_tests rest (if b then Datatypes.S passed else passed)) h2
           p rs' cs') →
  runs (run_tests ((name, f) :: rest) passed) h p (rs ++ rs') (cs ++ cs').
Proof.
  intros Hf Hrest. cbn [run_tests].
  apply runs_after_print. intros h0 Hr0 Hc0.
  apply runs_after_print. intros h1 Hr1 Hc1.
  eapply runs_bind; [apply Hf; congruence|].
  intros h2 Hr2 Hc2. destruct b; apply runs_after_print; intros h3 Hr3 Hc3;
    apply Hrest; congruence.
Qed.

Section Suite.

Variable http_get : nat → string → outcome (response tags_body).
Variable http_post : nat → string → payload → outcome (response generate_body).
Variable repr_names : list string → string.

(** X17. The test suite never raises and always runs its four tests,
    also after a failure: it sends exactly four requests, the two GETs of
    [/api/tags] and the two POSTs of [/api/generate], in this order, and
    starts no command. It returns [True] exactly when the first request
    is answered with status 200, the second with a list that has
    [llama3.2:3b], and the two generation requests each with status 200
    and a text that has a character other than white space. *)
Theorem test_suite_runs_every_test (h : list action) :
  let n := requests_in h in
  let greeting :=
    test_payload "Hello! Please respond with a short greeting." 100 in
  let analysis :=
    test_payload "You are a fashion expert. Please provide a brief analysis of what makes a good fashion sense. Keep it under 100 words." 200 in
  ∃ b : bool,
    runs (test_main http_get http_post repr_names) h b
      [Get tags_url 10; Get tags_url 10;
       Post generate_url greeting 60; Post generate_url analysis 60] [] ∧
    (b = true ↔
       is_up (http_get n tags_url) = true ∧
       lists_model (http_get (n + 1) tags_url) = true ∧
       generates_text (http_post (n + 2) generate_url greeting) ∧
       generates_text (http_post (n + 3) generate_url analysis)).
Proof.
  intros n greeting analysis.
  set (b1 := is_up (http_get n tags_url)).
  set (b2 := lists_model (http_get (n + 1) tags_url)).
  set (b3 := generates (http_post (n + 2) generate_url greeting)).
  set (b4 := generates (http_post (n + 3) generate_url analysis)).
  set (passed :=
         ((if b1 then 1 else 0) + (if b2 then 1 else 0) +
          (if b3 then 1 else 0) + (if b4 then 1 else 0))%nat).
  exists (passed =? 4)%nat. split.
  - unfold test_main.
    apply runs_after_print. intros h0 Hr0 Hc0.
    apply runs_after_print. intros h1 Hr1 Hc1.
    apply (runs_bind _ _ h1 passed _
             [Get tags_url 10; Get tags_url 10;
              Post generate_url greeting 60; Post generate_url analysis 60]
             [] [] []).
    + unfold tests.
      apply (run_tests_cons _ _ _ _ _ b1 _ [Get tags_url 10] []
               [Get tags_url 10; Post generate_url greeting 60;
                Post generate_url analysis 60] []).
      { intros h2 Hr2 Hc2.
        replace b1 with (is_up (http_get (requests_in h2) tags_url))
          by (subst b1 n; congruence).
        apply test_ollama_connection_run. }
      intros h2 Hr2 Hc2.
      apply (run_tests_cons _ _ _ _ _ b2 _ [Get tags_url 10] []
               [Post generate_url greeting 60; Post generate_url analysis 60]
               []).
      { intros h3 Hr3 Hc3.
        replace b2 with (lists_model (http_get (requests_in h3) tags_url))
          by (subst b2 n; do 2 f_equal; cbn in *; lia).
        apply test_model_availability_run. }
      intros h3 Hr3 Hc3.
      apply (run_tests_cons _ _ _ _ _ b3 _ [Post generate_url greeting 60] []
               [Post generate_url analysis 60] []).
      { intros h4 Hr4 Hc4.
        replace b3
          with (generates (http_post (requests_in h4) generate_url greeting))
          by (subst b3 n; do 2 f_equal; cbn in *; lia).
        apply test_model_generation_run. }
      intros h4 Hr4 Hc4.
      apply (run_tests_cons _ _ _ _ _ b4 _ [Post generate_url analysis 60] []
               [] []).
      { intros h5 Hr5 Hc5.
        replace b4
          with (generates (http_post (requests_in h5) generate_url analysis))
          by (subst b4 n; do 2 f_equal; cbn in *; lia).
        apply test_fashion_prompt_run. }
      intros h5 Hr5 Hc5. cbn [run_tests].
      replace passed
        with (if b4 then Datatypes.S (if b3 then Datatypes.S (if b2 then Datatypes.S (if b1 then 1 else 0) else if b1 then 1 else 0) else if b2 then Datatypes.S (if b1 then 1 else 0) else if b1 then 1 else 0) else if b3 then Datatypes.S (if b2 then Datatypes.S (if b1 then 1 else 0) else if b1 then 1 else 0) else if b2 then Datatypes.S (if b1 then 1 else 0) else if b1 then 1 else 0)%nat
        by (subst passed; by destruct b1, b2, b3, b4).
      apply runs_ret.
    + intros h2 Hr2 Hc2.
      apply runs_after_print. intros h3 Hr3 Hc3.
      apply (runs_bind _ _ h3 tt _ [] [] [] []).
      * destruct (_ =? _)%nat.
        -- apply runs_after_print. intros h4 Hr4 Hc4. apply runs_print.
        -- apply runs_after_print. intros h4 Hr4 Hc4. apply runs_print.
      * intros h4 Hr4 Hc4. apply runs_ret.
  - pose proof (generates_iff (http_post (n + 2) generate_url greeting)) as H3.
    pose proof (generates_iff (http_post (n + 3) generate_url analysis)) as H4.
    fold b3 in H3. fold b4 in H4. rewrite <- H3, <- H4.
    subst passed. destruct b1, b2, b3, b4; cbn; intuition discriminate.
Qed.

End Suite.

(** *** setup_ollama.py *)

Section Setup.

Variable http_get : nat → string → outcome (response tags_body).
Variable subprocess_run : nat → list string → bool → outcome completed.
Variable subprocess_popen : nat → list string → outcome unit.
Variable system : string.

Lemma check_ollama_installed_up h :
  is_up (http_get (requests_in h) tags_url) = true →
  runs (check_ollama_installed http_get subprocess_run) h true
    [Get tags_url 5] [].
Proof.
  intros Hup. unfold runs, check_ollama_installed. srun.
  destruct (http_get _ _) as [resp|e]; [|done]. cbn [is_up] in Hup.
  rewrite Hup. done_run.
Qed.

Lemma check_ollama_installed_down h :
  is_up (http_get (requests_in h) tags_url) = false →
  (∀ e, subprocess_run (commands_in h) ["ollama"; "--version"] false = Raises e →
        exn_kind e = FileNotFoundError) →
  runs (check_ollama_installed http_get subprocess_run) h false
    [Get tags_url 5] [Run ["ollama"; "--version"] false].
Proof.
  intros Hup Hrun. unfold runs, check_ollama_installed. srun.
  assert (commands_in (h ++ [Get tags_url 5]) = commands_in h) as Hc
    by (by count).
  destruct (http_get _ _) as [resp|e]; cbn [is_up] in Hup;
    rewrite ?Hup, ?Hc; cbn beta iota.
  - destruct (subprocess_run _ _ _) as [result|e']; cbn beta iota.
    + destruct (returncode result =? 0); done_run.
    + rewrite decide_True by by apply Hrun. done_run.
  - destruct (subprocess_run _ _ _) as [result|e']; cbn beta iota.
    + destruct (returncode result =? 0); done_run.
    + rewrite decide_True by by apply Hrun. done_run.
Qed.

Lemma check_ollama_installed_raises h e :
  is_up (http_get (requests_in h) tags_url) = false →
  subprocess_run (commands_in h) ["ollama"; "--version"] false = Raises e →
  exn_kind e ≠ FileNotFoundError →
  raises (check_ollama_installed http_get subprocess_run) h e
    [Get tags_url 5] [Run ["ollama"; "--version"] false].
Proof.
  intros Hup Hrun He. unfold raises, check_ollama_installed. srun.
  assert (commands_in (h ++ [Get tags_url 5]) = commands_in h) as Hc
    by (by count).
  destruct (http_get _ _) as [resp|e0]; cbn [is_up] in Hup;
    rewrite ?Hup; cbn beta iota; rewrite Hc, Hrun; cbn beta iota;
    rewrite decide_False by done; done_run.
Qed.

(** X18. [check_ollama_installed] sends one request, and returns [True]
    exactly when it is answered with status 200; no command is started
    then. Otherwise it runs [ollama --version] once and returns [False]
    whatever the exit status, also when the command is not found; any
    other exception of the command leaves the function. *)
Theorem check_ollama_installed_outcomes (h : list action) :
  let answer := http_get (requests_in h) tags_url in
  let version := subprocess_run (commands_in h) ["ollama"; "--version"] false in
  let check := check_ollama_installed http_get subprocess_run in
  (is_up answer = true → runs check h true [Get tags_url 5] []) ∧
  (is_up answer = false →
     (∀ e, version = Raises e → exn_kind e = FileNotFoundError) →
     runs check h false [Get tags_url 5] [Run ["ollama"; "--version"] false]) ∧
  (is_up answer = false →
     ∀ e, version = Raises e → exn_kind e ≠ FileNotFoundError →
     raises check h e [Get tags_url 5] [Run ["ollama"; "--version"] false]).
Proof.
  intros answer version check. split_and!.
  - apply check_ollama_installed_up.
  - apply check_ollama_installed_down.
  - intros Hup e. by apply check_ollama_installed_raises.
Qed.

Lemma install_ollama_supported h result :
  system = "darwin" ∨ system = "linux" →
  subprocess_run (commands_in h) install_command true = Returns result →
  runs (install_ollama subprocess_run system) h true [] [Run install_command true].
Proof.
  intros Hsys Hrun. unfold runs, install_ollama. srun.
  assert (∀ l1 l2, commands_in ((h ++ [Print l1]) ++ [Print l2]) = commands_in h)
    as Hc by (intros; by count).
  destruct Hsys as [-> | ->]; cbn [Stdlib.Strings.String.eqb Ascii.eqb Bool.eqb];
    rewrite Hc, Hrun; done_run.
Qed.

Lemma install_ollama_raises h e :
  system = "darwin" ∨ system = "linux" →
  subprocess_run (commands_in h) install_command true = Raises e →
  raises (install_ollama subprocess_run system) h e [] [Run install_command true].
Proof.
  intros Hsys Hrun. unfold raises, install_ollama. srun.
  assert (∀ l1 l2, commands_in ((h ++ [Print l1]) ++ [Print l2]) = commands_in h)
    as Hc by (intros; by count).
  destruct Hsys as [-> | ->]; cbn [Stdlib.Strings.String.eqb Ascii.eqb Bool.eqb];
    rewrite Hc, Hrun; done_run.
Qed.

Lemma install_ollama_unsupported h :
  system ≠ "darwin" → system ≠ "linux" →
  runs (install_ollama subprocess_run system) h false [] [].
Proof.
  intros Hd Hl. unfold runs, install_ollama. srun.
  apply Stdlib.Strings.String.eqb_neq in Hd, Hl. rewrite Hd, Hl.
  destruct (Stdlib.Strings.String.eqb system "windows"); done_run.
Qed.

(** X19. On macOS and on Linux [install_ollama] runs the installer
    once, through the shell, and returns [True] whatever its exit status;
    an exception of the installer leaves the function. On any other
    system it starts no command and returns [False]. *)
Theorem install_ollama_outcomes (h : list action) :
  let installer := subprocess_run (commands_in h) install_command true in
  let install := install_ollama subprocess_run system in
  (system = "darwin" ∨ system = "linux" →
     (∀ result, installer = Returns result →
        runs install h true [] [Run install_command true]) ∧
     (∀ e, installer = Raises e →
        raises install h e [] [Run install_command true])) ∧
  (system ≠ "darwin" → system ≠ "linux" → runs install h false [] []).
Proof.
  intros installer install. split; [intros Hsys; split|].
  - intros result. by apply install_ollama_supported.
  - intros e. by apply install_ollama_raises.
  - apply install_ollama_unsupported.
Qed.

(** The run of [pull_model]. *)
Lemma pull_model_run (h : list action) :
  runs (pull_model subprocess_run) h
    (exits_zero (subprocess_run (commands_in h) ["ollama"; "pull"; "llama3.2:3b"] false))
    [] [Run ["ollama"; "pull"; "llama3.2:3b"] false].
Proof.
  unfold runs, pull_model. srun. count.
  destruct (subprocess_run _ _ _) as [result|e]; cbn [exits_zero]; [|done_run].
  destruct (_ =? 0); done_run.
Qed.

(** The run of [verify_setup]. *)
Lemma verify_setup_run (h : list action) :
  runs (verify_setup http_get) h
    (lists_model (http_get (requests_in h) tags_url)) [Get tags_url 5] [].
Proof.
  unfold runs, verify_setup. srun. count.
  destruct (http_get _ _) as [resp|e]; cbn [lists_model]; [|done_run].
  destruct (_ =? 200); cbn [andb]; [|done_run].
  destruct (json resp) as [body|e]; [|done_run].
  destruct (bool_decide _); done_run.
Qed.

(** X20. [pull_model] never raises: it runs [ollama pull llama3.2:3b]
    once, sends no request, and returns [True] exactly when the command
    exits with status 0. *)
Theorem pull_model_never_raises (h : list action) :
  ∃ b : bool,
    runs (pull_model subprocess_run) h b []
      [Run ["ollama"; "pull"; "llama3.2:3b"] false] ∧
    (b = true ↔
       ∃ result,
         subprocess_run (commands_in h) ["ollama"; "pull"; "llama3.2:3b"] false
           = Returns result ∧
         returncode result = 0).
Proof.
  eexists. split; [apply pull_model_run|].
  destruct (subprocess_run _ _ _) as [result|e]; cbn [exits_zero].
  - rewrite Z.eqb_eq. split; [by exists result | by intros (? & [= <-] & ?)].
  - split; [done | by intros (? & ? & ?)].
Qed.

(** X21. [verify_setup] never raises: it sends one request, starts no
    command, and returns [True] exactly when the answer has status 200,
    decodes, and lists [llama3.2:3b]. *)
Theorem verify_setup_never_raises (h : list action) :
  ∃ b : bool,
    runs (verify_setup http_get) h b [Get tags_url 5] [] ∧
    (b = true ↔
       ∃ resp body,
         http_get (requests_in h) tags_url = Returns resp ∧
         status_code resp = 200 ∧ json resp = Ok body ∧
         required_model ∈ model_names_of body).
Proof.
  eexists. split; [apply verify_setup_run|].
  destruct (http_get _ _) as [resp|e]; cbn [lists_model].
  - rewrite andb_true_iff, Z.eqb_eq. destruct (json resp) as [body|e] eqn:Hj.
    + rewrite bool_decide_eq_true. split.
      * intros [? ?]. by exists resp, body.
      * intros (? & ? & [= <-] & ? & Hb & ?). rewrite Hj in Hb.
        injection Hb as <-. done.
    + split; [by intros [_ ?]|].
      intros (? & ? & [= <-] & _ & Hb & _). by rewrite Hj in Hb.
  - split; [done | by intros (? & ? & ? & _)].
Qed.


(** One turn of the loop of [start_ollama] whose request is not answered
    with status 200. *)
Lemma wait_for_service_turn i n h :
  is_up (http_get (requests_in h) tags_url) = false →
  ∃ t, wait_for_service http_get i (Datatypes.S n) h =
         wait_for_service http_get (Datatypes.S i) n (h ++ t) ∧
       requests_of t = [Get tags_url 2] ∧ commands_of t = [] ∧
       sleeps_of t = [Sleep 1].
Proof.
  intros Hup. cbn [wait_for_service]. srun.
  destruct (http_get _ _) as [resp|e]; cbn [is_up] in Hup; rewrite ?Hup;
    cbn beta iota; destruct (i mod 5 =? 0)%nat; cbn beta iota;
    rewrite <- ?app_assoc; cbn [app]; eexists; (split; [reflexivity|done]).
Qed.

Lemma wait_for_service_down i n h :
  (∀ k, (k < n)%nat → is_up (http_get (requests_in h + k) tags_url) = false) →
  ∃ t, wait_for_service http_get i n h = (Returns None, h ++ t) ∧
       requests_of t = repeat (Get tags_url 2) n ∧ commands_of t = [] ∧
       sleeps_of t = repeat (Sleep 1) n.
Proof.
  revert i h. induction n as [|n IH]; intros i h Hdown.
  - exists []. by rewrite app_nil_r.
  - destruct (wait_for_service_turn i n h) as (t & -> & Hr & Hc & Hs).
    { rewrite <- (Nat.add_0_r (requests_in h)). apply Hdown. lia. }
    destruct (IH (Datatypes.S i) (h ++ t)) as (t' & -> & Hr' & Hc' & Hs').
    { intros k Hk. rewrite requests_in_app, Hr. cbn [length].
      replace (requests_in h + 1 + k)%nat with (requests_in h + Datatypes.S k)%nat
        by lia.
      apply Hdown. lia. }
    exists (t ++ t').
    rewrite app_assoc, requests_of_app, commands_of_app, sleeps_of_app.
    by rewrite Hr, Hc, Hs, Hr', Hc', Hs'.
Qed.

Lemma wait_for_service_up i n k h :
  (k < n)%nat →
  (∀ j, (j < k)%nat → is_up (http_get (requests_in h + j) tags_url) = false) →
  is_up (http_get (requests_in h + k) tags_url) = true →
  ∃ t, wait_for_service http_get i n h = (Returns (Some true), h ++ t) ∧
       requests_of t = repeat (Get tags_url 2) (Datatypes.S k) ∧
       commands_of t = [] ∧ sleeps_of t = repeat (Sleep 1) k.
Proof.
  revert i n h. induction k as [|k IH]; intros i n h Hk Hdown Hup.
  - destruct n as [|n]; [lia|]. rewrite Nat.add_0_r in Hup.
    cbn [wait_for_service]. srun.
    destruct (http_get _ _) as [resp|e]; [|done]. cbn [is_up] in Hup.
    rewrite Hup. cbn beta iota. rewrite <- ?app_assoc. cbn [app].
    eexists; (split; [reflexivity|done]).
  - destruct n as [|n]; [lia|].
    destruct (wait_for_service_turn i n h) as (t & -> & Hr & Hc & Hs).
    { rewrite <- (Nat.add_0_r (requests_in h)). apply Hdown. lia. }
    destruct (IH (Datatypes.S i) n (h ++ t)) as (t' & -> & Hr' & Hc' & Hs').
    + lia.
    + intros j Hj. rewrite requests_in_app, Hr. cbn [length].
      replace (requests_in h + 1 + j)%nat with (requests_in h + Datatypes.S j)%nat
        by lia.
      apply Hdown. lia.
    + rewrite requests_in_app, Hr. cbn [length].
      by replace (requests_in h + 1 + k)%nat
        with (requests_in h + Datatypes.S k)%nat by lia.
    + exists (t ++ t').
      rewrite app_assoc, requests_of_app, commands_of_app, sleeps_of_app.
      by rewrite Hr, Hc, Hs, Hr', Hc', Hs'.
Qed.

(** The polls up to the first that is answered with status 200, among
    the first [n]. *)
Lemma first_up (up : nat → bool) n :
  (∀ k, (k < n)%nat → up k = false) ∨
  (∃ k, (k < n)%nat ∧ (∀ j, (j < k)%nat → up j = false) ∧ up k = true).
Proof.
  induction n as [|n [IH | (k & Hk & Hdown & Hup)]].
  - left. lia.
  - destruct (up n) eqn:Hn.
    + right. exists n. split_and!; [lia | intros; apply IH; lia | done].
    + left. intros k Hk. destruct (decide (k = n)) as [-> | ?]; [done|].
      apply IH. lia.
  - right. exists k. split_and!; [lia | done | done].
Qed.

Lemma start_ollama_refused h e :
  subprocess_popen (commands_in h) ["ollama"; "serve"] = Raises e →
  runs (start_ollama http_get subprocess_popen) h false []
    [Popen ["ollama"; "serve"]].
Proof.
  intros Hserve. unfold runs, start_ollama. srun. count. rewrite Hserve.
  done_run.
Qed.

Lemma start_ollama_up h k :
  subprocess_popen (commands_in h) ["ollama"; "serve"] = Returns tt →
  (k < 30)%nat →
  (∀ j, (j < k)%nat → is_up (http_get (requests_in h + j) tags_url) = false) →
  is_up (http_get (requests_in h + k) tags_url) = true →
  ∃ t, start_ollama http_get subprocess_popen h = (Returns true, h ++ t) ∧
       requests_of t = repeat (Get tags_url 2) (Datatypes.S k) ∧
       commands_of t = [Popen ["ollama"; "serve"]] ∧
       sleeps_of t = repeat (Sleep 1) k.
Proof.
  intros Hserve Hk Hdown Hup. unfold start_ollama. srun. count.
  rewrite Hserve. cbn beta iota.
  match goal with |- context [wait_for_service _ _ _ ?h'] =>
    destruct (wait_for_service_up 0 30 k h') as (t & -> & Hr & Hc & Hs);
      [lia | | |]
  end.
  - intros j Hj. count. by apply Hdown.
  - by count.
  - cbn beta iota. rewrite <- ?app_assoc. cbn [app].
    eexists; split; [reflexivity|]. tally. by rewrite Hr, Hc, Hs.
Qed.

Lemma start_ollama_down h :
  subprocess_popen (commands_in h) ["ollama"; "serve"] = Returns tt →
  (∀ k, (k < 30)%nat → is_up (http_get (requests_in h + k) tags_url) = false) →
  ∃ t, start_ollama http_get subprocess_popen h = (Returns false, h ++ t) ∧
       requests_of t = repeat (Get tags_url 2) 30 ∧
       commands_of t = [Popen ["ollama"; "serve"]] ∧
       sleeps_of t = repeat (Sleep 1) 30.
Proof.
  intros Hserve Hdown. unfold start_ollama. srun. count.
  rewrite Hserve. cbn beta iota.
  match goal with |- context [wait_for_service _ _ _ ?h'] =>
    destruct (wait_for_service_down 0 30 h') as (t & -> & Hr & Hc & Hs)
  end.
  - intros j Hj. count. by apply Hdown.
  - cbn beta iota. rewrite <- ?app_assoc. cbn [app].
    eexists; split; [reflexivity|]. tally.
    by rewrite Hr, Hc, Hs, !app_nil_r.
Qed.

(** X22. [start_ollama] starts [ollama serve] once and never raises.
    When the command cannot be started it returns [False] without a
    request. Otherwise it polls [/api/tags] at most 30 times, with one
    sleep of a second after each poll that fails: it returns [True] at
    the first poll answered with status 200, and [False] after 30 polls
    and 30 sleeps when none is. *)
Theorem start_ollama_outcomes (h : list action) :
  let up k := is_up (http_get (requests_in h + k) tags_url) in
  let serve := subprocess_popen (commands_in h) ["ollama"; "serve"] in
  let start := start_ollama http_get subprocess_popen in
  (∀ e, serve = Raises e →
     runs start h false [] [Popen ["ollama"; "serve"]]) ∧
  (serve = Returns tt →
     (∀ k, (k < 30)%nat → (∀ j, (j < k)%nat → up j = false) → up k = true →
        ∃ t, start h = (Returns true, h ++ t) ∧
             requests_of t = repeat (Get tags_url 2) (Datatypes.S k) ∧
             commands_of t = [Popen ["ollama"; "serve"]] ∧
             sleeps_of t = repeat (Sleep 1) k) ∧
     ((∀ k, (k < 30)%nat → up k = false) →
        ∃ t, start h = (Returns false, h ++ t) ∧
             requests_of t = repeat (Get tags_url 2) 30 ∧
             commands_of t = [Popen ["ollama"; "serve"]] ∧
             sleeps_of t = repeat (Sleep 1) 30)).
Proof.
  intros up serve start. split; [|intros Hserve; split].
  - intros e. apply start_ollama_refused.
  - intros k. by apply start_ollama_up.
  - by apply start_ollama_down.
Qed.


Lemma start_ollama_total h :
  ∃ b rs, runs (start_ollama http_get subprocess_popen) h b rs
            [Popen ["ollama"; "serve"]].
Proof.
  destruct (subprocess_popen (commands_in h) ["ollama"; "serve"])
    as [[]|e] eqn:Hserve.
  - destruct (first_up (λ k, is_up (http_get (requests_in h + k) tags_url)) 30)
      as [Hdown | (k & Hk & Hdown & Hup)].
    + destruct (start_ollama_down h Hserve Hdown) as (t & Ht & Hr & Hc & _).
      exists false, (repeat (Get tags_url 2) 30), t. done.
    + destruct (start_ollama_up h k Hserve Hk Hdown Hup)
        as (t & Ht & Hr & Hc & _).
      exists true, (repeat (Get tags_url 2) (Datatypes.S k)), t. done.
  - exists false, []. by eapply start_ollama_refused.
Qed.



Lemma setup_when_running_falls h :
  is_up (http_get (requests_in h) tags_url) = false ∨
  (∃ resp e, http_get (requests_in h) tags_url = Returns resp ∧
             json resp = Raise e) →
  runs (setup_when_running http_get subprocess_run) h None [Get tags_url 5] [].
Proof.
  unfold runs, setup_when_running. srun. intros [Hup | (resp & e & -> & Hj)].
  - destruct (http_get _ _) as [resp|e]; [|done_run]. cbn [is_up] in Hup.
    rewrite Hup. done_run.
  - cbn beta iota. rewrite Hj. destruct (_ =? 200); done_run.
Qed.

(** What follows the start of the service: the pull and, after a pull
    that succeeds, the verification. *)
Lemma setup_from_scratch_restart h :
  is_up (http_get (requests_in h) tags_url) = true →
  ∃ rs cs,
    runs (setup_from_scratch http_get subprocess_run subprocess_popen system)
      h tt (Get tags_url 5 :: rs) (Popen ["ollama"; "serve"] :: cs) ∧
    (cs = [] ∨ cs = [Run ["ollama"; "pull"; "llama3.2:3b"] false]).
Proof.
  intros Hup. unfold runs, setup_from_scratch.
  destruct (check_ollama_installed_up h Hup) as (t0 & Ht0 & Hr0 & Hc0).
  destruct (start_ollama_total (h ++ t0)) as (b & rs1 & t1 & Ht1 & Hr1 & Hc1).
  pose proof (pull_model_run ((h ++ t0) ++ t1)) as (t2 & Ht2 & Hr2 & Hc2).
  set (pulled := exits_zero _) in Ht2.
  srun. rewrite Ht0. cbn [negb]. rewrite Ht1. cbn beta iota.
  destruct b; cbn [negb].
  - rewrite Ht2. cbn beta iota. destruct pulled; cbn [negb].
    + match goal with |- context [verify_setup _ ?h'] =>
        destruct (verify_setup_run h') as (t3 & -> & Hr3 & Hc3)
      end.
      cbn beta iota.
      exists (rs1 ++ [Get tags_url 5]),
        [Run ["ollama"; "pull"; "llama3.2:3b"] false].
      split; [|by right].
      destruct (lists_model _); rewrite <- ?app_assoc;
        (eexists; split; [reflexivity|]); tally;
        by rewrite Hr0, Hc0, Hr1, Hc1, Hr2, Hc2, Hr3, Hc3.
    + exists rs1, [Run ["ollama"; "pull"; "llama3.2:3b"] false].
      split; [|by right]. rewrite <- ?app_assoc.
      (eexists; split; [reflexivity|]); tally.
      by rewrite Hr0, Hc0, Hr1, Hc1, Hr2, Hc2, !app_nil_r.
  - exists rs1, []. split; [|by left]. rewrite <- ?app_assoc.
    (eexists; split; [reflexivity|]); tally.
    by rewrite Hr0, Hc0, Hr1, Hc1, !app_nil_r.
Qed.

Lemma setup_from_scratch_unsupported h :
  system ≠ "darwin" → system ≠ "linux" →
  is_up (http_get (requests_in h) tags_url) = false →
  (∀ e, subprocess_run (commands_in h) ["ollama"; "--version"] false = Raises e →
        exn_kind e = FileNotFoundError) →
  runs (setup_from_scratch http_get subprocess_run subprocess_popen system)
    h tt [Get tags_url 5] [Run ["ollama"; "--version"] false].
Proof.
  intros Hd Hl Hup Hrun. unfold runs, setup_from_scratch.
  destruct (check_ollama_installed_down h Hup Hrun) as (t0 & Ht0 & Hr0 & Hc0).
  destruct (install_ollama_unsupported (h ++ t0) Hd Hl) as (t1 & Ht1 & Hr1 & Hc1).
  srun. rewrite Ht0. cbn beta iota. cbn [negb]. rewrite Ht1. cbn beta iota.
  cbn [negb]. rewrite <- ?app_assoc. (eexists; split; [reflexivity|]). tally.
  by rewrite Hr0, Hc0, Hr1, Hc1.
Qed.

Lemma setup_from_scratch_complete h k result :
  let n := requests_in h in
  let c := commands_in h in
  system = "darwin" ∨ system = "linux" →
  is_up (http_get n tags_url) = false →
  (∀ e, subprocess_run c ["ollama"; "--version"] false = Raises e →
        exn_kind e = FileNotFoundError) →
  subprocess_run (c + 1) install_command true = Returns result →
  subprocess_popen (c + 2) ["ollama"; "serve"] = Returns tt →
  (k < 30)%nat →
  (∀ j, (j < k)%nat → is_up (http_get (n + 1 + j) tags_url) = false) →
  is_up (http_get (n + 1 + k) tags_url) = true →
  exits_zero (subprocess_run (c + 3) ["ollama"; "pull"; "llama3.2:3b"] false)
    = true →
  runs (setup_from_scratch http_get subprocess_run subprocess_popen system)
    h tt
    (Get tags_url 5 :: repeat (Get tags_url 2) (Datatypes.S k) ++ [Get tags_url 5])
    [Run ["ollama"; "--version"] false; Run install_command true;
     Popen ["ollama"; "serve"]; Run ["ollama"; "pull"; "llama3.2:3b"] false].
Proof.
  intros n c Hsys Hup Hversion Hinstall Hserve Hk Hdown Hfirst Hpull.
  unfold runs, setup_from_scratch.
  destruct (check_ollama_installed_down h Hup Hversion)
    as (t0 & Ht0 & Hr0 & Hc0).
  assert (requests_in (h ++ t0) = (n + 1)%nat) as Hn0
    by (by rewrite requests_in_app, Hr0).
  assert (commands_in (h ++ t0) = (c + 1)%nat) as Hk0
    by (by rewrite commands_in_app, Hc0).
  destruct (install_ollama_supported (h ++ t0) result Hsys)
    as (t1 & Ht1 & Hr1 & Hc1); [by rewrite Hk0|].
  assert (requests_in ((h ++ t0) ++ t1) = (n + 1)%nat) as Hn1
    by (by rewrite requests_in_app, Hr1, Hn0, Nat.add_0_r).
  assert (commands_in ((h ++ t0) ++ t1) = (c + 2)%nat) as Hk1
    by (rewrite commands_in_app, Hc1, Hk0; cbn [length]; lia).
  destruct (start_ollama_up ((h ++ t0) ++ t1) k)
    as (t2 & Ht2 & Hr2 & Hc2 & _); rewrite ?Hn1, ?Hk1; try done.
  assert (commands_in (((h ++ t0) ++ t1) ++ t2) = (c + 3)%nat) as Hk2
    by (rewrite commands_in_app, Hc2, Hk1; cbn [length]; lia).
  pose proof (pull_model_run (((h ++ t0) ++ t1) ++ t2)) as (t3 & Ht3 & Hr3 & Hc3).
  rewrite Hk2, Hpull in Ht3.
  pose proof (verify_setup_run ((((h ++ t0) ++ t1) ++ t2) ++ t3))
    as (t4 & Ht4 & Hr4 & Hc4).
  srun. rewrite Ht0. cbn beta iota. cbn [negb]. rewrite Ht1. cbn beta iota.
  cbn [negb]. rewrite Ht2. cbn beta iota. cbn [negb]. rewrite Ht3.
  cbn beta iota. cbn [negb]. rewrite Ht4. cbn beta iota.
  destruct (lists_model _); rewrite <- ?app_assoc;
    (eexists; split; [reflexivity|]); tally;
    by rewrite Hr0, Hc0, Hr1, Hc1, Hr2, Hc2, Hr3, Hc3, Hr4, Hc4.
Qed.



(** X24. A service that answers the check of [main], fails the query
    of its models (no status 200, or a body that does not decode) and
    answers the second check is started again: [main] sends the three
    requests and then starts [ollama serve]; the only other command it
    may start is the pull. *)
Theorem running_service_is_started_again (h : list action) :
  let n := requests_in h in
  is_up (http_get n tags_url) = true →
  is_up (http_get (n + 1) tags_url) = false ∨
    (∃ resp e, http_get (n + 1) tags_url = Returns resp ∧ json resp = Raise e) →
  is_up (http_get (n + 2) tags_url) = true →
  ∃ rs cs,
    runs (setup_main http_get subprocess_run subprocess_popen system) h tt
      (Get tags_url 5 :: Get tags_url 5 :: Get tags_url 5 :: rs)
      (Popen ["ollama"; "serve"] :: cs) ∧
    (cs = [] ∨ cs = [Run ["ollama"; "pull"; "llama3.2:3b"] false]).
Proof.
  intros n Hup Hfails Hagain. unfold setup_main, runs. srun.
  destruct (check_ollama_installed_up
              ((h ++ [Print "🚀 Style Finder - Ollama Setup"]) ++
               [Print (repeat_str "=" 40)])) as (t0 & Ht0 & Hr0 & Hc0).
  { by count. }
  rewrite Ht0. cbn beta iota.
  match goal with |- context [setup_when_running _ _ ?h'] =>
    destruct (setup_when_running_falls h') as (t1 & Ht1 & Hr1 & Hc1);
      [|rewrite Ht1; cbn beta iota]
  end.
  { rewrite requests_in_app, Hr0. count. exact Hfails. }
  match goal with |- context [setup_from_scratch _ _ _ _ ?h'] =>
    destruct (setup_from_scratch_restart h')
      as (rs & cs & (t2 & Ht2 & Hr2 & Hc2) & Hcs); [|rewrite Ht2]
  end.
  { rewrite !requests_in_app, Hr0, Hr1. count. cbn [length].
    by replace (requests_in h + 1 + 1)%nat with (n + 2)%nat by (subst n; lia). }
  exists rs, cs. split; [|done]. rewrite <- ?app_assoc. cbn [app].
  (eexists; split; [reflexivity|]). tally.
  by rewrite Hr0, Hc0, Hr1, Hc1, Hr2, Hc2.
Qed.

(** The start of [main] when the service does not answer. *)
Lemma setup_main_not_running h rs cs :
  is_up (http_get (requests_in h) tags_url) = false →
  (∀ e, subprocess_run (commands_in h) ["ollama"; "--version"] false = Raises e →
        exn_kind e = FileNotFoundError) →
  (∀ h', requests_in h' = (requests_in h + 1)%nat →
         commands_in h' = (commands_in h + 1)%nat →
         runs (setup_from_scratch http_get subprocess_run subprocess_popen system)
           h' tt rs cs) →
  runs (setup_main http_get subprocess_run subprocess_popen system) h tt
    (Get tags_url 5 :: rs) (Run ["ollama"; "--version"] false :: cs).
Proof.
  intros Hup Hversion Hrest. unfold setup_main.
  apply runs_after_print. intros h0 Hr0 Hc0.
  apply runs_after_print. intros h1 Hr1 Hc1.
  apply (runs_bind _ _ h1 false tt [Get tags_url 5]
           [Run ["ollama"; "--version"] false] rs cs).
  { apply check_ollama_installed_down; by rewrite ?Hr1, ?Hr0, ?Hc1, ?Hc0. }
  intros h2 Hr2 Hc2.
  apply (runs_bind _ _ h2 None tt [] [] rs cs); [apply runs_ret|].
  intros h3 Hr3 Hc3. apply Hrest; cbn [length] in *; lia.
Qed.

(** X25. On a system that is neither macOS nor Linux, when the service
    does not answer and [ollama --version] raises nothing but a
    missing-file error, [main] returns after the two checks: it has run
    [ollama --version] twice and nothing else, so nothing is installed,
    started or pulled. *)
Theorem unsupported_system_stops_setup (h : list action) :
  let n := requests_in h in
  let c := commands_in h in
  system ≠ "darwin" → system ≠ "linux" →
  is_up (http_get n tags_url) = false →
  is_up (http_get (n + 1) tags_url) = false →
  (∀ i e, (i < 2)%nat →
     subprocess_run (c + i) ["ollama"; "--version"] false = Raises e →
     exn_kind e = FileNotFoundError) →
  runs (setup_main http_get subprocess_run subprocess_popen system) h tt
    [Get tags_url 5; Get tags_url 5]
    [Run ["ollama"; "--version"] false; Run ["ollama"; "--version"] false].
Proof.
  intros n c Hd Hl Hup0 Hup1 Hversion.
  apply setup_main_not_running; [done | |].
  { intros e. rewrite <- (Nat.add_0_r (commands_in h)). apply Hversion. lia. }
  intros h' Hr Hc. apply setup_from_scratch_unsupported; try done.
  - by rewrite Hr.
  - intros e. rewrite Hc. apply Hversion. lia.
Qed.

(** X26. The setup from scratch on macOS or Linux: when the service
    does not answer the two checks, [ollama --version] raises nothing
    but a missing-file error, the installer returns, [ollama serve]
    starts and answers at poll [k] of the 30, and the pull exits with
    status 0, [main] returns after these commands, in this order: the
    version twice, the installer (also when the version command has
    succeeded), the service, the pull; and after these requests: the two
    checks, the [k + 1] polls, and the verification. *)
Theorem setup_from_scratch_succeeds (h : list action) (k : nat)
    (result : completed) :
  let n := requests_in h in
  let c := commands_in h in
  system = "darwin" ∨ system = "linux" →
  is_up (http_get n tags_url) = false →
  is_up (http_get (n + 1) tags_url) = false →
  (∀ i e, (i < 2)%nat →
     subprocess_run (c + i) ["ollama"; "--version"] false = Raises e →
     exn_kind e = FileNotFoundError) →
  subprocess_run (c + 2) install_command true = Returns result →
  subprocess_popen (c + 3) ["ollama"; "serve"] = Returns tt →
  (k < 30)%nat →
  (∀ j, (j < k)%nat → is_up (http_get (n + 2 + j) tags_url) = false) →
  is_up (http_get (n + 2 + k) tags_url) = true →
  exits_zero (subprocess_run (c + 4) ["ollama"; "pull"; "llama3.2:3b"] false)
    = true →
  runs (setup_main http_get subprocess_run subprocess_popen system) h tt
    ([Get tags_url 5; Get tags_url 5] ++
     repeat (Get tags_url 2) (Datatypes.S k) ++ [Get tags_url 5])
    [Run ["ollama"; "--version"] false; Run ["ollama"; "--version"] false;
     Run install_command true; Popen ["ollama"; "serve"];
     Run ["ollama"; "pull"; "llama3.2:3b"] false].
Proof.
  intros n c Hsys Hup0 Hup1 Hversion Hinstall Hserve Hk Hdown Hfirst Hpull.
  apply setup_main_not_running; [done | |].
  { intros e. rewrite <- (Nat.add_0_r (commands_in h)). apply Hversion. lia. }
  intros h' Hr Hc.
  apply (setup_from_scratch_complete h' k result); rewrite ?Hr, ?Hc; try done.
  - intros e. apply Hversion. lia.
  - by replace (commands_in h + 1 + 1)%nat with (c + 2)%nat by (subst c; lia).
  - by replace (commands_in h + 1 + 2)%nat with (c + 3)%nat by (subst c; lia).
  - intros j Hj.
    replace (requests_in h + 1 + 1 + j)%nat with (n + 2 + j)%nat
      by (subst n; lia).
    by apply Hdown.
  - by replace (requests_in h + 1 + 1 + k)%nat with (n + 2 + k)%nat
      by (subst n; lia).
  - by replace (commands_in h + 1 + 3)%nat with (c + 4)%nat by (subst c; lia).
Qed.

End Setup.

End scripts_facts.

(** ** The further properties on the samples *)

Module samples_effects.
Import PyStr PyStrFacts llm_service llm_service_facts llm_service_effects.
Import app app_facts app_effects demo.

(** The report for the sample group, whatever the backend does: here it
    refuses the connection. *)
Lemma report_on_refused_connection :
  ∃ report,
    fst (generate_fashion_response post_refused series_text service None
           blazer related 0.875 config.SIMILARITY_THRESHOLD world0) =
      Ok report ∧
    report ≠ "" ∧
    (100 ≤ len (strip report))%nat ∧
    (Occurs "RELATED ITEMS" report ∨ Occurs "Related Items" report).
Proof.
  apply (report_is_long_and_has_related_items post_refused series_text service
           None blazer related 0.875 config.SIMILARITY_THRESHOLD world0
           related_bullets).
  reflexivity.
Defined.

(** The fallback report an empty reply brings, fed back as the reply of
    the backend, is returned as it is. *)
Lemma fallback_report_is_kept :
  let report :=
    fallback_response "excellent match" 0.875 blazer
      (join nl related_bullets) in
  fst (generate_fashion_response (post_reply report) series_text service None
         blazer related 0.875 config.SIMILARITY_THRESHOLD world0) = Ok report.
Proof.
  intros report.
  apply (repair_is_idempotent (post_reply "") series_text service service
           None None blazer related 0.875 config.SIMILARITY_THRESHOLD world0
           world0 (post_reply report) related_bullets report).
  - reflexivity.
  - vm_compute. reflexivity.
  - vm_compute. reflexivity.
Defined.


(** The one request for the sample match. *)
Lemma request_for_sample_match :
  let prompt :=
    prompt_of 0.875 config.SIMILARITY_THRESHOLD blazer
      (join nl related_bullets) in
  let w' :=
    snd (generate_fashion_response post_refused series_text service None
           blazer related 0.875 config.SIMILARITY_THRESHOLD world0) in
  calls_of (trace w') =
    [CallPost "http://localhost:11434/api/generate" prompt] ∧
  Occurs "- Item Name: Elegant Blazer" prompt ∧
  Occurs "- Price: $299" prompt ∧
  Occurs "(similarity score: 0.88)" prompt.
Proof.
  destruct (fashion_request_carries_the_match post_refused series_text
              service None blazer related 0.875 config.SIMILARITY_THRESHOLD
              world0 related_bullets eq_refl)
    as (_ & _ & Hcalls & _ & Hname & _ & Hprice & _ & Hscore).
  split_and!.
  - exact Hcalls.
  - exact Hname.
  - exact Hprice.
  - exact Hscore.
Defined.

(** A run on the sample upload where every stage succeeds: the text of
    the backend with the listing of the lone match appended, and the six
    calls in their order. *)
Lemma complete_run_on_sample :
  let bullets :=
    ["* Elegant Blazer - Price: $299 - Brand: Fashion House - [View Image](http://example.com/blazer.jpg)"] in
  let prompt :=
    prompt_of 0.875 config.SIMILARITY_THRESHOLD blazer (join nl bullets) in
  let report :=
    long_reply +:+ nl +:+ nl +:+ "## Related Items Found" +:+ nl +:+ nl +:+
    join nl bullets in
  let run :=
    app.process_image unit unit encode_ok find_blazer no_items keep_text
      (post_reply long_reply) series_text application
      (Single (FileObj upload_path)) world0 in
  fst run = Ok report ∧
  calls_of (trace (snd run)) =
    [CallEncode upload_path; CallFindMatch;
     CallGetItems (Text "http://example.com/blazer.jpg");
     CallPost "http://localhost:11434/api/generate" prompt;
     CallUnlink upload_path; CallProcessResponse report].
Proof.
  intros bullets prompt report run.
  apply (process_image_complete_run unit unit encode_ok find_blazer no_items
           keep_text (post_reply long_reply) series_text application
           (Single (FileObj upload_path)) world0 upload_path
           {| enc_vector := Some [0.25; 0.5]%float;
              enc_base64 := Some "aGVsbG8="; enc_error := None |}
           [0.25; 0.5]%float blazer 0.875 (Text "Elegant Blazer") None
           bullets report).
  - reflexivity.
  - by vm_compute.
  - reflexivity.
  - reflexivity.
  - reflexivity.
  - reflexivity.
  - reflexivity.
  - reflexivity.
  - vm_compute. reflexivity.
Defined.

(** An encoder that raises: the message reaches the caller and the
    traceback ends the trace. *)
Lemma encoder_exception_on_sample :
  let e := "cannot identify image file '/tmp/gradio/upload.jpg'" in
  let out :=
    app.process_image unit unit encode_fails find_blazer no_items keep_text
      post_refused series_text application (Single (PathStr upload_path))
      world0 in
  fst out = Ok ("Error processing image: " +:+ e) ∧
  trace (snd out) =
    [Printed ("Processing image: " +:+ upload_path);
     Called (CallEncode upload_path);
     Printed ("Error in process_image: " +:+ e); Traceback e].
Proof.
  intros e out.
  destruct (collaborator_exception_is_reported unit unit encode_fails
              find_blazer no_items keep_text post_refused series_text
              application (Single (PathStr upload_path)) world0 upload_path e)
    as [H _].
  - reflexivity.
  - by vm_compute.
  - apply H. reflexivity.
Defined.

(** A [process_response] that raises: the upload is removed all the
    same. *)
Lemma late_exception_on_sample :
  let out :=
    app.process_image unit unit encode_ok find_blazer no_items reject_text
      (post_reply long_reply) series_text application
      (Single (FileObj upload_path)) world0 in
  fst out = Ok "Error processing image: expected string or bytes-like object" ∧
  upload_path ∉ files (snd out).
Proof.
  apply (late_exception_keeps_cleanup unit unit encode_ok find_blazer no_items
           reject_text (post_reply long_reply) series_text application world0
           upload_path
           {| enc_vector := Some [0.25; 0.5]%float;
              enc_base64 := Some "aGVsbG8="; enc_error := None |}
           [0.25; 0.5]%float blazer 0.875 (Text "Elegant Blazer") None
           ["* Elegant Blazer - Price: $299 - Brand: Fashion House - [View Image](http://example.com/blazer.jpg)"]
           "expected string or bytes-like object").
  - reflexivity.
  - by vm_compute.
  - by vm_compute.
  - reflexivity.
  - reflexivity.
  - reflexivity.
  - reflexivity.
  - reflexivity.
  - reflexivity.
  - reflexivity.
Defined.

(** The upload as a file object and as the head of a list of paths. *)
Lemma same_text_for_object_and_list :
  fst (app.process_image unit unit encode_ok find_blazer no_items keep_text
         (post_reply long_reply) series_text application
         (Single (FileObj upload_path)) world0) =
  fst (app.process_image unit unit encode_ok find_blazer no_items keep_text
         (post_reply long_reply) series_text application
         (Several [PathStr upload_path; PathStr "missing.jpg"]) world0).
Proof.
  apply (text_depends_only_on_the_path unit unit encode_ok find_blazer
           no_items keep_text (post_reply long_reply) series_text application
           (Single (FileObj upload_path))
           (Several [PathStr upload_path; PathStr "missing.jpg"]) world0).
  reflexivity.
Defined.

End samples_effects.

(** ** The scripts on the sample hosts *)

Module samples_scripts.
Import llm_service scripts scripts_facts hosts.


(** A service that misses the query of its models is started again. *)
Lemma flaky_service_is_started_again :
  ∃ rs cs,
    runs (setup_main get_flaky run_ok popen_ok "linux") [] tt
      (Get tags_url 5 :: Get tags_url 5 :: Get tags_url 5 :: rs)
      (Popen ["ollama"; "serve"] :: cs) ∧
    (cs = [] ∨ cs = [Run ["ollama"; "pull"; "llama3.2:3b"] false]).
Proof.
  apply (running_service_is_started_again get_flaky run_ok popen_ok "linux" []).
  - reflexivity.
  - left. reflexivity.
  - reflexivity.
Defined.

(** On Windows without a service and without [ollama] the setup stops
    after the two checks. *)
Lemma setup_stops_on_windows :
  runs (setup_main get_down run_missing popen_ok "windows") [] tt
    [Get tags_url 5; Get tags_url 5]
    [Run ["ollama"; "--version"] false; Run ["ollama"; "--version"] false].
Proof.
  apply (unsupported_system_stops_setup get_down run_missing popen_ok
           "windows" []).
  - discriminate.
  - discriminate.
  - reflexivity.
  - reflexivity.
  - intros i e _ [= <-]. reflexivity.
Defined.

(** On Linux, with a service that answers the second poll after its
    start, the setup runs to its end. *)
Lemma setup_from_scratch_on_linux :
  runs (setup_main get_after_start run_ok popen_ok "linux") [] tt
    [Get tags_url 5; Get tags_url 5; Get tags_url 2; Get tags_url 2;
     Get tags_url 5]
    [Run ["ollama"; "--version"] false; Run ["ollama"; "--version"] false;
     Run install_command true; Popen ["ollama"; "serve"];
     Run ["ollama"; "pull"; "llama3.2:3b"] false].
Proof.
  apply (setup_from_scratch_succeeds get_after_start run_ok popen_ok "linux"
           [] 1 succeeded).
  - right. reflexivity.
  - reflexivity.
  - reflexivity.
  - intros i e _. discriminate.
  - reflexivity.
  - reflexivity.
  - lia.
  - intros j Hj. replace j with 0%nat by lia. reflexivity.
  - reflexivity.
  - reflexivity.
Defined.

End samples_scripts.
